(** * eyes.storybook: the command-line entry point and the Eyes session

    A shallow embedding of
    - [src/unnamed/part_001]: the command-line script (configuration
      validation, main execution flow, results handler with
      [EYES_TEST_FAILED_EXIT_CODE]);
    - [src/unnamed/part_000]: the earlier revision of the same script
      ([maxRunningBrowsers], [useRenderer], [process.exit()] without a code);
    - [src/lib/EyesStorybook.js]: the [EyesStorybook] session class.

    JavaScript values are a small inductive type, configuration objects are
    finite maps from property names to values, the script is written in a
    state-and-exception monad over the configuration object and the console,
    and the session class is a record with one function per method. *)

From Stdlib Require Import ZArith Ascii String List Bool Lia DecimalString.
From stdpp Require Import base option list strings gmap.
Import ListNotations.

Local Open Scope Z_scope.
Local Open Scope string_scope.

(** ** JavaScript values *)

(** Numbers are the integers and NaN: every number the modelled code reads
    is a count, a size or a version. Objects are maps from property names to
    values, arrays are lists. *)
#[warnings="-register-all"]
Inductive jsval : Type :=
| JUndefined
| JNull
| JBool (b : bool)
| JNum (n : Z)
| JNaN
| JStr (s : string)
| JArr (elems : list jsval)
| JObj (props : gmap string jsval).

(** ToBoolean: what [if (v)], [!v], [v && w] and [v || w] test. *)
Definition truthy (v : jsval) : bool :=
  match v with
  | JUndefined | JNull | JNaN => false
  | JBool b => b
  | JNum n => negb (Z.eqb n 0)
  | JStr s => negb (String.eqb s EmptyString)
  | JArr _ | JObj _ => true
  end.

(** [v || w] returns one of its operands. *)
Definition js_or (v w : jsval) : jsval := if truthy v then v else w.

(** [o.k] on an object held as a map: an absent property reads [undefined]. *)
Definition prop (o : gmap string jsval) (k : string) : jsval :=
  default JUndefined (o !! k).

(** [v !== n] for a number literal [n], negated: strict equality. *)
Definition strict_eq_num (v : jsval) (n : Z) : bool :=
  match v with
  | JNum m => Z.eqb m n
  | _ => false
  end.

(** [[s1, ..., sk].includes(v)] for an array of string literals. *)
Definition includes_str (l : list string) (v : jsval) : bool :=
  match v with
  | JStr s => existsb (String.eqb s) l
  | _ => false
  end.

(** [[n1, ..., nk].includes(v)] for an array of number literals. *)
Definition includes_num (l : list Z) (v : jsval) : bool :=
  match v with
  | JNum n => existsb (Z.eqb n) l
  | _ => false
  end.

(** [s.endsWith(suffix)] on strings. *)
Definition endsWith (s suffix : string) : bool :=
  let n := String.length s in
  let k := String.length suffix in
  (k <=? n)%nat && String.eqb (substring (n - k) k s) suffix.

(** Decimal rendering of a number inside a template literal. *)
Definition num_toString (n : Z) : string :=
  NilZero.string_of_int (Z.to_int n).

(** ** Errors, completions and promises *)

Inductive error : Type :=
| Error (message : string)
| TypeError (message : string).

(** A statement either completes normally or throws. *)
Inductive completion (A : Type) : Type :=
| Normal (a : A)
| Throw (e : error).
Arguments Normal {A} a.
Arguments Throw {A} e.

(** A settled promise. *)
Inductive promise (A : Type) : Type :=
| Resolved (a : A)
| Rejected (e : error).
Arguments Resolved {A} a.
Arguments Rejected {A} e.

(** [v.k] for an arbitrary value: reading a property of [undefined] or
    [null] throws a [TypeError]; the primitives and arrays met here carry
    none of the properties the script reads. *)
Definition member (v : jsval) (k : string) : completion jsval :=
  match v with
  | JUndefined => Throw (TypeError ("Cannot read property '" ++ k ++ "' of undefined"))
  | JNull => Throw (TypeError ("Cannot read property '" ++ k ++ "' of null"))
  | JObj o => Normal (prop o k)
  | _ => Normal JUndefined
  end.

(** ** The console *)

Inductive colour : Type := green | red.

(** One argument of a [console.log] or [console.error] call. *)
Inductive arg : Type :=
| Text (s : string)
| Coloured (c : colour) (s : string)
| ErrorValue (e : error)
| ErrorStack (e : error).

(** What the script emits, in order. [testStories] records that a runner
    was handed the stories: from then on stories are processed. *)
Inductive entry : Type :=
| console_log (args : list arg)
| console_error (args : list arg)
| logger_log (message : string)
| testStories (stories : list jsval).

(** ** Test results of the SDK *)

Record RectangleSize : Type := mkRectangleSize {
  width : Z;
  height : Z
}.

(** [toString()] of the SDK's [RectangleSize]: width, an x, height, the
    text [part_000] builds by hand from the two fields. *)
Definition RectangleSize_toString (s : RectangleSize) : string :=
  num_toString (width s) ++ "x" ++ num_toString (height s).

(** Modelled from the spec: [TestResults], a class of the SDK that is not
    part of the sources. The data model lists name, isNew, isPassed,
    mismatches, missing, steps, hostDisplaySize and appUrls as the fields of
    a result; the script reads them through the getters below only, and
    nothing in the script relates one getter to another. *)
Record TestResults : Type := mkTestResults {
  getName : string;
  getIsNew : bool;
  isPassed : bool;
  getMismatches : Z;
  getMissing : Z;
  getSteps : Z;
  getHostDisplaySize : RectangleSize;
  getBatch : string          (* getAppUrls().getBatch() *)
}.

(** ** The script monad: configuration object, console, exceptions *)

Record world : Type := mkWorld {
  configs : gmap string jsval;
  output : list entry
}.

Definition script (A : Type) : Type := world -> completion A * world.

Definition ret {A : Type} (a : A) : script A := fun w => (Normal a, w).

Definition bind {A B : Type} (c : script A) (k : A -> script B) : script B :=
  fun w =>
    match c w with
    | (Normal a, w') => k a w'
    | (Throw e, w') => (Throw e, w')
    end.

(** The monad in stdpp's classes, for the [x ← c; k] and [c ;; k] notations. *)
#[global] Instance script_ret : MRet script := @ret.
#[global] Instance script_bind : MBind script := fun A B k c => bind c k.

(** [throw e] *)
Definition throw {A : Type} (e : error) : script A := fun w => (Throw e, w).

(** [configs.k] *)
Definition cfg (k : string) : script jsval :=
  fun w => (Normal (prop (configs w) k), w).

(** [configs.k = v] *)
Definition set_cfg (k : string) (v : jsval) : script unit :=
  fun w => (Normal tt, mkWorld (<[k := v]> (configs w)) (output w)).

Definition emit (e : entry) : script unit :=
  fun w => (Normal tt, mkWorld (configs w) (output w ++ [e])).

(** [if (b) { c }] *)
Definition when (b : bool) (c : script unit) : script unit :=
  if b then c else ret tt.

(** Lifting of a completion computed without the world. *)
Definition lift {A : Type} (c : completion A) : script A := fun w => (c, w).

(** The current configuration object, as passed to a collaborator. *)
Definition the_configs : script (gmap string jsval) :=
  fun w => (Normal (configs w), w).

(** [array.forEach(f)] on the elements of an array, in order; a throw in
    [f] leaves the loop. *)
Fixpoint forEach {A : Type} (f : A -> script unit) (l : list A) : script unit :=
  match l with
  | [] => mret tt
  | x :: l' => f x;; forEach f l'
  end.

(** [v.forEach(f)] for an arbitrary value. *)
Definition js_forEach (name : string) (v : jsval) (f : jsval -> script unit) : script unit :=
  match v with
  | JArr l => forEach f l
  | _ => throw (TypeError (name ++ ".forEach is not a function"))
  end.

(** [p.then(f)] inside the script: [f] may touch the configuration object
    and the console; a rejection skips it. *)
Definition then_script {A B : Type} (p : script (promise A))
    (f : A -> script (promise B)) : script (promise B) :=
  r ← p;
  match r with
  | Resolved a => f a
  | Rejected e => mret (Rejected e)
  end.

(** ** How the process ends *)

(** [process.exit(code)], with the argument as written in the call, or an
    exception that reaches the top level of the script. *)
Inductive termination : Type :=
| process_exit (code : option Z)
| uncaught_exception (e : error).

(** The exit code the shell sees. The scripts never assign
    [process.exitCode], so [process.exit()] without an argument exits with 0;
    Node ends with code 1 on an uncaught exception. *)
Definition exit_code (t : termination) : Z :=
  match t with
  | process_exit (Some c) => c
  | process_exit None => 0
  | uncaught_exception _ => 1
  end.

Record process : Type := mkProcess {
  ended : termination;
  console : list entry;
  final_configs : gmap string jsval
}.

(** Runs a script from a configuration object and an empty console. *)
Definition run_script (c : script (option Z)) (conf : gmap string jsval) : process :=
  match c (mkWorld conf []) with
  | (Normal code, w) => mkProcess (process_exit code) (output w) (configs w)
  | (Throw e, w) => mkProcess (uncaught_exception e) (output w) (configs w)
  end.

(** Whether the console holds a [testStories] entry: a runner was called. *)
Definition is_testStories (e : entry) : bool :=
  match e with
  | testStories _ => true
  | _ => false
  end.

Definition dispatched (out : list entry) : bool := existsb is_testStories out.

(** ** Collaborators of the script *)

(** The file system, [StorybookUtils] and the two runners live outside the
    script; each is a function of the configuration object it is given. *)
Record Collaborators : Type := mkCollaborators {
  packageJsonPath : string;
  (* [None]: [fs.existsSync(packageJsonPath)] is false *)
  packageJson : option (gmap string jsval);
  (* [StorybookUtils.retrieveStorybookVersion]: the [app] and [version] found *)
  retrieveStorybookVersion :
    gmap string jsval -> option (list string) -> completion (jsval * jsval);
  buildStorybook : gmap string jsval -> promise unit;
  getStoriesFromStatic : gmap string jsval -> promise (list jsval);
  startServer : gmap string jsval -> promise jsval;
  getStoriesFromWeb : gmap string jsval -> promise (list jsval);
  (* [new EyesRenderingRunner(logger, promiseFactory, configs).testStories] *)
  EyesRenderingRunner : gmap string jsval -> list jsval -> promise (list TestResults);
  (* [new EyesWebDriverRunner(logger, promiseFactory, configs).testStories] *)
  EyesWebDriverRunner : gmap string jsval -> list jsval -> promise (list TestResults)
}.

(** The line feed and the double quote inside string literals. *)
Definition LF : string := String (ascii_of_nat 10) EmptyString.
Definition DQ : string := String (ascii_of_nat 34) EmptyString.

(** [if (!(viewportSize.width && viewportSize.height)) throw ...], the body
    of the loop over [configs.viewportSize] in both revisions ([!w || !h] in
    the earlier one). *)
Definition check_viewportSize (viewportSize : jsval) : script unit :=
  w ← lift (member viewportSize "width");
  wh ← (if truthy w then lift (member viewportSize "height") else mret w);
  when (negb (truthy wh))
    (throw (Error "ViewportSize object should contains width and height properties.")).

(** [if (!configs.apiKey) throw ...], the same in both revisions. *)
Definition require_apiKey : script unit :=
  apiKey ← cfg "apiKey";
  when (negb (truthy apiKey))
    (throw (Error "The Applitools API Key is missing. Please add it to your configuration file or set ENV key.")).

(** [if (!configs.k && configs.k !== 0) throw new Error('k should be defined.')],
    with [k] the name of the concurrency limit in the revision at hand. *)
Definition require_defined (k : string) : script unit :=
  limit ← cfg k;
  when (negb (truthy limit) && negb (strict_eq_num limit 0))
    (throw (Error (k ++ " should be defined."))).

(** [if (configs.storybookVersion && ![2, 3].includes(...)) throw ...] *)
Definition check_storybookVersion : script unit :=
  storybookVersion ← cfg "storybookVersion";
  when (truthy storybookVersion && negb (includes_num [2; 3] storybookVersion))
    (throw (Error "storybookVersion should be 2 or 3.")).

(** [if (configs.storybookAddress) { if (!...endsWith('/')) ... += '/' }] *)
Definition normalise_storybookAddress : script unit :=
  storybookAddress ← cfg "storybookAddress";
  when (truthy storybookAddress)
    match storybookAddress with
    | JStr s =>
        when (negb (endsWith s "/")) (set_cfg "storybookAddress" (JStr (s ++ "/")))
    | _ => throw (TypeError "configs.storybookAddress.endsWith is not a function")
    end.

(** [if (configs.viewportSize) { wrap in an array; check every entry }] *)
Definition validate_viewportSize : script unit :=
  viewportSize ← cfg "viewportSize";
  when (truthy viewportSize)
    (when (negb (match viewportSize with JArr _ => true | _ => false end))
       (set_cfg "viewportSize" (JArr [viewportSize]));;
     sizes ← cfg "viewportSize";
     js_forEach "configs.viewportSize" sizes check_viewportSize).

(** ** The script, [src/unnamed/part_001] *)

Module Part001.

Record Yargs : Type := mkYargs {
  browser : bool;
  build : bool;
  debug : bool
}.

Definition EYES_TEST_FAILED_EXIT_CODE : Z := 130.

Definition SUPPORTED_STORYBOOK3_APPS : list string :=
  ["react"; "vue"; "react-native"; "angular"; "polymer"].

(** [if (yargs.browser) {...}] and [if (yargs.build) {...}] *)
Definition apply_flags (yargs : Yargs) : script unit :=
  when (browser yargs)
    (set_cfg "useVisualGrid" (JBool false);;
     emit (logger_log "Forced Browser mode, due to --browser argument."));;
  when (build yargs)
    (set_cfg "skipStorybookBuild" (JBool false);;
     emit (logger_log "Build Storybook enabled, due to --build argument.")).

(** [if (configs.storybookApp && !SUPPORTED_STORYBOOK3_APPS.includes(...)) throw ...] *)
Definition check_storybookApp : script unit :=
  storybookApp ← cfg "storybookApp";
  when (truthy storybookApp && negb (includes_str SUPPORTED_STORYBOOK3_APPS storybookApp))
    (throw (Error ("storybookApp should be one of ["
                   ++ String.concat "," SUPPORTED_STORYBOOK3_APPS ++ "]."))).

(** The section "Validating configuration": its [if] statements in order. *)
Definition validating_configuration (yargs : Yargs) : script unit :=
  apply_flags yargs;;
  require_apiKey;;
  require_defined "maxConcurrency";;
  check_storybookApp;;
  check_storybookVersion;;
  normalise_storybookAddress;;
  validate_viewportSize.

(** The section "Parsing package.json". *)
Definition parsing_package_json (ext : Collaborators) : script unit :=
  match packageJson ext with
  | None => throw (Error ("package.json not found on path: " ++ packageJsonPath ext))
  | Some pj =>
      packageVersion ←
        lift (retrieveStorybookVersion ext pj (Some SUPPORTED_STORYBOOK3_APPS));
      appName ← cfg "appName";
      when (negb (truthy appName)) (set_cfg "appName" (prop pj "name"));;
      storybookApp ← cfg "storybookApp";
      when (negb (truthy storybookApp)) (set_cfg "storybookApp" (fst packageVersion));;
      storybookVersion ← cfg "storybookVersion";
      when (negb (truthy storybookVersion))
        (set_cfg "storybookVersion" (snd packageVersion))
  end.

(** The section "Main execution flow": the promise chain that ends in
    [runner.testStories(stories)]. *)
Definition main_execution_flow (ext : Collaborators) : script (promise (list TestResults)) :=
  useVisualGrid ← cfg "useVisualGrid";
  if truthy useVisualGrid then
    then_script (c ← the_configs; mret (buildStorybook ext c)) (fun _ =>
    then_script (c ← the_configs; mret (getStoriesFromStatic ext c)) (fun stories =>
      c ← the_configs;
      emit (testStories stories);;
      mret (EyesRenderingRunner ext c stories)))
  else
    then_script (c ← the_configs; mret (startServer ext c)) (fun storybookAddress =>
    then_script (set_cfg "storybookAddress" storybookAddress;; mret (Resolved tt)) (fun _ =>
    then_script (c ← the_configs; mret (getStoriesFromWeb ext c)) (fun stories =>
      c ← the_configs;
      emit (testStories stories);;
      mret (EyesWebDriverRunner ext c stories)))).

(** The body of [results.forEach(result => ...)]: prints the line of one
    result and returns the new value of [exitCode]. *)
Definition display_result (result : TestResults) (exitCode : Z) : script Z :=
  let storyTitle :=
    getName result ++ " [" ++ RectangleSize_toString (getHostDisplaySize result) ++ "] - " in
  if getIsNew result then
    emit (console_log [Text storyTitle; Coloured green "New"]);;
    mret exitCode
  else if isPassed result then
    emit (console_log [Text storyTitle; Coloured green "Passed"]);;
    mret exitCode
  else
    let stepsFailed := getMismatches result + getMissing result in
    emit (console_log [Text storyTitle;
                       Coloured red ("Failed " ++ num_toString stepsFailed
                                     ++ " of " ++ num_toString (getSteps result))]);;
    mret (if Z.ltb exitCode EYES_TEST_FAILED_EXIT_CODE
          then EYES_TEST_FAILED_EXIT_CODE else exitCode).

Fixpoint display_results (results : list TestResults) (exitCode : Z) : script Z :=
  match results with
  | [] => mret exitCode
  | result :: rest =>
      exitCode' ← display_result result exitCode;
      display_results rest exitCode'
  end.

(** The [.then(results => ...)] handler; its value is the argument of
    [process.exit]. *)
Definition on_results (results : list TestResults) : script (option Z) :=
  match results with
  | first :: _ =>
      emit (console_log [Text (LF ++ "[EYES: TEST RESULTS]:")]);;
      exitCode ← display_results results 0;
      emit (console_log [Text "See details at"; Text (getBatch first)]);;
      mret (Some exitCode)
  | [] =>
      emit (console_log [Text "Test is finished but no results returned."]);;
      mret (Some 0)
  end.

(** The [.catch(err => ...)] handler. *)
Definition on_error (yargs : Yargs) (err : error) : script (option Z) :=
  emit (console_error [ErrorValue err]);;
  when (negb (debug yargs))
    (emit (console_log [Text "Run with --debug flag to see more logs."]));;
  mret (Some 1).

(** The script from "Validating configuration" to the point where the
    promise of the main execution flow has settled. *)
Definition settle (ext : Collaborators) (yargs : Yargs) : script (promise (list TestResults)) :=
  validating_configuration yargs;;
  parsing_package_json ext;;
  main_execution_flow ext.

(** The script from "Validating configuration" to the end. *)
Definition script_body (ext : Collaborators) (yargs : Yargs) : script (option Z) :=
  settled ← settle ext yargs;
  match settled with
  | Resolved results => on_results results
  | Rejected err => on_error yargs err
  end.

Definition cli (ext : Collaborators) (yargs : Yargs) (conf : gmap string jsval) : process :=
  run_script (script_body ext yargs) conf.

End Part001.

(** ** The earlier revision of the script, [src/unnamed/part_000] *)

Module Part000.

Record Yargs : Type := mkYargs {
  debug : bool
}.

(** [if (configs.storybookApp && !['react', 'vue'].includes(...)) throw ...] *)
Definition check_storybookApp : script unit :=
  storybookApp ← cfg "storybookApp";
  when (truthy storybookApp && negb (includes_str ["react"; "vue"] storybookApp))
    (throw (Error ("storybookApp should be " ++ DQ ++ "react" ++ DQ ++ " or "
                   ++ DQ ++ "vue" ++ DQ ++ "."))).

(** The section "Validating configuration": its [if] statements in order. *)
Definition validating_configuration : script unit :=
  require_apiKey;;
  require_defined "maxRunningBrowsers";;
  check_storybookApp;;
  check_storybookVersion;;
  normalise_storybookAddress;;
  validate_viewportSize.

(** The section "Parsing package.json". *)
Definition parsing_package_json (ext : Collaborators) : script unit :=
  match packageJson ext with
  | None => throw (Error ("package.json not found on path: " ++ packageJsonPath ext))
  | Some pj =>
      packageVersion ← lift (retrieveStorybookVersion ext pj None);
      appName ← cfg "appName";
      when (negb (truthy appName)) (set_cfg "appName" (prop pj "name"));;
      storybookApp ← cfg "storybookApp";
      when (negb (truthy storybookApp)) (set_cfg "storybookApp" (fst packageVersion));;
      storybookVersion ← cfg "storybookVersion";
      when (negb (truthy storybookVersion))
        (set_cfg "storybookVersion" (snd packageVersion))
  end.

(** The section "Main execution flow". *)
Definition main_execution_flow (ext : Collaborators) : script (promise (list TestResults)) :=
  useRenderer ← cfg "useRenderer";
  if truthy useRenderer then
    then_script (c ← the_configs; mret (buildStorybook ext c)) (fun _ =>
    then_script (c ← the_configs; mret (getStoriesFromStatic ext c)) (fun stories =>
      c ← the_configs;
      emit (testStories stories);;
      mret (EyesRenderingRunner ext c stories)))
  else
    then_script (c ← the_configs; mret (startServer ext c)) (fun storybookAddress =>
    then_script
      (set_cfg "storybookAddress" storybookAddress;;
       c ← the_configs; mret (getStoriesFromWeb ext c)) (fun stories =>
      c ← the_configs;
      emit (testStories stories);;
      mret (EyesWebDriverRunner ext c stories))).

(** The body of [results.forEach(result => ...)]. *)
Definition display_result (result : TestResults) : script unit :=
  let storyTitle :=
    getName result ++ " [" ++ num_toString (width (getHostDisplaySize result)) ++ "x"
      ++ num_toString (height (getHostDisplaySize result)) ++ "] - " in
  if getIsNew result then
    emit (console_log [Text storyTitle; Coloured green "New"])
  else if isPassed result then
    emit (console_log [Text storyTitle; Coloured green "Passed"])
  else
    emit (console_log [Text storyTitle;
                       Coloured red ("Failed "
                                     ++ num_toString (getMismatches result + getMissing result)
                                     ++ " of " ++ num_toString (getSteps result))]).

(** The [.then(results => ...)] handler; it ends in [process.exit()]. *)
Definition on_results (results : list TestResults) : script (option Z) :=
  match results with
  | first :: _ =>
      emit (console_log [Text LF]);;
      emit (console_log [Text "[EYES: TEST RESULTS]:"]);;
      forEach display_result results;;
      emit (console_log [Text "See details at"; Text (getBatch first)]);;
      mret None
  | [] =>
      emit (console_log [Text "Test is finished but no results returned."]);;
      mret None
  end.

(** [err.message || err.toString()] *)
Definition error_message (err : error) : string :=
  match err with
  | Error EmptyString => "Error"
  | TypeError EmptyString => "TypeError"
  | Error m | TypeError m => m
  end.

(** The [.catch(function(err) {...})] handler. *)
Definition on_error (yargs : Yargs) (err : error) : script (option Z) :=
  emit (console_error [Text (error_message err)]);;
  (if debug yargs
   then emit (console_error [Text "DEBUG:"; ErrorStack err])
   else emit (console_log [Text "Run with --debug flag to see more logs."]));;
  mret (Some 1).

(** The script from "Validating configuration" to the point where the
    promise of the main execution flow has settled. *)
Definition settle (ext : Collaborators) : script (promise (list TestResults)) :=
  validating_configuration;;
  parsing_package_json ext;;
  main_execution_flow ext.

(** The script from "Validating configuration" to the end. *)
Definition script_body (ext : Collaborators) (yargs : Yargs) : script (option Z) :=
  settled ← settle ext;
  match settled with
  | Resolved results => on_results results
  | Rejected err => on_error yargs err
  end.

Definition cli (ext : Collaborators) (yargs : Yargs) (conf : gmap string jsval) : process :=
  run_script (script_body ext yargs) conf.

End Part000.

(** ** Vocabulary of the properties *)

(** The test of the third branch of the results loop: [getIsNew()] and
    [isPassed()] are both false. *)
Definition neither_new_nor_passed (r : TestResults) : bool :=
  negb (getIsNew r) && negb (isPassed r).

(** The story title that opens the line of a result. *)
Definition storyTitle (r : TestResults) : string :=
  getName r ++ " [" ++ RectangleSize_toString (getHostDisplaySize r) ++ "] - ".

(** The label of a result in the third branch. *)
Definition failed_label (r : TestResults) : arg :=
  Coloured red ("Failed " ++ num_toString (getMismatches r + getMissing r)
                ++ " of " ++ num_toString (getSteps r)).

(** A viewport-size entry lacks property [k]: it is an object without it,
    or no object at all. *)
Definition lacks (entry : jsval) (k : string) : Prop :=
  match entry with
  | JObj o => o !! k = None
  | _ => True
  end.

(** The entries of [configs.viewportSize]: the elements of the array, or
    the value itself when it is not an array. *)
Definition entries_of (viewportSize : jsval) : list jsval :=
  match viewportSize with
  | JArr l => l
  | _ => [viewportSize]
  end.

Definition viewportSize_entries (conf : gmap string jsval) : list jsval :=
  entries_of (prop conf "viewportSize").

(** Three ways to speak about a script without running it: [keeps Q c]
    says that [c] ends in a world satisfying [Q] whenever it starts in one,
    whether it completes or throws; [throws_when Q c] that [c] throws from
    every world satisfying [Q]; [throws_only P c] that every error [c]
    throws satisfies [P]. *)
Definition keeps {A : Type} (Q : world -> Prop) (c : script A) : Prop :=
  forall w, Q w -> Q (snd (c w)).

Definition throws_when {A : Type} (Q : world -> Prop) (c : script A) : Prop :=
  forall w, Q w -> exists e w', c w = (Throw e, w').

Definition throws_only {A : Type} (P : error -> Prop) (c : script A) : Prop :=
  forall w e w', c w = (Throw e, w') -> P e.

(** The console holds nothing but lines of the logger: no runner has been
    handed the stories and no line of the results has been printed. *)
Definition is_logger_log (e : entry) : bool :=
  match e with
  | logger_log _ => true
  | _ => false
  end.

Definition only_logged (w : world) : Prop := forallb is_logger_log (output w) = true.

(** [configs.k] holds [v]. *)
Definition holds (k : string) (v : jsval) (w : world) : Prop :=
  prop (configs w) k = v.

(** ** Sample inputs *)

(** Collaborators of a run in which everything outside the script works:
    a package.json with a name, a Storybook 3 React app, a local server, one
    story, and runners whose promise settles as [settled]. *)
Definition collaborators_with (settled : promise (list TestResults)) : Collaborators :=
  {| packageJsonPath := "/project/package.json";
     packageJson := Some (<["name" := JStr "app"]> ∅);
     retrieveStorybookVersion := fun _ _ => Normal (JStr "react", JNum 3);
     buildStorybook := fun _ => Resolved tt;
     getStoriesFromStatic := fun _ => Resolved [JStr "Button"];
     startServer := fun _ => Resolved (JStr "http://localhost:9001/");
     getStoriesFromWeb := fun _ => Resolved [JStr "Button"];
     EyesRenderingRunner := fun _ _ => settled;
     EyesWebDriverRunner := fun _ _ => settled |}.

(** A configuration with an API key and the given concurrency limit, under
    the name each revision reads. *)
Definition configs_with_concurrency (limit : jsval) : gmap string jsval :=
  <["apiKey" := JStr "key"]>
    (<["maxConcurrency" := limit]> (<["maxRunningBrowsers" := limit]> ∅)).

Definition no_flags_001 : Part001.Yargs := Part001.mkYargs false false false.
Definition no_flags_000 : Part000.Yargs := Part000.mkYargs false.

(** A result that is not new, not passed, with one mismatch in one step. *)
Definition result_mismatch : TestResults :=
  mkTestResults "Button" false false 1 0 1 (mkRectangleSize 800 600) "https://eyes/batches/1".

(** A result that is not new and not passed, with no mismatch and nothing
    missing. *)
Definition result_unpassed_clean : TestResults :=
  mkTestResults "Button" false false 0 0 1 (mkRectangleSize 800 600) "https://eyes/batches/1".

(** A result flagged new that carries a mismatch count. *)
Definition result_new_mismatch : TestResults :=
  mkTestResults "Button" true false 1 0 1 (mkRectangleSize 800 600) "https://eyes/batches/1".

(** A new result and a passed one. *)
Definition result_new : TestResults :=
  mkTestResults "Card" true false 0 0 1 (mkRectangleSize 800 600) "https://eyes/batches/1".

Definition result_passed : TestResults :=
  mkTestResults "Button" false true 0 0 1 (mkRectangleSize 800 600) "https://eyes/batches/1".

(** ** The session class, [src/lib/EyesStorybook.js] *)

Module Session.

(** The image handed to [checkImage] ([MutableImage] of the SDK). *)
Record MutableImage : Type := mkMutableImage {
  getWidth : Z;
  getHeight : Z
}.

(** Modelled from the spec: [EyesSimpleScreenshot] of the SDK wraps the
    captured image; its size is the image's own dimensions. *)
Record EyesSimpleScreenshot : Type := mkEyesSimpleScreenshot {
  getImage : MutableImage
}.

Definition getSize (screenshot : EyesSimpleScreenshot) : RectangleSize :=
  mkRectangleSize (getWidth (getImage screenshot)) (getHeight (getImage screenshot)).

(** A piece of a template literal: text or an interpolated value. *)
Inductive fragment : Type :=
| Lit (s : string)
| Interp (v : jsval).

(** The calls the class makes into [EyesBase] and its logger, in order.
    [checkSingleWindowBase] is the one that reports a checkpoint to the
    server; its region provider is always a [NullRegionProvider]. *)
Inductive base_call : Type :=
| openBase (appName testName : string)
| checkSingleWindowBase (title : jsval) (ignoreMismatch : bool) (checkSettings : Z)
| logger_verbose (message : list fragment).

Record EyesStorybook : Type := mkEyesStorybook {
  (* state kept by EyesBase *)
  apiKey : jsval;
  serverUrl : option jsval;          (* [None]: the default of the SDK *)
  proxy : option jsval;
  _viewportSizeHandler : option RectangleSize;   (* [None]: never set *)
  base_calls : list base_call;
  (* fields of the class *)
  _title : jsval;
  _screenshot : option EyesSimpleScreenshot;     (* [None]: undefined *)
  _screenshotUrl : jsval;
  _inferred : jsval
}.

(** [constructor(configs, promiseFactory)] *)
Definition constructor (configs : gmap string jsval) : EyesStorybook :=
  {| apiKey := prop configs "apiKey";
     serverUrl := if truthy (prop configs "serverUrl")
                  then Some (prop configs "serverUrl") else None;
     proxy := if truthy (prop configs "proxy") then Some (prop configs "proxy") else None;
     _viewportSizeHandler := None;
     base_calls := [];
     _title := JUndefined;
     _screenshot := None;
     _screenshotUrl := JUndefined;
     _inferred := JStr EmptyString |}.

Definition record_call (c : base_call) (s : EyesStorybook) : EyesStorybook :=
  mkEyesStorybook (apiKey s) (serverUrl s) (proxy s) (_viewportSizeHandler s)
    (base_calls s ++ [c]) (_title s) (_screenshot s) (_screenshotUrl s) (_inferred s).

Definition set_viewportSizeHandler (v : RectangleSize) (s : EyesStorybook) : EyesStorybook :=
  mkEyesStorybook (apiKey s) (serverUrl s) (proxy s) (Some v)
    (base_calls s) (_title s) (_screenshot s) (_screenshotUrl s) (_inferred s).

(** The three assignments that open [checkImage] and [checkUrl]. *)
Definition set_checkpoint (title : jsval) (screenshot : option EyesSimpleScreenshot)
    (screenshotUrl : jsval) (s : EyesStorybook) : EyesStorybook :=
  mkEyesStorybook (apiKey s) (serverUrl s) (proxy s) (_viewportSizeHandler s)
    (base_calls s) title screenshot screenshotUrl (_inferred s).

(** [open(appName, testName, viewportSize)]: [openBase_result] is how the
    promise of [super.openBase] settles; the handler is set in its [then]. *)
Definition open (appName testName : string) (viewportSize : RectangleSize)
    (openBase_result : promise unit) (s : EyesStorybook) : promise unit * EyesStorybook :=
  let s1 := record_call (openBase appName testName) s in
  match openBase_result with
  | Resolved _ => (Resolved tt, set_viewportSizeHandler viewportSize s1)
  | Rejected e => (Rejected e, s1)
  end.

(** [checkImage(screenshot, title)]: [match_result] is how the promise of
    [super.checkSingleWindowBase] settles; it is returned as it is. The
    three fields are assigned before the base class is called, so they hold
    whatever the base class does next. *)
Definition checkImage (screenshot : MutableImage) (title : jsval)
    (match_result : promise jsval) (s : EyesStorybook) : promise jsval * EyesStorybook :=
  let s1 := set_checkpoint (js_or title (JStr EmptyString))
              (Some (mkEyesSimpleScreenshot screenshot)) JUndefined s in
  let s2 := record_call
              (logger_verbose [Lit "checkImage(screenshot, "; Lit DQ; Interp title; Lit DQ; Lit ")"])
              s1 in
  (match_result, record_call (checkSingleWindowBase title false 0) s2).

(** [checkUrl(imageLocation, title)] *)
Definition checkUrl (imageLocation : jsval) (title : jsval)
    (match_result : promise jsval) (s : EyesStorybook) : promise jsval * EyesStorybook :=
  let s1 := set_checkpoint (js_or title (JStr EmptyString)) None imageLocation s in
  let s2 := record_call
              (logger_verbose [Lit "checkUrl("; Interp imageLocation; Lit ", "; Lit DQ;
                               Interp title; Lit DQ; Lit ")"])
              s1 in
  (match_result, record_call (checkSingleWindowBase title false 0) s2).

(** [close(throwEx = true)]: the argument is not used. *)
Definition close (throwEx : jsval) (s : EyesStorybook) : promise jsval * EyesStorybook :=
  (Resolved JUndefined, s).

(** [getAUTSessionId()] *)
Definition getAUTSessionId (s : EyesStorybook) : promise jsval := Resolved JUndefined.

(** [getViewportSize()]; [None] is the value of a handler never set. *)
Definition getViewportSize (s : EyesStorybook) : promise (option RectangleSize) :=
  match _screenshot s with
  | Some screenshot => Resolved (Some (getSize screenshot))
  | None => Resolved (_viewportSizeHandler s)
  end.

(** [setViewportSize(viewportSize)] *)
Definition setViewportSize (viewportSize : RectangleSize) (s : EyesStorybook)
    : promise jsval * EyesStorybook :=
  (Resolved JUndefined, set_viewportSizeHandler viewportSize s).

(** [getInferredEnvironment()] *)
Definition getInferredEnvironment (s : EyesStorybook) : promise jsval :=
  Resolved (_inferred s).

(** [setInferredEnvironment(inferred)] *)
Definition setInferredEnvironment (inferred : jsval) (s : EyesStorybook) : EyesStorybook :=
  mkEyesStorybook (apiKey s) (serverUrl s) (proxy s) (_viewportSizeHandler s)
    (base_calls s) (_title s) (_screenshot s) (_screenshotUrl s) inferred.

(** [getScreenshot()] *)
Definition getScreenshot (s : EyesStorybook) : promise (option EyesSimpleScreenshot) :=
  Resolved (_screenshot s).

(** [getScreenshotUrl()] *)
Definition getScreenshotUrl (s : EyesStorybook) : promise jsval :=
  Resolved (_screenshotUrl s).

(** [getTitle()] *)
Definition getTitle (s : EyesStorybook) : promise jsval := Resolved (_title s).

(** *** Sequences of method calls *)

(** One call of a method that can change the session, with the way the
    promise of the base class settles where there is one. *)
Inductive call : Type :=
| Open (appName testName : string) (viewportSize : RectangleSize)
       (openBase_result : promise unit)
| CheckImage (screenshot : MutableImage) (title : jsval) (match_result : promise jsval)
| CheckUrl (imageLocation : jsval) (title : jsval) (match_result : promise jsval)
| Close (throwEx : jsval)
| SetViewportSize (viewportSize : RectangleSize)
| SetInferredEnvironment (inferred : jsval).

Definition step (s : EyesStorybook) (c : call) : EyesStorybook :=
  match c with
  | Open appName testName viewportSize r => snd (open appName testName viewportSize r s)
  | CheckImage screenshot title r => snd (checkImage screenshot title r s)
  | CheckUrl imageLocation title r => snd (checkUrl imageLocation title r s)
  | Close throwEx => snd (close throwEx s)
  | SetViewportSize viewportSize => snd (setViewportSize viewportSize s)
  | SetInferredEnvironment inferred => setInferredEnvironment inferred s
  end.

(** The session after the calls, made in order. *)
Definition after (calls : list call) (s : EyesStorybook) : EyesStorybook :=
  fold_left step calls s.

(** The checkpoints reported so far. *)
Definition is_checkpoint (c : base_call) : bool :=
  match c with
  | checkSingleWindowBase _ _ _ => true
  | _ => false
  end.

Definition checkpoints (s : EyesStorybook) : list base_call :=
  List.filter is_checkpoint (base_calls s).

(** At most one of the screenshot and the screenshot URL is set. *)
Definition exclusive (s : EyesStorybook) : Prop :=
  _screenshot s = None \/ _screenshotUrl s = JUndefined.

End Session.

(** ** Loading the configuration *)

(** What the sections before "Validating configuration" read from outside
    the script. *)
Record Environment : Type := mkEnvironment {
  (* [require('../package.json').version] *)
  VERSION : string;
  (* [path.resolve(process.cwd(), conf)] *)
  resolve : string -> string;
  (* the module at a path; [None]: [fs.existsSync(path)] is false *)
  configFile : string -> option (gmap string jsval);
  (* [require('../src/DefaultConfig')], [DefaultConfigs] in [part_000] *)
  defaultConfig : gmap string jsval
}.

Definition DEFAULT_CONFIG_PATH : string := "applitools.config.js".

(** [Object.assign(target, source)]: the properties of [source] are written
    over those of [target]. *)
Definition Object_assign (target source : gmap string jsval) : gmap string jsval :=
  source ∪ target.

(** [configs = c] *)
Definition put_configs (c : gmap string jsval) : script unit :=
  fun w => (Normal tt, mkWorld c (output w)).

(** The section "Load configuration from config file" of [part_001] and the
    script that follows it. Before [configs] is assigned the configuration
    object of the world is empty. *)
Module Load001.

Record Argv : Type := mkArgv {
  conf : string;
  verbose : bool;
  yargs : Part001.Yargs
}.

Definition loading_configuration (env : Environment) (argv : Argv) : script unit :=
  emit (console_log [Text ("Used eyes.storybook of version " ++ VERSION env ++ ".")]);;
  let configsPath := resolve env (conf argv) in
  match configFile env configsPath with
  | Some userDefinedConfig =>
      put_configs (Object_assign (defaultConfig env) userDefinedConfig);;
      emit (console_log [Text ("Configuration was loaded from " ++ DQ ++ configsPath
                               ++ DQ ++ ".")])
  | None =>
      if negb (String.eqb (conf argv) DEFAULT_CONFIG_PATH) then
        throw (Error ("Configuration file cannot be found in " ++ DQ ++ configsPath
                      ++ DQ ++ "."))
      else
        emit (console_log [Text "No configuration file found. Use default."]);;
        put_configs (defaultConfig env)
  end;;
  when (verbose argv || Part001.debug (yargs argv))
    (set_cfg "showLogs" (JStr "verbose");;
     set_cfg "showStorybookOutput" (JBool true);;
     when (Part001.debug (yargs argv)) (set_cfg "showEyesSdkLogs" (JStr "verbose"))).

(** The script from its first [console.log] to the end. *)
Definition main (ext : Collaborators) (env : Environment) (argv : Argv) : process :=
  run_script (loading_configuration env argv;; Part001.script_body ext (yargs argv)) ∅.

End Load001.

(** The section "Load configuration from config file" of [part_000] and the
    script that follows it. *)
Module Load000.

Record Argv : Type := mkArgv {
  conf : string;
  yargs : Part000.Yargs
}.

Definition loading_configuration (env : Environment) (argv : Argv) : script unit :=
  let configsPath := resolve env (conf argv) in
  match configFile env configsPath with
  | Some userDefinedConfig =>
      emit (console_log [Text ("Loading configuration from " ++ DQ ++ configsPath
                               ++ DQ ++ "...")]);;
      put_configs (Object_assign (defaultConfig env) userDefinedConfig)
  | None =>
      if negb (String.eqb (conf argv) DEFAULT_CONFIG_PATH) then
        throw (Error ("Config file cannot be found in " ++ DQ ++ configsPath ++ DQ ++ "."))
      else
        put_configs (defaultConfig env)
  end;;
  when (Part000.debug (yargs argv))
    (set_cfg "showLogs" (JStr "verbose");;
     set_cfg "showEyesSdkLogs" (JStr "verbose");;
     set_cfg "showStorybookOutput" (JBool true)).

(** The script from the loading of the configuration to the end. *)
Definition main (ext : Collaborators) (env : Environment) (argv : Argv) : process :=
  run_script (loading_configuration env argv;; Part000.script_body ext (yargs argv)) ∅.

End Load000.

(** ** Vocabulary of the further properties *)

(** The line the results loop prints for a result. *)
Definition result_line (r : TestResults) : entry :=
  console_log [Text (storyTitle r);
               if neither_new_nor_passed r then failed_label r
               else Coloured green (if getIsNew r then "New" else "Passed")].

(** A viewport-size entry the loop lets through: a width and a height that
    are both truthy. *)
Definition entry_ok (entry : jsval) : bool :=
  match entry with
  | JObj o => truthy (prop o "width") && truthy (prop o "height")
  | _ => false
  end.

Definition is_string (v : jsval) : bool :=
  match v with
  | JStr _ => true
  | _ => false
  end.

(** The configurations the validation lets through, with the name of the
    concurrency limit and the supported apps of the revision at hand. *)
Definition accepts (limit : string) (apps : list string) (conf : gmap string jsval) : bool :=
  truthy (prop conf "apiKey")
  && (truthy (prop conf limit) || strict_eq_num (prop conf limit) 0)
  && (negb (truthy (prop conf "storybookApp"))
      || includes_str apps (prop conf "storybookApp"))
  && (negb (truthy (prop conf "storybookVersion"))
      || includes_num [2; 3] (prop conf "storybookVersion"))
  && (negb (truthy (prop conf "storybookAddress"))
      || is_string (prop conf "storybookAddress"))
  && (negb (truthy (prop conf "viewportSize"))
      || forallb entry_ok (entries_of (prop conf "viewportSize"))).

(** A script only appends to the console: run after the lines [pre], it
    does what it does on an empty console, with [pre] in front. *)
Definition appends {A : Type} (c : script A) : Prop :=
  forall conf pre,
    c (mkWorld conf pre)
    = (fst (c (mkWorld conf [])),
       mkWorld (configs (snd (c (mkWorld conf [])))) (pre ++ output (snd (c (mkWorld conf []))))).

(** The process of a script run after the lines [pre]. *)
Definition with_prefix (pre : list entry) (p : process) : process :=
  mkProcess (ended p) (pre ++ console p) (final_configs p).

(** The checkpoints a method call reports. *)
Definition reported_by (c : Session.call) : list Session.base_call :=
  match c with
  | Session.CheckImage _ title _ | Session.CheckUrl _ title _ =>
      [Session.checkSingleWindowBase title false 0]
  | _ => []
  end.

Definition is_check (c : Session.call) : bool :=
  match c with
  | Session.CheckImage _ _ _ | Session.CheckUrl _ _ _ => true
  | _ => false
  end.

(** The collaborators [ext] with other functions for the remote rendering
    backend, and with other functions for the local backend. *)
Definition with_rendering (ext : Collaborators)
    (build : gmap string jsval -> promise unit)
    (stories : gmap string jsval -> promise (list jsval))
    (runner : gmap string jsval -> list jsval -> promise (list TestResults))
    : Collaborators :=
  mkCollaborators (packageJsonPath ext) (packageJson ext) (retrieveStorybookVersion ext)
    build stories (startServer ext) (getStoriesFromWeb ext)
    runner (EyesWebDriverRunner ext).

Definition with_webdriver (ext : Collaborators)
    (server : gmap string jsval -> promise jsval)
    (stories : gmap string jsval -> promise (list jsval))
    (runner : gmap string jsval -> list jsval -> promise (list TestResults))
    : Collaborators :=
  mkCollaborators (packageJsonPath ext) (packageJson ext) (retrieveStorybookVersion ext)
    (buildStorybook ext) (getStoriesFromStatic ext) server stories
    (EyesRenderingRunner ext) runner.

(** How often the stories were handed to a runner. *)
Definition dispatches (out : list entry) : nat := length (List.filter is_testStories out).

(** Collaborators of a project without a package.json. *)
Definition collaborators_without_package_json : Collaborators :=
  {| packageJsonPath := "/project/package.json";
     packageJson := None;
     retrieveStorybookVersion := fun _ _ => Normal (JStr "react", JNum 3);
     buildStorybook := fun _ => Resolved tt;
     getStoriesFromStatic := fun _ => Resolved [JStr "Button"];
     startServer := fun _ => Resolved (JStr "http://localhost:9001/");
     getStoriesFromWeb := fun _ => Resolved [JStr "Button"];
     EyesRenderingRunner := fun _ _ => Resolved [];
     EyesWebDriverRunner := fun _ _ => Resolved [] |}.

(** An environment of version 1.5.0 whose default configuration holds an
    API key and a concurrency limit, with the given configuration file (or
    none) at every path. *)
Definition environment_with (file : option (gmap string jsval)) : Environment :=
  {| VERSION := "1.5.0";
     resolve := fun conf => "/project/" ++ conf;
     configFile := fun _ => file;
     defaultConfig :=
       <["apiKey" := JStr "default-key"]>
         (<["maxConcurrency" := JNum 10]> (<["maxRunningBrowsers" := JNum 10]> ∅)) |}.

(** A configuration file that sets another API key and a viewport size. *)
Definition sample_file : gmap string jsval :=
  <["apiKey" := JStr "file-key"]>
    (<["viewportSize" := JObj (<["width" := JNum 800]> (<["height" := JNum 600]> ∅))]>
       (<["storybookAddress" := JStr "http://localhost:9001"]> ∅)).

(** The sample file over the defaults. *)
Definition sample_configs : gmap string jsval :=
  Object_assign (defaultConfig (environment_with None)) sample_file.

(** * Sample runs *)

Example endsWith_slash :
  endsWith "http://localhost:9001/" "/" = true
  /\ endsWith "http://localhost:9001" "/" = false
  /\ endsWith EmptyString "/" = false.
Proof. repeat split. Qed.

Example truthy_values :
  map truthy [JUndefined; JNull; JNaN; JNum 0; JStr EmptyString; JBool false;
              JNum 2; JStr "0"; JArr []; JObj ∅]
  = [false; false; false; false; false; false; true; true; true; true].
Proof. reflexivity. Qed.

(** A run of [part_001] in local mode with a new and a mismatching result. *)
Example run_001_with_mismatch :
  let p := Part001.cli (collaborators_with (Resolved [result_new; result_mismatch]))
             no_flags_001
             (<["storybookAddress" := JStr "http://localhost:9001"]>
                (configs_with_concurrency (JNum 2))) in
  ended p = process_exit (Some 130)
  /\ console p
     = [testStories [JStr "Button"];
        console_log [Text (LF ++ "[EYES: TEST RESULTS]:")];
        console_log [Text "Card [800x600] - "; Coloured green "New"];
        console_log [Text "Button [800x600] - "; Coloured red "Failed 1 of 1"];
        console_log [Text "See details at"; Text "https://eyes/batches/1"]]
  /\ prop (final_configs p) "storybookAddress" = JStr "http://localhost:9001/"
  /\ prop (final_configs p) "appName" = JStr "app"
  /\ prop (final_configs p) "storybookVersion" = JNum 3.
Proof. vm_compute. repeat split. Qed.

(** The same results in [part_000]: the same lines, [process.exit()]. *)
Example run_000_with_mismatch :
  let p := Part000.cli (collaborators_with (Resolved [result_new; result_mismatch]))
             no_flags_000 (configs_with_concurrency (JNum 2)) in
  ended p = process_exit None
  /\ exit_code (ended p) = 0
  /\ console p
     = [testStories [JStr "Button"];
        console_log [Text LF];
        console_log [Text "[EYES: TEST RESULTS]:"];
        console_log [Text "Card [800x600] - "; Coloured green "New"];
        console_log [Text "Button [800x600] - "; Coloured red "Failed 1 of 1"];
        console_log [Text "See details at"; Text "https://eyes/batches/1"]].
Proof. vm_compute. repeat split. Qed.

(** A rejected run: the [catch] handler of each revision. *)
Example run_rejected :
  Part001.cli (collaborators_with (Rejected (Error "Unauthorized"))) no_flags_001
    (configs_with_concurrency (JNum 2))
  = mkProcess (process_exit (Some 1))
      [testStories [JStr "Button"];
       console_error [ErrorValue (Error "Unauthorized")];
       console_log [Text "Run with --debug flag to see more logs."]]
      (final_configs (Part001.cli (collaborators_with (Rejected (Error "Unauthorized")))
                        no_flags_001 (configs_with_concurrency (JNum 2))))
  /\ console (Part000.cli (collaborators_with (Rejected (Error "Unauthorized")))
                (Part000.mkYargs true) (configs_with_concurrency (JNum 2)))
     = [testStories [JStr "Button"];
        console_error [Text "Unauthorized"];
        console_error [Text "DEBUG:"; ErrorStack (Error "Unauthorized")]].
Proof. vm_compute. repeat split. Qed.

(** A viewport size given as one object without a height. *)
Example run_001_bad_viewportSize :
  ended (Part001.cli (collaborators_with (Resolved [result_passed]))
           (Part001.mkYargs true false false)
           (<["viewportSize" := JObj (<["width" := JNum 800]> ∅)]>
              (configs_with_concurrency (JNum 2))))
  = uncaught_exception
      (Error "ViewportSize object should contains width and height properties.")
  /\ console (Part001.cli (collaborators_with (Resolved [result_passed]))
                (Part001.mkYargs true false false)
                (<["viewportSize" := JObj (<["width" := JNum 800]> ∅)]>
                   (configs_with_concurrency (JNum 2))))
     = [logger_log "Forced Browser mode, due to --browser argument."].
Proof. vm_compute. repeat split. Qed.

(** * Properties of the session class *)

Section SessionFacts.

Import Session.

Implicit Types (s : EyesStorybook) (c : call) (calls : list call).

Lemma after_app calls1 calls2 s :
  after (calls1 ++ calls2) s = after calls2 (after calls1 s).
Proof. unfold after. apply fold_left_app. Qed.

Lemma after_snoc calls c s : after (calls ++ [c]) s = step (after calls s) c.
Proof. rewrite after_app. reflexivity. Qed.

(** Every method keeps the two fields exclusive. *)
Lemma step_exclusive s c : exclusive s -> exclusive (step s c).
Proof.
  intros Hs. destruct c as [a t v r| img t r| u t r| x| v| i]; cbn.
  - destruct r; exact Hs.
  - right. reflexivity.
  - left. reflexivity.
  - exact Hs.
  - exact Hs.
  - exact Hs.
Qed.

Lemma constructor_exclusive (configs : gmap string jsval) : exclusive (constructor configs).
Proof. left. reflexivity. Qed.

Lemma after_exclusive calls s : exclusive s -> exclusive (after calls s).
Proof.
  revert s. induction calls as [|c calls IH]; intros s Hs.
  - exact Hs.
  - cbn. apply IH, step_exclusive, Hs.
Qed.

(** C3: for every session and every sequence of method calls (any
    interleaving of checkImage and checkUrl, with the other methods in
    between), at most one of the in-memory screenshot and the screenshot URL
    is set in the state reached; after a checkImage getScreenshot resolves to
    its screenshot and getScreenshotUrl to undefined, after a checkUrl
    getScreenshotUrl resolves to its URL and getScreenshot to undefined, so
    the kind supplied last wins. *)
Theorem screenshot_and_url_exclusive :
  forall (configs : gmap string jsval) (calls : list call),
    exclusive (after calls (constructor configs))
    /\ (forall img title r,
          let s := after (calls ++ [CheckImage img title r]) (constructor configs) in
          getScreenshot s = Resolved (Some (mkEyesSimpleScreenshot img))
          /\ getScreenshotUrl s = Resolved JUndefined)
    /\ (forall url title r,
          let s := after (calls ++ [CheckUrl url title r]) (constructor configs) in
          getScreenshotUrl s = Resolved url /\ getScreenshot s = Resolved None).
Proof.
  intros configs calls. split; [|split].
  - apply after_exclusive, constructor_exclusive.
  - intros img title r. cbv zeta. rewrite after_snoc. split; reflexivity.
  - intros url title r. cbv zeta. rewrite after_snoc. split; reflexivity.
Qed.

(** A checkpoint call adds exactly one checkpoint, whatever its promise. *)
Lemma checkImage_reports_one img title r s :
  checkpoints (snd (checkImage img title r s))
  = (checkpoints s ++ [checkSingleWindowBase title false 0])%list.
Proof.
  unfold checkpoints. cbn. rewrite !List.filter_app. cbn.
  rewrite app_nil_r. reflexivity.
Qed.

Lemma checkUrl_reports_one url title r s :
  checkpoints (snd (checkUrl url title r s))
  = (checkpoints s ++ [checkSingleWindowBase title false 0])%list.
Proof.
  unfold checkpoints. cbn. rewrite !List.filter_app. cbn.
  rewrite app_nil_r. reflexivity.
Qed.

(** C7: in every session state, so in each one reached after a checkpoint
    whose promise resolved or rejected, and for every throwEx, close
    resolves, leaves the state as it was, and the list of reported
    checkpoints is the same after it, also when close is called again: a
    new session that checks an image or a URL and is then closed has
    reported exactly one checkpoint. *)
Theorem close_resolves_and_changes_nothing :
  forall (s : EyesStorybook) (throwEx throwEx' : jsval),
    fst (close throwEx s) = Resolved JUndefined
    /\ snd (close throwEx s) = s
    /\ checkpoints (snd (close throwEx s)) = checkpoints s
    /\ close throwEx' (snd (close throwEx s)) = close throwEx s
    /\ (forall calls, after (calls ++ [Close throwEx]) s = after calls s)
    /\ (forall configs img title r,
          checkpoints (after [CheckImage img title r; Close throwEx; Close throwEx']
                         (constructor configs))
          = [checkSingleWindowBase title false 0])
    /\ (forall configs url title r,
          checkpoints (after [CheckUrl url title r; Close throwEx; Close throwEx']
                         (constructor configs))
          = [checkSingleWindowBase title false 0]).
Proof.
  intros s throwEx throwEx'. repeat split.
  intros calls. rewrite after_snoc. reflexivity.
Qed.

(** C10: when the title argument of checkImage or checkUrl is falsy
    (omitted, so undefined, or null, false, 0, NaN, the empty string), the
    title of the session becomes the empty string and getTitle resolves to
    it. *)
Theorem falsy_title_becomes_empty_string :
  forall (title : jsval) (r : promise jsval) (s : EyesStorybook),
    truthy title = false ->
    (forall img,
        _title (snd (checkImage img title r s)) = JStr EmptyString
        /\ getTitle (snd (checkImage img title r s)) = Resolved (JStr EmptyString))
    /\ (forall url,
        _title (snd (checkUrl url title r s)) = JStr EmptyString
        /\ getTitle (snd (checkUrl url title r s)) = Resolved (JStr EmptyString)).
Proof.
  intros title r s Hfalsy.
  split; intros x; unfold getTitle; cbn; unfold js_or; rewrite Hfalsy; split; reflexivity.
Qed.

Lemma falsy_title_becomes_empty_string_witness :
  truthy JUndefined = false
  /\ _title (snd (checkImage (mkMutableImage 1024 768) JUndefined (Resolved JUndefined)
                    (constructor ∅))) = JStr EmptyString
  /\ getTitle (snd (checkUrl (JStr "https://render/1.png") JUndefined (Rejected (Error "x"))
                      (constructor ∅))) = Resolved (JStr EmptyString).
Proof.
  split; [reflexivity|].
  pose proof (falsy_title_becomes_empty_string JUndefined (Resolved JUndefined)
                (constructor ∅) eq_refl) as [Himg _].
  pose proof (falsy_title_becomes_empty_string JUndefined (Rejected (Error "x"))
                (constructor ∅) eq_refl) as [_ Hurl].
  split.
  - exact (proj1 (Himg (mkMutableImage 1024 768))).
  - exact (proj2 (Hurl (JStr "https://render/1.png"))).
Defined.

(** A truthy title is kept as it is. *)
Lemma truthy_title_is_kept img title r s :
  truthy title = true -> _title (snd (checkImage img title r s)) = title.
Proof. intros H. cbn. unfold js_or. rewrite H. reflexivity. Qed.

(** C6, as the code has it: once an in-memory screenshot is set,
    getViewportSize resolves to the size of that image, whether or not a
    viewport size was declared; with no screenshot (a new session, or after
    checkUrl) it resolves to the value of the viewport-size handler, which
    is the size given to open or setViewportSize, or unset. *)
Theorem getViewportSize_prefers_screenshot :
  forall (s : EyesStorybook),
    (forall img title r,
        getViewportSize (snd (checkImage img title r s))
        = Resolved (Some (mkRectangleSize (getWidth img) (getHeight img))))
    /\ (forall url title r,
        getViewportSize (snd (checkUrl url title r s)) = Resolved (_viewportSizeHandler s))
    /\ (forall configs, getViewportSize (constructor configs) = Resolved None)
    /\ (forall configs appName testName size,
        getViewportSize (snd (open appName testName size (Resolved tt) (constructor configs)))
        = Resolved (Some size))
    /\ (forall img title r size,
        getViewportSize (snd (checkImage img title r (snd (setViewportSize size s))))
        = Resolved (Some (mkRectangleSize (getWidth img) (getHeight img)))).
Proof. intros s. repeat split. Qed.

(** C6 as stated fails: the viewport is declared as 800x600 in open, then
    a 1024x768 image is checked; getViewportSize resolves to the size of the
    image, not to the declared value. *)
Lemma getViewportSize_declared_counterexample :
  let s := after [Open "app" "story" (mkRectangleSize 800 600) (Resolved tt);
                  CheckImage (mkMutableImage 1024 768) (JStr "story") (Resolved JUndefined)]
                 (constructor ∅) in
  _viewportSizeHandler s = Some (mkRectangleSize 800 600)
  /\ getViewportSize s = Resolved (Some (mkRectangleSize 1024 768))
  /\ getViewportSize s <> Resolved (_viewportSizeHandler s).
Proof.
  cbv zeta. split; [reflexivity|]. split; [reflexivity|].
  cbn. intros H. inversion H.
Qed.

End SessionFacts.

(** * Properties of the script *)

Ltac script_unfold :=
  unfold mbind, script_bind, mret, script_ret, bind, ret, cfg, set_cfg, emit,
    when, throw, lift, the_configs, then_script in *.

Section ResultsFacts.

Implicit Types (r : TestResults) (rs : list TestResults) (w : world).

Lemma bind_normal {A B : Type} (c : script A) (k : A -> script B) w a w' :
  c w = (Normal a, w') -> (c ≫= k) w = k a w'.
Proof. intros H. unfold mbind, script_bind, bind. rewrite H. reflexivity. Qed.

Lemma bind_throw {A B : Type} (c : script A) (k : A -> script B) w e w' :
  c w = (Throw e, w') -> (c ≫= k) w = (Throw e, w').
Proof. intros H. unfold mbind, script_bind, bind. rewrite H. reflexivity. Qed.

(** What the loop body of [part_001] does with one result. *)
Lemma display_result_001 r exitCode w :
  Part001.display_result r exitCode w
  = if neither_new_nor_passed r
    then (Normal (if Z.ltb exitCode Part001.EYES_TEST_FAILED_EXIT_CODE
                  then Part001.EYES_TEST_FAILED_EXIT_CODE else exitCode),
          mkWorld (configs w) (output w ++ [console_log [Text (storyTitle r); failed_label r]]))
    else (Normal exitCode,
          mkWorld (configs w)
            (output w ++ [console_log [Text (storyTitle r);
                                       Coloured green (if getIsNew r then "New" else "Passed")]])).
Proof.
  unfold Part001.display_result, neither_new_nor_passed.
  destruct (getIsNew r); [reflexivity|].
  destruct (isPassed r); reflexivity.
Qed.

Lemma string_app_assoc (a b c : string) : (a ++ b) ++ c = a ++ b ++ c.
Proof.
  induction a as [|x a IH]; [reflexivity|].
  change (String x ((a ++ b) ++ c) = String x (a ++ b ++ c)).
  rewrite IH. reflexivity.
Qed.

(** Both revisions print the same story title. *)
Lemma storyTitle_000 r :
  getName r ++ " [" ++ num_toString (width (getHostDisplaySize r)) ++ "x"
    ++ num_toString (height (getHostDisplaySize r)) ++ "] - "
  = storyTitle r.
Proof.
  unfold storyTitle, RectangleSize_toString.
  rewrite !string_app_assoc. reflexivity.
Qed.

(** What the loop body of [part_000] does with one result. *)
Lemma display_result_000 r w :
  Part000.display_result r w
  = (Normal tt,
     mkWorld (configs w)
       (output w ++ [console_log [Text (storyTitle r);
                                  if neither_new_nor_passed r then failed_label r
                                  else Coloured green (if getIsNew r then "New" else "Passed")]])).
Proof.
  unfold Part000.display_result, neither_new_nor_passed.
  cbv zeta. rewrite storyTitle_000.
  destruct (getIsNew r); [reflexivity|].
  destruct (isPassed r); reflexivity.
Qed.

(** The exit code the loop of [part_001] ends with. *)
Lemma display_results_exitCode rs :
  forall exitCode w,
    0 <= exitCode <= Part001.EYES_TEST_FAILED_EXIT_CODE ->
    fst (Part001.display_results rs exitCode w)
    = Normal (if existsb neither_new_nor_passed rs
              then Part001.EYES_TEST_FAILED_EXIT_CODE else exitCode).
Proof.
  induction rs as [|r rs IH]; intros exitCode w Hrange.
  - reflexivity.
  - cbn [Part001.display_results existsb].
    unfold mbind, script_bind, bind. rewrite display_result_001.
    destruct (neither_new_nor_passed r) eqn:Hr; cbn [orb]; cbv iota.
    + rewrite IH.
      * destruct (Z.ltb_spec exitCode Part001.EYES_TEST_FAILED_EXIT_CODE);
          destruct (existsb neither_new_nor_passed rs); try reflexivity.
        f_equal. lia.
      * destruct (Z.ltb_spec exitCode Part001.EYES_TEST_FAILED_EXIT_CODE); lia.
    + apply IH, Hrange.
Qed.

Lemma display_results_normal rs :
  forall exitCode w, exists code w', Part001.display_results rs exitCode w = (Normal code, w').
Proof.
  induction rs as [|r rs IH]; intros exitCode w.
  - eexists _, _. reflexivity.
  - cbn [Part001.display_results].
    unfold mbind, script_bind, bind. rewrite display_result_001.
    destruct (neither_new_nor_passed r); cbv iota; apply IH.
Qed.

Lemma forEach_display_normal rs :
  forall w, exists w', forEach Part000.display_result rs w = (Normal tt, w').
Proof.
  induction rs as [|r rs IH]; intros w.
  - eexists. reflexivity.
  - cbn [forEach]. erewrite bind_normal by apply display_result_000. apply IH.
Qed.

(** The argument [part_001] passes to [process.exit] after the results. *)
Lemma on_results_001 rs w :
  fst (Part001.on_results rs w)
  = Normal (Some (if existsb neither_new_nor_passed rs
                  then Part001.EYES_TEST_FAILED_EXIT_CODE else 0)).
Proof.
  destruct rs as [|r rs]; [reflexivity|].
  unfold Part001.on_results.
  erewrite bind_normal by reflexivity.
  set (w1 := mkWorld _ _).
  pose proof (display_results_exitCode (r :: rs) 0 w1) as Hcode.
  destruct (display_results_normal (r :: rs) 0 w1) as (code & w2 & Hrun).
  rewrite Hrun in Hcode. cbn [fst] in Hcode.
  assert (Hrange : 0 <= 0 <= Part001.EYES_TEST_FAILED_EXIT_CODE)
    by (unfold Part001.EYES_TEST_FAILED_EXIT_CODE; lia).
  specialize (Hcode Hrange). injection Hcode as Heq.
  erewrite bind_normal by exact Hrun.
  erewrite bind_normal by reflexivity.
  cbn [mret script_ret ret fst]. rewrite Heq. reflexivity.
Qed.

(** [part_000] calls [process.exit()] without an argument after the results. *)
Lemma on_results_000 rs w : fst (Part000.on_results rs w) = Normal None.
Proof.
  destruct rs as [|r rs]; [reflexivity|].
  unfold Part000.on_results.
  erewrite bind_normal by reflexivity.
  erewrite bind_normal by reflexivity.
  destruct (forEach_display_normal (r :: rs)
              (mkWorld (configs w)
                 ((output w ++ [console_log [Text LF]])
                    ++ [console_log [Text "[EYES: TEST RESULTS]:"]]))) as (w2 & Hrun).
  erewrite bind_normal by exact Hrun.
  reflexivity.
Qed.

Lemma on_error_001 yargs err w : fst (Part001.on_error yargs err w) = Normal (Some 1).
Proof. unfold Part001.on_error. destruct (Part001.debug yargs); reflexivity. Qed.

Lemma on_error_000 yargs err w : fst (Part000.on_error yargs err w) = Normal (Some 1).
Proof. unfold Part000.on_error. destruct (Part000.debug yargs); reflexivity. Qed.

(** How a run ends, from how the script settles. *)
Lemma ended_001 ext yargs conf :
  ended (Part001.cli ext yargs conf)
  = match Part001.settle ext yargs (mkWorld conf []) with
    | (Throw e, _) => uncaught_exception e
    | (Normal (Rejected _), _) => process_exit (Some 1)
    | (Normal (Resolved rs), _) =>
        process_exit (Some (if existsb neither_new_nor_passed rs
                            then Part001.EYES_TEST_FAILED_EXIT_CODE else 0))
    end.
Proof.
  unfold Part001.cli, run_script, Part001.script_body.
  destruct (Part001.settle ext yargs (mkWorld conf [])) as [[[rs|err]|e] w1] eqn:Hs.
  - erewrite bind_normal by exact Hs.
    pose proof (on_results_001 rs w1) as H.
    destruct (Part001.on_results rs w1) as [[code|e] w2]; cbn in H; inversion H; reflexivity.
  - erewrite bind_normal by exact Hs.
    pose proof (on_error_001 yargs err w1) as H.
    destruct (Part001.on_error yargs err w1) as [[code|e] w2]; cbn in H; inversion H; reflexivity.
  - erewrite bind_throw by exact Hs. reflexivity.
Qed.

Lemma ended_000 ext yargs conf :
  ended (Part000.cli ext yargs conf)
  = match Part000.settle ext (mkWorld conf []) with
    | (Throw e, _) => uncaught_exception e
    | (Normal (Rejected _), _) => process_exit (Some 1)
    | (Normal (Resolved rs), _) => process_exit None
    end.
Proof.
  unfold Part000.cli, run_script, Part000.script_body.
  destruct (Part000.settle ext (mkWorld conf [])) as [[[rs|err]|e] w1] eqn:Hs.
  - erewrite bind_normal by exact Hs.
    pose proof (on_results_000 rs w1) as H.
    destruct (Part000.on_results rs w1) as [[code|e] w2]; cbn in H; inversion H; reflexivity.
  - erewrite bind_normal by exact Hs.
    pose proof (on_error_000 yargs err w1) as H.
    destruct (Part000.on_error yargs err w1) as [[code|e] w2]; cbn in H; inversion H; reflexivity.
  - erewrite bind_throw by exact Hs. reflexivity.
Qed.

End ResultsFacts.

Section ExitCodeLaw.

Implicit Types (r : TestResults) (rs : list TestResults) (w : world).

(** C1, as the code has it. [part_001]: the exit code is 1 when an
    exception leaves the script or the promise of the run rejects; when the
    run resolves with results rs it is 130 ([EYES_TEST_FAILED_EXIT_CODE]) if
    and only if some result of rs is neither new nor passed, and 0
    otherwise. [part_000] has no mismatch code: 1 on an exception or a
    rejection, 0 whenever the run resolves. *)
Theorem exit_code_law :
  forall (ext : Collaborators) (y1 : Part001.Yargs) (y0 : Part000.Yargs)
         (conf : gmap string jsval),
    exit_code (ended (Part001.cli ext y1 conf))
    = match fst (Part001.settle ext y1 (mkWorld conf [])) with
      | Throw _ => 1
      | Normal (Rejected _) => 1
      | Normal (Resolved rs) =>
          if existsb neither_new_nor_passed rs
          then Part001.EYES_TEST_FAILED_EXIT_CODE else 0
      end
    /\ exit_code (ended (Part000.cli ext y0 conf))
       = match fst (Part000.settle ext (mkWorld conf [])) with
         | Throw _ => 1
         | Normal (Rejected _) => 1
         | Normal (Resolved _) => 0
         end
    /\ (forall rs, existsb neither_new_nor_passed rs = true
                   <-> exists r, In r rs /\ getIsNew r = false /\ isPassed r = false).
Proof.
  intros ext y1 y0 conf. split; [|split].
  - rewrite ended_001.
    destruct (Part001.settle ext y1 (mkWorld conf [])) as [[[rs|err]|e] w]; reflexivity.
  - rewrite ended_000.
    destruct (Part000.settle ext (mkWorld conf [])) as [[[rs|err]|e] w]; reflexivity.
  - intros rs. rewrite existsb_exists. unfold neither_new_nor_passed.
    split; intros (r & Hin & H); exists r; (split; [exact Hin|]).
    + apply andb_true_iff in H as [Hn Hp].
      apply negb_true_iff in Hn, Hp. split; assumption.
    + destruct H as [-> ->]. reflexivity.
Qed.

(** C1 as stated fails. In [part_001], a run whose only result is not new
    and not passed, with mismatches + missing = 0, exits with 130; a run
    whose only result is flagged new with one mismatch exits with 0. In
    [part_000], a run whose only result has one mismatch exits with 0. *)
Lemma exit_code_law_counterexample :
  (exit_code (ended (Part001.cli (collaborators_with (Resolved [result_unpassed_clean]))
                       no_flags_001 (configs_with_concurrency (JNum 1)))) = 130
   /\ getMismatches result_unpassed_clean + getMissing result_unpassed_clean = 0)
  /\ (exit_code (ended (Part001.cli (collaborators_with (Resolved [result_new_mismatch]))
                          no_flags_001 (configs_with_concurrency (JNum 1)))) = 0
      /\ getMismatches result_new_mismatch + getMissing result_new_mismatch > 0)
  /\ (exit_code (ended (Part000.cli (collaborators_with (Resolved [result_mismatch]))
                          no_flags_000 (configs_with_concurrency (JNum 1)))) = 0
      /\ getMismatches result_mismatch + getMissing result_mismatch > 0).
Proof. repeat split; vm_compute; reflexivity. Qed.

(** For results whose flags follow their counts (neither new nor passed
    exactly when mismatches + missing > 0), the handler of [part_001] exits
    with 130 exactly when some result has mismatches + missing > 0. *)
Lemma exit_code_when_flags_follow_counts rs w :
  Forall (fun r => neither_new_nor_passed r = Z.ltb 0 (getMismatches r + getMissing r)) rs ->
  fst (Part001.on_results rs w)
  = Normal (Some (if existsb (fun r => Z.ltb 0 (getMismatches r + getMissing r)) rs
                  then Part001.EYES_TEST_FAILED_EXIT_CODE else 0)).
Proof.
  intros Hall. rewrite on_results_001.
  assert (Heq : existsb neither_new_nor_passed rs
                = existsb (fun r => Z.ltb 0 (getMismatches r + getMissing r)) rs).
  { induction Hall as [|r rs Hr _ IH]; [reflexivity|]. cbn. rewrite Hr, IH. reflexivity. }
  rewrite Heq. reflexivity.
Qed.

(** C5: when the run resolves with results that are each new or passed, the
    exit code is 0, in both revisions; and inserting a new result into the
    results of [part_001] does not change the argument of [process.exit]. *)
Theorem new_or_passed_exit_zero :
  forall (ext : Collaborators) (y1 : Part001.Yargs) (y0 : Part000.Yargs)
         (conf : gmap string jsval) (rs : list TestResults),
    Forall (fun r => getIsNew r = true \/ isPassed r = true) rs ->
    (forall w, Part001.settle ext y1 (mkWorld conf []) = (Normal (Resolved rs), w) ->
               exit_code (ended (Part001.cli ext y1 conf)) = 0)
    /\ (forall w, Part000.settle ext (mkWorld conf []) = (Normal (Resolved rs), w) ->
                  exit_code (ended (Part000.cli ext y0 conf)) = 0)
    /\ (forall r rs1 rs2 w w',
           getIsNew r = true ->
           fst (Part001.on_results (rs1 ++ r :: rs2) w)
           = fst (Part001.on_results (rs1 ++ rs2) w')).
Proof.
  intros ext y1 y0 conf rs Hall. split; [|split].
  - intros w Hs. rewrite ended_001, Hs.
    assert (Hnone : existsb neither_new_nor_passed rs = false).
    { clear Hs. induction Hall as [|r rs Hr _ IH]; [reflexivity|].
      cbn. rewrite IH, orb_false_r. unfold neither_new_nor_passed.
      destruct Hr as [-> | ->]; [reflexivity | apply andb_false_r]. }
    rewrite Hnone. reflexivity.
  - intros w Hs. rewrite ended_000, Hs. reflexivity.
  - intros r rs1 rs2 w w' Hnew. rewrite !on_results_001, !existsb_app.
    cbn [existsb]. unfold neither_new_nor_passed at 2. rewrite Hnew. reflexivity.
Qed.

Lemma new_or_passed_exit_zero_witness :
  exit_code (ended (Part001.cli (collaborators_with (Resolved [result_new; result_passed]))
                      no_flags_001 (configs_with_concurrency (JNum 1)))) = 0
  /\ exit_code (ended (Part000.cli (collaborators_with (Resolved [result_new; result_passed]))
                         no_flags_000 (configs_with_concurrency (JNum 1)))) = 0.
Proof.
  assert (Hall : Forall (fun r => getIsNew r = true \/ isPassed r = true)
                   [result_new; result_passed]).
  { constructor; [left; reflexivity|].
    constructor; [right; reflexivity|]. constructor. }
  destruct (new_or_passed_exit_zero
              (collaborators_with (Resolved [result_new; result_passed]))
              no_flags_001 no_flags_000 (configs_with_concurrency (JNum 1))
              [result_new; result_passed] Hall) as (H1 & H0 & _).
  split.
  - eapply H1. vm_compute. reflexivity.
  - eapply H0. vm_compute. reflexivity.
Defined.

End ExitCodeLaw.

Section ResultsReport.

Implicit Types (r : TestResults) (w : world).

(** C9: when the run resolves with no results, the script prints
    'Test is finished but no results returned.' as its last line and the
    process exits with code 0, in both revisions. *)
Theorem empty_results_exit_zero :
  forall (ext : Collaborators) (y1 : Part001.Yargs) (y0 : Part000.Yargs)
         (conf : gmap string jsval),
    (forall w,
        Part001.settle ext y1 (mkWorld conf []) = (Normal (Resolved []), w) ->
        console (Part001.cli ext y1 conf)
        = (output w ++ [console_log [Text "Test is finished but no results returned."]])%list
        /\ ended (Part001.cli ext y1 conf) = process_exit (Some 0)
        /\ exit_code (ended (Part001.cli ext y1 conf)) = 0)
    /\ (forall w,
        Part000.settle ext (mkWorld conf []) = (Normal (Resolved []), w) ->
        console (Part000.cli ext y0 conf)
        = (output w ++ [console_log [Text "Test is finished but no results returned."]])%list
        /\ ended (Part000.cli ext y0 conf) = process_exit None
        /\ exit_code (ended (Part000.cli ext y0 conf)) = 0).
Proof.
  intros ext y1 y0 conf. split; intros w Hs.
  - unfold Part001.cli, run_script, Part001.script_body.
    erewrite bind_normal by exact Hs. repeat split.
  - unfold Part000.cli, run_script, Part000.script_body.
    erewrite bind_normal by exact Hs. repeat split.
Qed.

Lemma empty_results_exit_zero_witness :
  (console (Part001.cli (collaborators_with (Resolved [])) no_flags_001
              (configs_with_concurrency (JNum 1)))
   = [testStories [JStr "Button"];
      console_log [Text "Test is finished but no results returned."]]
   /\ exit_code (ended (Part001.cli (collaborators_with (Resolved [])) no_flags_001
                          (configs_with_concurrency (JNum 1)))) = 0)
  /\ (console (Part000.cli (collaborators_with (Resolved [])) no_flags_000
                 (configs_with_concurrency (JNum 1)))
      = [testStories [JStr "Button"];
         console_log [Text "Test is finished but no results returned."]]
      /\ exit_code (ended (Part000.cli (collaborators_with (Resolved [])) no_flags_000
                             (configs_with_concurrency (JNum 1)))) = 0).
Proof.
  destruct (empty_results_exit_zero (collaborators_with (Resolved []))
              no_flags_001 no_flags_000 (configs_with_concurrency (JNum 1))) as [H1 H0].
  split.
  - edestruct H1 as (Hout & _ & Hcode); [vm_compute; reflexivity|].
    split; [exact Hout | exact Hcode].
  - edestruct H0 as (Hout & _ & Hcode); [vm_compute; reflexivity|].
    split; [exact Hout | exact Hcode].
Defined.

(** C4, as the code has it: a result gets the red label
    'Failed <mismatches+missing> of <steps>' exactly when it is neither new
    nor passed (then also the exit code of [part_001] rises to 130 if it
    was below); a result that is new or passed gets a green label, 'New'
    if it is new and 'Passed' otherwise. Both revisions print the same
    line. *)
Theorem failed_label_when_neither_new_nor_passed :
  forall (r : TestResults) (exitCode : Z) (w : world),
    (getIsNew r = false /\ isPassed r = false ->
     Part001.display_result r exitCode w
     = (Normal (if Z.ltb exitCode 130 then 130 else exitCode),
        mkWorld (configs w)
          (output w
           ++ [console_log
                 [Text (storyTitle r);
                  Coloured red ("Failed " ++ num_toString (getMismatches r + getMissing r)
                                ++ " of " ++ num_toString (getSteps r))]]))
     /\ output (snd (Part000.display_result r w))
        = output (snd (Part001.display_result r exitCode w)))
    /\ (getIsNew r = true \/ isPassed r = true ->
        Part001.display_result r exitCode w
        = (Normal exitCode,
           mkWorld (configs w)
             (output w
              ++ [console_log [Text (storyTitle r);
                               Coloured green (if getIsNew r then "New" else "Passed")]]))
        /\ output (snd (Part000.display_result r w))
           = output (snd (Part001.display_result r exitCode w))).
Proof.
  intros r exitCode w. rewrite display_result_001, display_result_000.
  unfold neither_new_nor_passed. split.
  - intros [-> ->]. split; reflexivity.
  - intros [-> | ->]; cbn [negb andb]; [|rewrite andb_false_r]; split; reflexivity.
Qed.

Lemma failed_label_when_neither_new_nor_passed_witness :
  (getIsNew result_mismatch = false /\ isPassed result_mismatch = false)
  /\ output (snd (Part001.display_result result_mismatch 0 (mkWorld ∅ [])))
     = [console_log [Text "Button [800x600] - "; Coloured red "Failed 1 of 1"]]
  /\ (getIsNew result_new = true \/ isPassed result_new = true)
  /\ output (snd (Part001.display_result result_new 0 (mkWorld ∅ [])))
     = [console_log [Text "Card [800x600] - "; Coloured green "New"]].
Proof.
  pose proof (failed_label_when_neither_new_nor_passed result_mismatch 0 (mkWorld ∅ []))
    as [Hfailed _].
  pose proof (failed_label_when_neither_new_nor_passed result_new 0 (mkWorld ∅ []))
    as [_ Hgreen].
  split; [split; reflexivity|].
  split; [rewrite (proj1 (Hfailed (conj eq_refl eq_refl))); reflexivity|].
  split; [left; reflexivity|].
  rewrite (proj1 (Hgreen (or_introl eq_refl))). reflexivity.
Defined.

(** C4 as stated fails: a result that is not new and not passed is
    labelled 'Failed 0 of 1' in red although mismatches + missing = 0, and a
    result flagged new is labelled 'New' in green although
    mismatches + missing > 0. *)
Lemma failed_label_counterexample :
  (output (snd (Part001.display_result result_unpassed_clean 0 (mkWorld ∅ [])))
   = [console_log [Text "Button [800x600] - "; Coloured red "Failed 0 of 1"]]
   /\ getMismatches result_unpassed_clean + getMissing result_unpassed_clean = 0)
  /\ (output (snd (Part001.display_result result_new_mismatch 0 (mkWorld ∅ [])))
      = [console_log [Text "Button [800x600] - "; Coloured green "New"]]
      /\ getMismatches result_new_mismatch + getMissing result_new_mismatch > 0).
Proof. repeat split. Qed.

End ResultsReport.

(** * Properties of the configuration validation *)

Section ScriptLogic.

Context {A B : Type}.
Implicit Types (Q : world -> Prop) (P : error -> Prop) (w : world).

Lemma keeps_bind Q (c : script A) (k : A -> script B) :
  keeps Q c -> (forall a, keeps Q (k a)) -> keeps Q (c ≫= k).
Proof.
  intros Hc Hk w HQ. specialize (Hc w HQ).
  unfold mbind, script_bind, bind.
  destruct (c w) as [[a|e] w1]; cbn in *; [apply Hk, Hc | exact Hc].
Qed.

Lemma throws_when_bind Q (c : script A) (k : A -> script B) :
  keeps Q c -> (forall a, throws_when Q (k a)) -> throws_when Q (c ≫= k).
Proof.
  intros Hc Hk w HQ. specialize (Hc w HQ).
  unfold mbind, script_bind, bind.
  destruct (c w) as [[a|e] w1]; cbn in *; [apply Hk, Hc | eauto].
Qed.

Lemma throws_only_bind P (c : script A) (k : A -> script B) :
  throws_only P c -> (forall a, throws_only P (k a)) -> throws_only P (c ≫= k).
Proof.
  intros Hc Hk w e w' H.
  unfold mbind, script_bind, bind in H.
  destruct (c w) as [[a|e1] w1] eqn:Hcw.
  - eapply Hk, H.
  - inversion H; subst. eapply Hc, Hcw.
Qed.

Lemma keeps_ret Q (a : A) : keeps Q (mret a : script A).
Proof. intros w HQ. exact HQ. Qed.

Lemma keeps_throw Q e : keeps Q (throw e : script A).
Proof. intros w HQ. exact HQ. Qed.

Lemma keeps_lift Q (c : completion A) : keeps Q (lift c).
Proof. intros w HQ. exact HQ. Qed.

Lemma keeps_if Q (b : bool) (c1 c2 : script A) :
  keeps Q c1 -> keeps Q c2 -> keeps Q (if b then c1 else c2).
Proof. destruct b; auto. Qed.

Lemma throws_only_ret P (a : A) : throws_only P (mret a : script A).
Proof. intros w e w' H. inversion H. Qed.

Lemma throws_only_throw P e : P e -> throws_only P (throw e : script A).
Proof. intros He w e' w' H. inversion H; subst. exact He. Qed.

Lemma throws_only_if P (b : bool) (c1 c2 : script A) :
  throws_only P c1 -> throws_only P c2 -> throws_only P (if b then c1 else c2).
Proof. destruct b; auto. Qed.

End ScriptLogic.

Section ScriptLogicUnit.

Implicit Types (Q : world -> Prop) (P : error -> Prop) (w : world).

Lemma keeps_cfg Q k : keeps Q (cfg k).
Proof. intros w HQ. exact HQ. Qed.

Lemma keeps_when Q (b : bool) (c : script unit) : keeps Q c -> keeps Q (when b c).
Proof. intros Hc. destruct b; [exact Hc | intros w HQ; exact HQ]. Qed.

Lemma keeps_forEach {A : Type} Q (f : A -> script unit) (l : list A) :
  (forall x, keeps Q (f x)) -> keeps Q (forEach f l).
Proof.
  intros Hf. induction l as [|x l IH]; cbn [forEach].
  - apply keeps_ret.
  - apply keeps_bind; [apply Hf | intros _; exact IH].
Qed.

Lemma throws_only_cfg P k : throws_only P (cfg k).
Proof. intros w e w' H. inversion H. Qed.

Lemma throws_only_set_cfg P k v : throws_only P (set_cfg k v).
Proof. intros w e w' H. inversion H. Qed.

Lemma throws_only_when P (b : bool) (c : script unit) :
  throws_only P c -> throws_only P (when b c).
Proof. intros Hc. destruct b; [exact Hc | apply throws_only_ret]. Qed.

Lemma throws_only_forEach {A : Type} P (f : A -> script unit) (l : list A) :
  (forall x, throws_only P (f x)) -> throws_only P (forEach f l).
Proof.
  intros Hf. induction l as [|x l IH]; cbn [forEach].
  - apply throws_only_ret.
  - apply throws_only_bind; [apply Hf | intros _; exact IH].
Qed.

(** Reading a property throws nothing but a [TypeError]. *)
Lemma throws_only_member P v k :
  (forall m, P (TypeError m)) -> throws_only P (lift (member v k)).
Proof.
  intros HP w e w' H. unfold lift in H.
  destruct v; cbn in H; inversion H; apply HP.
Qed.

(** Assignments to the configuration and log lines dispatch nothing. *)
Lemma set_cfg_only_logged k v : keeps only_logged (set_cfg k v).
Proof. intros w HQ. exact HQ. Qed.

Lemma logger_log_only_logged m : keeps only_logged (emit (logger_log m)).
Proof.
  intros w HQ. unfold only_logged in *. cbn.
  rewrite forallb_app, HQ. reflexivity.
Qed.

Lemma only_logged_not_dispatched (out : list entry) :
  forallb is_logger_log out = true -> dispatched out = false.
Proof.
  unfold dispatched. induction out as [|e out IH]; [reflexivity|].
  cbn. intros H. apply andb_true_iff in H as [He Hout].
  rewrite (IH Hout). destruct e; try discriminate He; reflexivity.
Qed.

(** An assignment to another property, or a line on the console, leaves
    [configs.k] as it was. *)
Lemma set_cfg_holds k v k' v' : k' <> k -> keeps (holds k v) (set_cfg k' v').
Proof.
  intros Hne w HQ. unfold holds, prop in *. cbn.
  rewrite lookup_insert_ne by exact Hne. exact HQ.
Qed.

Lemma emit_holds k v e : keeps (holds k v) (emit e).
Proof. intros w HQ. exact HQ. Qed.

End ScriptLogicUnit.

Ltac keeps_step :=
  first
    [ apply keeps_bind; [|intros ?]
    | apply keeps_when
    | apply keeps_if
    | apply keeps_cfg
    | apply keeps_throw
    | apply keeps_ret
    | apply keeps_lift
    | apply set_cfg_only_logged
    | apply logger_log_only_logged
    | apply emit_holds
    | apply set_cfg_holds; discriminate ].

Ltac throws_only_step :=
  first
    [ apply throws_only_bind; [|intros ?]
    | apply throws_only_when
    | apply throws_only_if
    | apply throws_only_cfg
    | apply throws_only_set_cfg
    | apply throws_only_ret
    | apply throws_only_member
    | apply throws_only_throw ].

Section ValidationFacts.

Implicit Types (Q : world -> Prop) (P : error -> Prop) (w : world) (v : jsval).

(** *** The checks one by one *)

Lemma require_apiKey_spec w :
  require_apiKey w
  = (if truthy (prop (configs w) "apiKey") then Normal tt
     else Throw (Error "The Applitools API Key is missing. Please add it to your configuration file or set ENV key."),
     w).
Proof.
  unfold require_apiKey. script_unfold.
  destruct (truthy (prop (configs w) "apiKey")); reflexivity.
Qed.

Lemma require_defined_spec k w :
  require_defined k w
  = (if negb (truthy (prop (configs w) k)) && negb (strict_eq_num (prop (configs w) k) 0)
     then Throw (Error (k ++ " should be defined.")) else Normal tt,
     w).
Proof.
  unfold require_defined. script_unfold.
  destruct (negb (truthy (prop (configs w) k)) && negb (strict_eq_num (prop (configs w) k) 0));
    reflexivity.
Qed.

(** The flags of [part_001] complete, touch two properties only and
    dispatch nothing. *)
Lemma apply_flags_spec yargs w :
  exists w1,
    Part001.apply_flags yargs w = (Normal tt, w1)
    /\ (forall k, k <> "useVisualGrid" -> k <> "skipStorybookBuild" ->
                  prop (configs w1) k = prop (configs w) k)
    /\ (only_logged w -> only_logged w1).
Proof.
  unfold Part001.apply_flags. script_unfold.
  destruct (Part001.browser yargs), (Part001.build yargs); cbn;
    eexists; (split; [reflexivity|]); split;
    try (intros k Hk1 Hk2; unfold prop; cbn;
         rewrite ?lookup_insert_ne by congruence; reflexivity);
    unfold only_logged; cbn; intros H;
    rewrite ?forallb_app, ?H; reflexivity.
Qed.

(** The check of one viewport size leaves the world as it is. *)
Lemma check_viewportSize_world v w : snd (check_viewportSize v w) = w.
Proof.
  unfold check_viewportSize. script_unfold.
  destruct (member v "width") as [x|e]; cbn; [|reflexivity].
  destruct (truthy x) eqn:Hx.
  - destruct (member v "height") as [y|e]; cbn; [|reflexivity].
    destruct (truthy y); reflexivity.
  - cbn. rewrite Hx. reflexivity.
Qed.

(** An entry without width or without height is refused. *)
Lemma check_viewportSize_lacks v w :
  lacks v "width" \/ lacks v "height" ->
  exists e, check_viewportSize v w = (Throw e, w).
Proof.
  intros Hlacks. unfold check_viewportSize. script_unfold.
  destruct v as [| |b|n| |s|l|o]; cbn;
    try (eexists; reflexivity).
  unfold lacks in Hlacks. unfold prop.
  destruct Hlacks as [H|H].
  - rewrite H. cbn. eexists; reflexivity.
  - destruct (truthy (default JUndefined (o !! "width"))) eqn:Hw.
    + rewrite H. cbn. eexists; reflexivity.
    + cbn. rewrite Hw. eexists; reflexivity.
Qed.

Lemma forEach_check_viewportSize_throws (l : list jsval) v w :
  In v l -> (lacks v "width" \/ lacks v "height") ->
  exists e, forEach check_viewportSize l w = (Throw e, w).
Proof.
  intros Hin Hlacks. induction l as [|x l IH]; [destruct Hin|].
  cbn [forEach]. unfold mbind, script_bind, bind.
  pose proof (check_viewportSize_world x w) as Hw.
  destruct (check_viewportSize x w) as [[[]|e] w1] eqn:Hx; cbn in Hw; subst w1.
  - destruct Hin as [->|Hin].
    + destruct (check_viewportSize_lacks v w Hlacks) as [e He]. congruence.
    + apply IH, Hin.
  - eauto.
Qed.

(** The viewport block, computed. *)
Lemma validate_viewportSize_spec w :
  validate_viewportSize w
  = let v := prop (configs w) "viewportSize" in
    if truthy v then
      match v with
      | JArr l => forEach check_viewportSize l w
      | _ => forEach check_viewportSize [v]
               (mkWorld (<["viewportSize" := JArr [v]]> (configs w)) (output w))
      end
    else (Normal tt, w).
Proof.
  unfold validate_viewportSize, mbind, script_bind, bind, cfg, set_cfg, mret, script_ret, ret.
  cbv zeta.
  destruct (prop (configs w) "viewportSize") as [| |b|n| |s|l|o] eqn:Hv;
    cbn [truthy when negb]; try reflexivity;
    unfold when, ret;
    try match goal with |- context [if ?c then _ else _] => destruct c; [|reflexivity] end;
    cbn [configs]; unfold prop in *; rewrite ?lookup_insert_eq, ?Hv; reflexivity.
Qed.

(** With a truthy [configs.viewportSize] that has such an entry, the
    viewport block throws. *)
Lemma validate_viewportSize_throws (conf_viewportSize entry : jsval) :
  truthy conf_viewportSize = true ->
  In entry (entries_of conf_viewportSize) ->
  (lacks entry "width" \/ lacks entry "height") ->
  throws_when (holds "viewportSize" conf_viewportSize) validate_viewportSize.
Proof.
  intros Htruthy Hin Hlacks w Hholds. unfold holds in Hholds.
  rewrite validate_viewportSize_spec. cbv zeta. rewrite Hholds, Htruthy.
  destruct conf_viewportSize;
    match goal with
    | |- context [forEach check_viewportSize ?l ?w1] =>
        destruct (forEach_check_viewportSize_throws l entry w1 Hin Hlacks) as [e He];
        rewrite He; eauto
    end.
Qed.

(** The viewport block changes nothing but [configs.viewportSize]. *)
Lemma validate_viewportSize_only_logged : keeps only_logged validate_viewportSize.
Proof.
  unfold validate_viewportSize. repeat keeps_step.
  unfold js_forEach.
  match goal with |- keeps _ (match ?x with _ => _ end) => destruct x end;
    try apply keeps_throw.
  apply keeps_forEach. intros x. unfold check_viewportSize. repeat keeps_step.
Qed.

Lemma normalise_storybookAddress_only_logged :
  keeps only_logged normalise_storybookAddress.
Proof.
  unfold normalise_storybookAddress. repeat keeps_step.
  match goal with |- keeps _ (match ?x with _ => _ end) => destruct x end;
    repeat keeps_step.
Qed.

Lemma normalise_storybookAddress_holds v :
  keeps (holds "viewportSize" v) normalise_storybookAddress.
Proof.
  unfold normalise_storybookAddress. repeat keeps_step.
  match goal with |- keeps _ (match ?x with _ => _ end) => destruct x end;
    repeat keeps_step.
Qed.

End ValidationFacts.

Section ValidationRuns.

Implicit Types (w : world) (v : jsval) (conf : gmap string jsval).

Lemma require_apiKey_keeps Q : keeps Q require_apiKey.
Proof. unfold require_apiKey. repeat keeps_step. Qed.

Lemma require_defined_keeps Q k : keeps Q (require_defined k).
Proof. unfold require_defined. repeat keeps_step. Qed.

Lemma check_storybookVersion_keeps Q : keeps Q check_storybookVersion.
Proof. unfold check_storybookVersion. repeat keeps_step. Qed.

Lemma check_storybookApp_001_keeps Q : keeps Q Part001.check_storybookApp.
Proof. unfold Part001.check_storybookApp. repeat keeps_step. Qed.

Lemma check_storybookApp_000_keeps Q : keeps Q Part000.check_storybookApp.
Proof. unfold Part000.check_storybookApp. repeat keeps_step. Qed.

Lemma apply_flags_only_logged yargs : keeps only_logged (Part001.apply_flags yargs).
Proof. unfold Part001.apply_flags. repeat keeps_step. Qed.

Lemma apply_flags_holds yargs v : keeps (holds "viewportSize" v) (Part001.apply_flags yargs).
Proof. unfold Part001.apply_flags. repeat keeps_step. Qed.

(** The validation prints nothing but lines of the logger, however it ends. *)
Lemma validating_001_only_logged yargs :
  keeps only_logged (Part001.validating_configuration yargs).
Proof.
  unfold Part001.validating_configuration.
  apply keeps_bind; [apply apply_flags_only_logged | intros _].
  apply keeps_bind; [apply require_apiKey_keeps | intros _].
  apply keeps_bind; [apply require_defined_keeps | intros _].
  apply keeps_bind; [apply check_storybookApp_001_keeps | intros _].
  apply keeps_bind; [apply check_storybookVersion_keeps | intros _].
  apply keeps_bind; [apply normalise_storybookAddress_only_logged | intros _].
  apply validate_viewportSize_only_logged.
Qed.

Lemma validating_000_only_logged : keeps only_logged Part000.validating_configuration.
Proof.
  unfold Part000.validating_configuration.
  apply keeps_bind; [apply require_apiKey_keeps | intros _].
  apply keeps_bind; [apply require_defined_keeps | intros _].
  apply keeps_bind; [apply check_storybookApp_000_keeps | intros _].
  apply keeps_bind; [apply check_storybookVersion_keeps | intros _].
  apply keeps_bind; [apply normalise_storybookAddress_only_logged | intros _].
  apply validate_viewportSize_only_logged.
Qed.

(** A viewport-size entry without width or height makes the validation
    throw, whatever the other properties are. *)
Lemma validating_001_viewportSize yargs v entry :
  truthy v = true ->
  In entry (entries_of v) ->
  (lacks entry "width" \/ lacks entry "height") ->
  throws_when (holds "viewportSize" v) (Part001.validating_configuration yargs).
Proof.
  intros Htruthy Hin Hlacks. unfold Part001.validating_configuration.
  apply throws_when_bind; [apply apply_flags_holds | intros _].
  apply throws_when_bind; [apply require_apiKey_keeps | intros _].
  apply throws_when_bind; [apply require_defined_keeps | intros _].
  apply throws_when_bind; [apply check_storybookApp_001_keeps | intros _].
  apply throws_when_bind; [apply check_storybookVersion_keeps | intros _].
  apply throws_when_bind; [apply normalise_storybookAddress_holds | intros _].
  eapply validate_viewportSize_throws; eassumption.
Qed.

Lemma validating_000_viewportSize v entry :
  truthy v = true ->
  In entry (entries_of v) ->
  (lacks entry "width" \/ lacks entry "height") ->
  throws_when (holds "viewportSize" v) Part000.validating_configuration.
Proof.
  intros Htruthy Hin Hlacks. unfold Part000.validating_configuration.
  apply throws_when_bind; [apply require_apiKey_keeps | intros _].
  apply throws_when_bind; [apply require_defined_keeps | intros _].
  apply throws_when_bind; [apply check_storybookApp_000_keeps | intros _].
  apply throws_when_bind; [apply check_storybookVersion_keeps | intros _].
  apply throws_when_bind; [apply normalise_storybookAddress_holds | intros _].
  eapply validate_viewportSize_throws; eassumption.
Qed.

(** A run whose validation throws ends there: the exception leaves the
    script, whatever the collaborators are. *)
Lemma cli_001_validation_throws ext yargs conf e w :
  Part001.validating_configuration yargs (mkWorld conf []) = (Throw e, w) ->
  Part001.cli ext yargs conf = mkProcess (uncaught_exception e) (output w) (configs w).
Proof.
  intros H. unfold Part001.cli, run_script, Part001.script_body, Part001.settle.
  erewrite bind_throw; [reflexivity|].
  erewrite bind_throw; [reflexivity | exact H].
Qed.

Lemma cli_000_validation_throws ext yargs conf e w :
  Part000.validating_configuration (mkWorld conf []) = (Throw e, w) ->
  Part000.cli ext yargs conf = mkProcess (uncaught_exception e) (output w) (configs w).
Proof.
  intros H. unfold Part000.cli, run_script, Part000.script_body, Part000.settle.
  erewrite bind_throw; [reflexivity|].
  erewrite bind_throw; [reflexivity | exact H].
Qed.

End ValidationRuns.

Section ConcurrencyLimit.

Implicit Types (w : world) (v : jsval) (conf : gmap string jsval).

Lemma strict_eq_num_false v n : strict_eq_num v n = false <-> v <> JNum n.
Proof.
  destruct v; cbn; try (split; [intros _; discriminate | reflexivity]).
  rewrite Z.eqb_neq. split; intros H; congruence.
Qed.

(** The test of [if (!configs.k && configs.k !== 0)]. *)
Lemma undefined_limit v :
  negb (truthy v) && negb (strict_eq_num v 0) = true
  <-> truthy v = false /\ v <> JNum 0.
Proof.
  rewrite andb_true_iff, !negb_true_iff, strict_eq_num_false. reflexivity.
Qed.

Ltac other_message :=
  cbv beta; unfold not; intros;
  match goal with
  | H : _ = _ |- False => vm_compute in H; discriminate H
  end.

(** The errors of the last two blocks of the validation. *)
Lemma viewportSize_errors (P : error -> Prop) :
  (forall m, P (TypeError m)) ->
  P (Error "ViewportSize object should contains width and height properties.") ->
  throws_only P validate_viewportSize.
Proof.
  intros Htype Hsize. unfold validate_viewportSize. repeat throws_only_step.
  unfold js_forEach.
  match goal with |- throws_only _ (match ?x with _ => _ end) => destruct x end;
    try (apply throws_only_throw; apply Htype).
  apply throws_only_forEach. intros x. unfold check_viewportSize.
  repeat throws_only_step; assumption.
Qed.

Lemma storybookAddress_errors (P : error -> Prop) :
  (forall m, P (TypeError m)) -> throws_only P normalise_storybookAddress.
Proof.
  intros Htype. unfold normalise_storybookAddress. repeat throws_only_step.
  match goal with |- throws_only _ (match ?x with _ => _ end) => destruct x end;
    repeat throws_only_step; apply Htype.
Qed.

(** Nothing after the check of the limit throws its error. *)
Lemma after_limit_001 :
  throws_only (fun e => e <> Error "maxConcurrency should be defined.")
    (Part001.check_storybookApp;; check_storybookVersion;;
     normalise_storybookAddress;; validate_viewportSize).
Proof.
  apply throws_only_bind; [|intros _].
  { unfold Part001.check_storybookApp. repeat throws_only_step. other_message. }
  apply throws_only_bind; [|intros _].
  { unfold check_storybookVersion. repeat throws_only_step. other_message. }
  apply throws_only_bind; [|intros _].
  { apply storybookAddress_errors. other_message. }
  apply viewportSize_errors; other_message.
Qed.

Lemma after_limit_000 :
  throws_only (fun e => e <> Error "maxRunningBrowsers should be defined.")
    (Part000.check_storybookApp;; check_storybookVersion;;
     normalise_storybookAddress;; validate_viewportSize).
Proof.
  apply throws_only_bind; [|intros _].
  { unfold Part000.check_storybookApp. repeat throws_only_step. other_message. }
  apply throws_only_bind; [|intros _].
  { unfold check_storybookVersion. repeat throws_only_step. other_message. }
  apply throws_only_bind; [|intros _].
  { apply storybookAddress_errors. other_message. }
  apply viewportSize_errors; other_message.
Qed.

(** With an API key, the validation of [part_001] ends in the error of the
    limit exactly when the limit is falsy and not 0. *)
Lemma validating_001_limit yargs conf :
  truthy (prop conf "apiKey") = true ->
  (fst (Part001.validating_configuration yargs (mkWorld conf []))
   = Throw (Error "maxConcurrency should be defined.")
   <-> truthy (prop conf "maxConcurrency") = false /\ prop conf "maxConcurrency" <> JNum 0).
Proof.
  intros Hkey. unfold Part001.validating_configuration.
  destruct (apply_flags_spec yargs (mkWorld conf [])) as (w1 & Hflags & Hsame & _).
  erewrite bind_normal by exact Hflags.
  erewrite bind_normal
    by (rewrite require_apiKey_spec, Hsame by discriminate; cbn [configs];
        rewrite Hkey; reflexivity).
  rewrite <- undefined_limit.
  unfold mbind at 1, script_bind at 1, bind at 1.
  rewrite require_defined_spec, Hsame by discriminate. cbn [configs].
  destruct (negb (truthy (prop conf "maxConcurrency"))
            && negb (strict_eq_num (prop conf "maxConcurrency") 0)).
  - split; reflexivity.
  - split; [|discriminate]. intros H.
    destruct ((Part001.check_storybookApp;; check_storybookVersion;;
               normalise_storybookAddress;; validate_viewportSize) w1)
      as [[[]|e] w2] eqn:Htail; try discriminate H.
    cbn in H. injection H as ->.
    exfalso. exact (after_limit_001 _ _ _ Htail eq_refl).
Qed.

Lemma validating_000_limit conf :
  truthy (prop conf "apiKey") = true ->
  (fst (Part000.validating_configuration (mkWorld conf []))
   = Throw (Error "maxRunningBrowsers should be defined.")
   <-> truthy (prop conf "maxRunningBrowsers") = false
       /\ prop conf "maxRunningBrowsers" <> JNum 0).
Proof.
  intros Hkey. unfold Part000.validating_configuration.
  erewrite bind_normal
    by (rewrite require_apiKey_spec; cbn [configs]; rewrite Hkey; reflexivity).
  rewrite <- undefined_limit.
  unfold mbind at 1, script_bind at 1, bind at 1.
  rewrite require_defined_spec. cbn [configs].
  destruct (negb (truthy (prop conf "maxRunningBrowsers"))
            && negb (strict_eq_num (prop conf "maxRunningBrowsers") 0)).
  - split; reflexivity.
  - split; [|discriminate]. intros H.
    destruct ((Part000.check_storybookApp;; check_storybookVersion;;
               normalise_storybookAddress;; validate_viewportSize) (mkWorld conf []))
      as [[[]|e] w2] eqn:Htail; try discriminate H.
    cbn in H. injection H as ->.
    exfalso. exact (after_limit_000 _ _ _ Htail eq_refl).
Qed.

End ConcurrencyLimit.

Section ConfigurationErrors.

Implicit Types (w : world) (v : jsval) (conf : gmap string jsval).

(** What follows from a validation that throws: the exception ends the
    process with code 1, only lines of the logger are on the console, no
    runner was called, and the collaborators play no part. *)
Lemma aborted_001 ext yargs conf e w :
  Part001.validating_configuration yargs (mkWorld conf []) = (Throw e, w) ->
  ended (Part001.cli ext yargs conf) = uncaught_exception e
  /\ exit_code (ended (Part001.cli ext yargs conf)) = 1
  /\ forallb is_logger_log (console (Part001.cli ext yargs conf)) = true
  /\ dispatched (console (Part001.cli ext yargs conf)) = false
  /\ (forall ext', Part001.cli ext' yargs conf = Part001.cli ext yargs conf).
Proof.
  intros H.
  assert (Hlog : forallb is_logger_log (output w) = true).
  { pose proof (validating_001_only_logged yargs (mkWorld conf []) eq_refl) as Hk.
    rewrite H in Hk. exact Hk. }
  rewrite (cli_001_validation_throws ext yargs conf e w H). cbn.
  repeat split; try assumption.
  - apply only_logged_not_dispatched, Hlog.
  - intros ext'. apply cli_001_validation_throws, H.
Qed.

Lemma aborted_000 ext yargs conf e w :
  Part000.validating_configuration (mkWorld conf []) = (Throw e, w) ->
  ended (Part000.cli ext yargs conf) = uncaught_exception e
  /\ exit_code (ended (Part000.cli ext yargs conf)) = 1
  /\ forallb is_logger_log (console (Part000.cli ext yargs conf)) = true
  /\ dispatched (console (Part000.cli ext yargs conf)) = false
  /\ (forall ext', Part000.cli ext' yargs conf = Part000.cli ext yargs conf).
Proof.
  intros H.
  assert (Hlog : forallb is_logger_log (output w) = true).
  { pose proof (validating_000_only_logged (mkWorld conf []) eq_refl) as Hk.
    rewrite H in Hk. exact Hk. }
  rewrite (cli_000_validation_throws ext yargs conf e w H). cbn.
  repeat split; try assumption.
  - apply only_logged_not_dispatched, Hlog.
  - intros ext'. apply cli_000_validation_throws, H.
Qed.

(** A completion whose first component is a throw. *)
Lemma fst_throw {A : Type} (c : completion A * world) e :
  fst c = Throw e -> exists w, c = (Throw e, w).
Proof. destruct c as [x w]. cbn. intros ->. eauto. Qed.

(** Without an API key both revisions throw the same error first. *)
Lemma validating_001_apiKey yargs conf :
  truthy (prop conf "apiKey") = false ->
  fst (Part001.validating_configuration yargs (mkWorld conf []))
  = Throw (Error "The Applitools API Key is missing. Please add it to your configuration file or set ENV key.").
Proof.
  intros Hkey. unfold Part001.validating_configuration.
  destruct (apply_flags_spec yargs (mkWorld conf [])) as (w1 & Hflags & Hsame & _).
  erewrite bind_normal by exact Hflags.
  erewrite bind_throw; [reflexivity|].
  rewrite require_apiKey_spec, Hsame by discriminate. cbn [configs].
  rewrite Hkey. reflexivity.
Qed.

Lemma validating_000_apiKey conf :
  truthy (prop conf "apiKey") = false ->
  fst (Part000.validating_configuration (mkWorld conf []))
  = Throw (Error "The Applitools API Key is missing. Please add it to your configuration file or set ENV key.").
Proof.
  intros Hkey. unfold Part000.validating_configuration.
  erewrite bind_throw; [reflexivity|].
  rewrite require_apiKey_spec. cbn [configs]. rewrite Hkey. reflexivity.
Qed.

(** C2, as the code has it: with an API key, the validation ends in the
    error '<limit> should be defined.' exactly when the concurrency limit is
    falsy and not the number 0 (undefined, null, NaN, false, the empty
    string); a limit equal to 0 is exempted by the test and does not raise
    it. When the error is raised, the exception ends the process before any
    runner is called: exit code 1, only logger lines on the console, the
    same whatever the collaborators are. The limit is [maxConcurrency] in
    [part_001] and [maxRunningBrowsers] in [part_000]. *)
Theorem undefined_limit_is_rejected_zero_is_not :
  forall (ext : Collaborators) (y1 : Part001.Yargs) (y0 : Part000.Yargs)
         (conf : gmap string jsval),
    truthy (prop conf "apiKey") = true ->
    ((fst (Part001.validating_configuration y1 (mkWorld conf []))
      = Throw (Error "maxConcurrency should be defined.")
      <-> truthy (prop conf "maxConcurrency") = false /\ prop conf "maxConcurrency" <> JNum 0)
     /\ (truthy (prop conf "maxConcurrency") = false /\ prop conf "maxConcurrency" <> JNum 0 ->
         ended (Part001.cli ext y1 conf)
         = uncaught_exception (Error "maxConcurrency should be defined.")
         /\ exit_code (ended (Part001.cli ext y1 conf)) = 1
         /\ forallb is_logger_log (console (Part001.cli ext y1 conf)) = true
         /\ dispatched (console (Part001.cli ext y1 conf)) = false
         /\ (forall ext', Part001.cli ext' y1 conf = Part001.cli ext y1 conf)))
    /\ ((fst (Part000.validating_configuration (mkWorld conf []))
         = Throw (Error "maxRunningBrowsers should be defined.")
         <-> truthy (prop conf "maxRunningBrowsers") = false
             /\ prop conf "maxRunningBrowsers" <> JNum 0)
        /\ (truthy (prop conf "maxRunningBrowsers") = false
            /\ prop conf "maxRunningBrowsers" <> JNum 0 ->
            ended (Part000.cli ext y0 conf)
            = uncaught_exception (Error "maxRunningBrowsers should be defined.")
            /\ exit_code (ended (Part000.cli ext y0 conf)) = 1
            /\ forallb is_logger_log (console (Part000.cli ext y0 conf)) = true
            /\ dispatched (console (Part000.cli ext y0 conf)) = false
            /\ (forall ext', Part000.cli ext' y0 conf = Part000.cli ext y0 conf))).
Proof.
  intros ext y1 y0 conf Hkey. split; split.
  - apply validating_001_limit, Hkey.
  - intros Hlimit. apply (validating_001_limit y1 conf Hkey) in Hlimit.
    destruct (fst_throw _ _ Hlimit) as [w Hw]. apply (aborted_001 ext y1 conf _ w Hw).
  - apply validating_000_limit, Hkey.
  - intros Hlimit. apply (validating_000_limit conf Hkey) in Hlimit.
    destruct (fst_throw _ _ Hlimit) as [w Hw]. apply (aborted_000 ext y0 conf _ w Hw).
Qed.

Lemma undefined_limit_is_rejected_zero_is_not_witness :
  truthy (prop (configs_with_concurrency JUndefined) "apiKey") = true
  /\ ended (Part001.cli (collaborators_with (Resolved [result_passed])) no_flags_001
              (configs_with_concurrency JUndefined))
     = uncaught_exception (Error "maxConcurrency should be defined.")
  /\ ended (Part000.cli (collaborators_with (Resolved [result_passed])) no_flags_000
              (configs_with_concurrency JUndefined))
     = uncaught_exception (Error "maxRunningBrowsers should be defined.").
Proof.
  split; [reflexivity|].
  destruct (undefined_limit_is_rejected_zero_is_not
              (collaborators_with (Resolved [result_passed])) no_flags_001 no_flags_000
              (configs_with_concurrency JUndefined) eq_refl)
    as [[_ H1] [_ H0]].
  split.
  - apply H1. split; [reflexivity | discriminate].
  - apply H0. split; [reflexivity | discriminate].
Defined.

(** C2 as stated fails: with a concurrency limit equal to 0 the validation
    of both revisions completes without an error, the runner is handed the
    stories, and the run ends through the results handler with the results
    of the runner. *)
Lemma concurrency_zero_counterexample :
  (fst (Part001.validating_configuration no_flags_001
          (mkWorld (configs_with_concurrency (JNum 0)) [])) = Normal tt
   /\ Part001.cli (collaborators_with (Resolved [result_passed])) no_flags_001
        (configs_with_concurrency (JNum 0))
      = mkProcess (process_exit (Some 0))
          [testStories [JStr "Button"];
           console_log [Text (LF ++ "[EYES: TEST RESULTS]:")];
           console_log [Text "Button [800x600] - "; Coloured green "Passed"];
           console_log [Text "See details at"; Text "https://eyes/batches/1"]]
          (final_configs (Part001.cli (collaborators_with (Resolved [result_passed]))
                            no_flags_001 (configs_with_concurrency (JNum 0)))))
  /\ (fst (Part000.validating_configuration
             (mkWorld (configs_with_concurrency (JNum 0)) [])) = Normal tt
      /\ dispatched (console (Part000.cli (collaborators_with (Resolved [result_passed]))
                                no_flags_000 (configs_with_concurrency (JNum 0)))) = true
      /\ ended (Part000.cli (collaborators_with (Resolved [result_passed]))
                  no_flags_000 (configs_with_concurrency (JNum 0))) = process_exit None).
Proof. repeat split; vm_compute; reflexivity. Qed.

(** C8: when the API key is missing (falsy), or [configs.viewportSize] is
    set and one of its entries lacks a width or a height, the validation
    throws; the exception ends the process with code 1 before any runner is
    called, with only logger lines on the console and no line of results,
    whatever the collaborators are. Without an API key the error is the one
    of the API key. Both revisions. *)
Theorem invalid_configuration_aborts :
  forall (ext : Collaborators) (y1 : Part001.Yargs) (y0 : Part000.Yargs)
         (conf : gmap string jsval),
    (truthy (prop conf "apiKey") = false
     \/ (truthy (prop conf "viewportSize") = true
         /\ exists entry, In entry (viewportSize_entries conf)
                          /\ (lacks entry "width" \/ lacks entry "height"))) ->
    (exists e,
        fst (Part001.validating_configuration y1 (mkWorld conf [])) = Throw e
        /\ ended (Part001.cli ext y1 conf) = uncaught_exception e
        /\ exit_code (ended (Part001.cli ext y1 conf)) = 1
        /\ forallb is_logger_log (console (Part001.cli ext y1 conf)) = true
        /\ dispatched (console (Part001.cli ext y1 conf)) = false
        /\ (forall ext', Part001.cli ext' y1 conf = Part001.cli ext y1 conf)
        /\ (truthy (prop conf "apiKey") = false ->
            e = Error "The Applitools API Key is missing. Please add it to your configuration file or set ENV key."))
    /\ (exists e,
        fst (Part000.validating_configuration (mkWorld conf [])) = Throw e
        /\ ended (Part000.cli ext y0 conf) = uncaught_exception e
        /\ exit_code (ended (Part000.cli ext y0 conf)) = 1
        /\ forallb is_logger_log (console (Part000.cli ext y0 conf)) = true
        /\ dispatched (console (Part000.cli ext y0 conf)) = false
        /\ (forall ext', Part000.cli ext' y0 conf = Part000.cli ext y0 conf)
        /\ (truthy (prop conf "apiKey") = false ->
            e = Error "The Applitools API Key is missing. Please add it to your configuration file or set ENV key.")).
Proof.
  intros ext y1 y0 conf Hbad.
  assert (H1 : exists e w,
             Part001.validating_configuration y1 (mkWorld conf []) = (Throw e, w)).
  { destruct Hbad as [Hkey | (Htruthy & entry & Hin & Hlacks)].
    - destruct (fst_throw _ _ (validating_001_apiKey y1 conf Hkey)) as [w Hw]. eauto.
    - apply (validating_001_viewportSize y1 (prop conf "viewportSize") entry
               Htruthy Hin Hlacks (mkWorld conf [])).
      reflexivity. }
  assert (H0 : exists e w,
             Part000.validating_configuration (mkWorld conf []) = (Throw e, w)).
  { destruct Hbad as [Hkey | (Htruthy & entry & Hin & Hlacks)].
    - destruct (fst_throw _ _ (validating_000_apiKey conf Hkey)) as [w Hw]. eauto.
    - apply (validating_000_viewportSize (prop conf "viewportSize") entry
               Htruthy Hin Hlacks (mkWorld conf [])).
      reflexivity. }
  destruct H1 as (e1 & w1 & H1), H0 as (e0 & w0 & H0). split.
  - exists e1. split; [rewrite H1; reflexivity|].
    destruct (aborted_001 ext y1 conf e1 w1 H1) as (Ha & Hb & Hc & Hd & He).
    repeat split; try assumption.
    intros Hkey. pose proof (validating_001_apiKey y1 conf Hkey) as Hk.
    rewrite H1 in Hk. cbn in Hk. congruence.
  - exists e0. split; [rewrite H0; reflexivity|].
    destruct (aborted_000 ext y0 conf e0 w0 H0) as (Ha & Hb & Hc & Hd & He).
    repeat split; try assumption.
    intros Hkey. pose proof (validating_000_apiKey conf Hkey) as Hk.
    rewrite H0 in Hk. cbn in Hk. congruence.
Qed.

Lemma invalid_configuration_aborts_witness :
  exit_code (ended (Part001.cli (collaborators_with (Resolved [result_passed])) no_flags_001
                      (<["viewportSize" := JArr [JObj (<["width" := JNum 800]> ∅)]]>
                         (configs_with_concurrency (JNum 1))))) = 1
  /\ dispatched (console (Part000.cli (collaborators_with (Resolved [result_passed]))
                            no_flags_000 (<["maxRunningBrowsers" := JNum 1]> ∅))) = false.
Proof.
  split.
  - destruct (invalid_configuration_aborts
                (collaborators_with (Resolved [result_passed])) no_flags_001 no_flags_000
                (<["viewportSize" := JArr [JObj (<["width" := JNum 800]> ∅)]]>
                   (configs_with_concurrency (JNum 1))))
      as [(e & _ & _ & Hcode & _) _].
    + right. split; [reflexivity|].
      exists (JObj (<["width" := JNum 800]> ∅)). split; [left; reflexivity|].
      right. reflexivity.
    + exact Hcode.
  - destruct (invalid_configuration_aborts
                (collaborators_with (Resolved [result_passed])) no_flags_001 no_flags_000
                (<["maxRunningBrowsers" := JNum 1]> ∅))
      as [_ (e & _ & _ & _ & _ & Hnone & _)].
    + left. reflexivity.
    + exact Hnone.
Defined.

End ConfigurationErrors.

(** * Further properties of the results handler *)

Section ResultsHandler.

Implicit Types (r : TestResults) (rs : list TestResults) (w : world).

Lemma display_result_001_line r exitCode w :
  snd (Part001.display_result r exitCode w)
  = mkWorld (configs w) (output w ++ [result_line r]).
Proof.
  rewrite display_result_001. unfold result_line.
  destruct (neither_new_nor_passed r); reflexivity.
Qed.

Lemma display_results_lines rs :
  forall exitCode w,
    snd (Part001.display_results rs exitCode w)
    = mkWorld (configs w) (output w ++ map result_line rs).
Proof.
  induction rs as [|r rs IH]; intros exitCode w.
  - cbn. rewrite app_nil_r. destruct w; reflexivity.
  - cbn [Part001.display_results map].
    unfold mbind, script_bind, bind.
    pose proof (display_result_001_line r exitCode w) as Hline.
    rewrite display_result_001 in Hline |- *.
    destruct (neither_new_nor_passed r); cbn [snd] in Hline; cbv iota;
      rewrite IH; cbn [configs output]; rewrite <- app_assoc; 
      injection Hline as Hout; apply app_inv_head in Hout; rewrite Hout; reflexivity.
Qed.

Lemma forEach_display_lines rs :
  forall w,
    forEach Part000.display_result rs w
    = (Normal tt, mkWorld (configs w) (output w ++ map result_line rs)).
Proof.
  induction rs as [|r rs IH]; intros w.
  - cbn. rewrite app_nil_r. destruct w; reflexivity.
  - cbn [forEach map]. unfold mbind, script_bind, bind.
    rewrite display_result_000, IH. cbn [configs output].
    rewrite <- app_assoc. reflexivity.
Qed.

(** X1: for a non-empty list of results the handler prints the header, one
    line per result in the order of the list, and last the line
    'See details at' with the batch URL of the first result; nothing else,
    and the configuration is left alone. [part_000] prints the header on
    two lines. *)
Theorem results_are_reported_in_order :
  forall (r : TestResults) (rs : list TestResults) (w : world),
    snd (Part001.on_results (r :: rs) w)
    = mkWorld (configs w)
        (output w
         ++ [console_log [Text (LF ++ "[EYES: TEST RESULTS]:")]]
         ++ map result_line (r :: rs)
         ++ [console_log [Text "See details at"; Text (getBatch r)]])
    /\ snd (Part000.on_results (r :: rs) w)
       = mkWorld (configs w)
           (output w
            ++ [console_log [Text LF]; console_log [Text "[EYES: TEST RESULTS]:"]]
            ++ map result_line (r :: rs)
            ++ [console_log [Text "See details at"; Text (getBatch r)]]).
Proof.
  intros r rs w. split.
  - unfold Part001.on_results.
    unfold mbind at 1, script_bind at 1, bind at 1. cbn [emit].
    unfold mbind at 1, script_bind at 1, bind at 1.
    pose proof (display_results_lines (r :: rs) 0
                  (mkWorld (configs w)
                     (output w ++ [console_log [Text (LF ++ "[EYES: TEST RESULTS]:")]])))
      as Hlines.
    destruct (display_results_normal (r :: rs) 0
                (mkWorld (configs w)
                   (output w ++ [console_log [Text (LF ++ "[EYES: TEST RESULTS]:")]])))
      as (code & w2 & Hrun).
    rewrite Hrun in Hlines |- *. cbn [snd] in Hlines. subst w2.
    script_unfold. cbn. rewrite <- !app_assoc. reflexivity.
  - unfold Part000.on_results.
    unfold mbind at 1, script_bind at 1, bind at 1. cbn [emit].
    unfold mbind at 1, script_bind at 1, bind at 1. cbn [emit].
    unfold mbind at 1, script_bind at 1, bind at 1.
    rewrite forEach_display_lines.
    script_unfold. cbn. rewrite <- !app_assoc. reflexivity.
Qed.

End ResultsHandler.

Section ExitCodes.

Implicit Types (r : TestResults) (rs : list TestResults) (w : world).

Lemma existsb_Permutation {A : Type} (f : A -> bool) (l l' : list A) :
  Permutation l l' -> existsb f l = existsb f l'.
Proof.
  induction 1 as [|x l l' _ IH|x y l|l l' l'' _ IH1 _ IH2]; cbn.
  - reflexivity.
  - rewrite IH. reflexivity.
  - rewrite !orb_assoc, (orb_comm (f y)). reflexivity.
  - congruence.
Qed.

(** X2: the argument the handler of [part_001] passes to [process.exit]
    does not depend on the order of the results, nor on the console and the
    configuration it starts from; and with further results it is never
    lower. *)
Theorem exit_code_ignores_order :
  forall (rs rs' more : list TestResults) (w w' : world),
    Permutation rs rs' ->
    fst (Part001.on_results rs w) = fst (Part001.on_results rs' w')
    /\ exists code code',
         fst (Part001.on_results rs w) = Normal (Some code)
         /\ fst (Part001.on_results (rs' ++ more) w') = Normal (Some code')
         /\ code <= code'.
Proof.
  intros rs rs' more w w' Hperm. rewrite !on_results_001.
  rewrite (existsb_Permutation _ _ _ Hperm). split; [reflexivity|].
  eexists _, _. split; [reflexivity|]. split; [reflexivity|].
  rewrite existsb_app. unfold Part001.EYES_TEST_FAILED_EXIT_CODE.
  destruct (existsb neither_new_nor_passed rs'), (existsb neither_new_nor_passed more);
    cbn; lia.
Qed.

Lemma exit_code_ignores_order_witness :
  fst (Part001.on_results [result_new; result_mismatch] (mkWorld ∅ []))
  = fst (Part001.on_results [result_mismatch; result_new] (mkWorld ∅ [])).
Proof.
  exact (proj1 (exit_code_ignores_order [result_new; result_mismatch]
                  [result_mismatch; result_new] [] (mkWorld ∅ []) (mkWorld ∅ [])
                  (perm_swap _ _ _))).
Defined.

(** X3: whatever the configuration, the flags and the collaborators, a run
    of [part_001] from the validation on ends with exit code 0, 1 or 130, and
    a run of [part_000] with 0 or 1. *)
Theorem exit_code_range :
  forall (ext : Collaborators) (y1 : Part001.Yargs) (y0 : Part000.Yargs)
         (conf : gmap string jsval),
    (exit_code (ended (Part001.cli ext y1 conf)) = 0
     \/ exit_code (ended (Part001.cli ext y1 conf)) = 1
     \/ exit_code (ended (Part001.cli ext y1 conf)) = 130)
    /\ (exit_code (ended (Part000.cli ext y0 conf)) = 0
        \/ exit_code (ended (Part000.cli ext y0 conf)) = 1).
Proof.
  intros ext y1 y0 conf. rewrite ended_001, ended_000. split.
  - destruct (Part001.settle ext y1 (mkWorld conf [])) as [[[rs|err]|e] w]; cbn; auto.
    destruct (existsb neither_new_nor_passed rs); auto.
  - destruct (Part000.settle ext (mkWorld conf [])) as [[[rs|err]|e] w]; cbn; auto.
Qed.

(** X4: when the promise of the run rejects, [part_001] prints the error
    itself on the error stream and [part_000] its message, or the name of
    the error when the message is empty; then, without the debug flag, both
    print the hint 'Run with --debug flag to see more logs.', and with it
    [part_000] prints 'DEBUG:' and the stack instead; the exit code is 1 and
    no line of results is printed. *)
Theorem rejected_run_is_reported :
  forall (ext : Collaborators) (y1 : Part001.Yargs) (y0 : Part000.Yargs)
         (conf : gmap string jsval) (err : error),
    (forall w,
        Part001.settle ext y1 (mkWorld conf []) = (Normal (Rejected err), w) ->
        Part001.cli ext y1 conf
        = mkProcess (process_exit (Some 1))
            (output w ++ console_error [ErrorValue err]
               :: (if Part001.debug y1 then []
                   else [console_log [Text "Run with --debug flag to see more logs."]]))
            (configs w))
    /\ (forall w,
        Part000.settle ext (mkWorld conf []) = (Normal (Rejected err), w) ->
        Part000.cli ext y0 conf
        = mkProcess (process_exit (Some 1))
            (output w
             ++ [console_error
                   [Text (match err with
                          | Error EmptyString => "Error"
                          | TypeError EmptyString => "TypeError"
                          | Error m | TypeError m => m
                          end)];
                 if Part000.debug y0
                 then console_error [Text "DEBUG:"; ErrorStack err]
                 else console_log [Text "Run with --debug flag to see more logs."]])
            (configs w)).
Proof.
  intros ext y1 y0 conf err. split; intros w Hs.
  - unfold Part001.cli, run_script, Part001.script_body.
    erewrite bind_normal by exact Hs.
    unfold Part001.on_error. script_unfold.
    destruct (Part001.debug y1); cbn; rewrite <- ?app_assoc; reflexivity.
  - unfold Part000.cli, run_script, Part000.script_body.
    erewrite bind_normal by exact Hs.
    unfold Part000.on_error, Part000.error_message. script_unfold.
    destruct (Part000.debug y0); cbn; rewrite <- ?app_assoc; reflexivity.
Qed.

Lemma rejected_run_is_reported_witness :
  console (Part001.cli (collaborators_with (Rejected (Error EmptyString))) no_flags_001
             (configs_with_concurrency (JNum 1)))
  = [testStories [JStr "Button"];
     console_error [ErrorValue (Error EmptyString)];
     console_log [Text "Run with --debug flag to see more logs."]]
  /\ console (Part000.cli (collaborators_with (Rejected (Error EmptyString))) no_flags_000
                (configs_with_concurrency (JNum 1)))
     = [testStories [JStr "Button"];
        console_error [Text "Error"];
        console_log [Text "Run with --debug flag to see more logs."]].
Proof.
  destruct (rejected_run_is_reported (collaborators_with (Rejected (Error EmptyString)))
              no_flags_001 no_flags_000 (configs_with_concurrency (JNum 1))
              (Error EmptyString)) as [H1 H0].
  split.
  - erewrite H1 by (vm_compute; reflexivity). reflexivity.
  - erewrite H0 by (vm_compute; reflexivity). reflexivity.
Defined.

End ExitCodes.

(** * Further properties of the session class *)

Section SessionCalls.

Import Session.

Implicit Types (s : EyesStorybook) (c : call) (calls : list call).

Lemma step_checkpoints s c :
  checkpoints (step s c) = (checkpoints s ++ reported_by c)%list.
Proof.
  unfold checkpoints.
  destruct c as [a t v r| img t r| u t r| x| v| i]; cbn;
    try destruct r; cbn; rewrite ?List.filter_app; cbn; rewrite ?app_nil_r; reflexivity.
Qed.

(** X5: over any sequence of method calls, the checkpoints reported to the
    base class are exactly one per checkImage or checkUrl call, in the order
    of the calls and whether their promises resolve or reject; each carries
    the title argument as it was given (not the stored [title || '']),
    ignoreMismatch false and check settings 0. open, close, setViewportSize
    and setInferredEnvironment report none. *)
Theorem checkpoints_follow_calls :
  forall (calls : list call) (s : EyesStorybook),
    checkpoints (after calls s) = (checkpoints s ++ flat_map reported_by calls)%list
    /\ length (checkpoints (after calls s))
       = (length (checkpoints s) + length (List.filter is_check calls))%nat.
Proof.
  intros calls. induction calls as [|c calls IH]; intros s.
  - cbn. rewrite app_nil_r. split; [reflexivity | lia].
  - change (after (c :: calls) s) with (after calls (step s c)).
    destruct (IH (step s c)) as [Hlist Hlen].
    split.
    + rewrite Hlist, step_checkpoints. cbn [flat_map].
      rewrite <- app_assoc. reflexivity.
    + rewrite Hlen, step_checkpoints, length_app.
      destruct c; cbn; lia.
Qed.

Lemma step_keeps_checked s c :
  is_check c = false ->
  _title (step s c) = _title s
  /\ _screenshot (step s c) = _screenshot s
  /\ _screenshotUrl (step s c) = _screenshotUrl s.
Proof.
  destruct c as [a t v r| img t r| u t r| x| v| i]; cbn; try discriminate;
    intros _; try destruct r; repeat split.
Qed.

Lemma after_keeps_checked calls :
  forall s,
    forallb (fun c => negb (is_check c)) calls = true ->
    _title (after calls s) = _title s
    /\ _screenshot (after calls s) = _screenshot s
    /\ _screenshotUrl (after calls s) = _screenshotUrl s.
Proof.
  induction calls as [|c calls IH]; intros s Hnone.
  - repeat split.
  - cbn in Hnone. apply andb_true_iff in Hnone as [Hc Hrest].
    apply negb_true_iff in Hc.
    change (after (c :: calls) s) with (after calls (step s c)).
    destruct (IH (step s c) Hrest) as (Ht & Hs & Hu).
    destruct (step_keeps_checked s c Hc) as (Ht' & Hs' & Hu').
    rewrite Ht, Hs, Hu. repeat split; assumption.
Qed.

(** X6: the title, the screenshot and the screenshot URL of a session are
    those of its last checkImage or checkUrl call, whatever was called
    before and whatever other methods (open, close, setViewportSize,
    setInferredEnvironment) are called after it. *)
Theorem last_check_decides :
  forall (before later : list call) (s : EyesStorybook) (title : jsval)
         (r : promise jsval),
    forallb (fun c => negb (is_check c)) later = true ->
    (forall img,
        let s' := after (before ++ CheckImage img title r :: later) s in
        getTitle s' = Resolved (js_or title (JStr EmptyString))
        /\ getScreenshot s' = Resolved (Some (mkEyesSimpleScreenshot img))
        /\ getScreenshotUrl s' = Resolved JUndefined)
    /\ (forall url,
        let s' := after (before ++ CheckUrl url title r :: later) s in
        getTitle s' = Resolved (js_or title (JStr EmptyString))
        /\ getScreenshot s' = Resolved None
        /\ getScreenshotUrl s' = Resolved url).
Proof.
  intros before later s title r Hlater.
  split; intros x; cbv zeta; rewrite after_app;
    match goal with
    | |- context [after (?c :: later) ?s0] =>
        change (after (c :: later) s0) with (after later (step s0 c));
        destruct (after_keeps_checked later (step s0 c) Hlater) as (Ht & Hs & Hu)
    end;
    unfold getTitle, getScreenshot, getScreenshotUrl; rewrite Ht, Hs, Hu;
    repeat split.
Qed.

Lemma last_check_decides_witness :
  getScreenshotUrl
    (after ([CheckImage (mkMutableImage 1024 768) (JStr "a") (Resolved JUndefined)]
            ++ CheckUrl (JStr "https://render/1.png") JNull (Rejected (Error "x"))
            :: [Close (JBool true); SetViewportSize (mkRectangleSize 800 600)])
       (constructor ∅))
  = Resolved (JStr "https://render/1.png").
Proof.
  pose proof (last_check_decides
                [CheckImage (mkMutableImage 1024 768) (JStr "a") (Resolved JUndefined)]
                [Close (JBool true); SetViewportSize (mkRectangleSize 800 600)]
                (constructor ∅) JNull (Rejected (Error "x")) eq_refl) as [_ Hurl].
  exact (proj2 (proj2 (Hurl (JStr "https://render/1.png")))).
Defined.

(** X7: without a screenshot, getViewportSize resolves to the size last
    given to setViewportSize; while a screenshot is held a new size does not
    show, and it shows again once a checkUrl has dropped the screenshot. An
    open whose base promise rejects returns that rejection and leaves the
    viewport size as it was; one that resolves sets it. *)
Theorem viewport_size_round_trip :
  forall (s : EyesStorybook) (size : RectangleSize),
    _screenshot s = None ->
    getViewportSize (snd (setViewportSize size s)) = Resolved (Some size)
    /\ (forall img title r,
          getViewportSize (snd (setViewportSize size (snd (checkImage img title r s))))
          = Resolved (Some (mkRectangleSize (getWidth img) (getHeight img))))
    /\ (forall img url title title' r r',
          getViewportSize
            (snd (checkUrl url title' r'
                    (snd (setViewportSize size (snd (checkImage img title r s))))))
          = Resolved (Some size))
    /\ (forall appName testName e,
          fst (open appName testName size (Rejected e) s) = Rejected e
          /\ getViewportSize (snd (open appName testName size (Rejected e) s))
             = getViewportSize s)
    /\ (forall appName testName,
          fst (open appName testName size (Resolved tt) s) = Resolved tt
          /\ getViewportSize (snd (open appName testName size (Resolved tt) s))
             = Resolved (Some size)).
Proof.
  intros s size Hnone. unfold getViewportSize. cbn. rewrite Hnone. repeat split.
Qed.

Lemma viewport_size_round_trip_witness :
  getViewportSize (snd (setViewportSize (mkRectangleSize 800 600) (constructor ∅)))
  = Resolved (Some (mkRectangleSize 800 600)).
Proof.
  exact (proj1 (viewport_size_round_trip (constructor ∅) (mkRectangleSize 800 600) eq_refl)).
Defined.

Lemma step_keeps_connection s c :
  apiKey (step s c) = apiKey s
  /\ serverUrl (step s c) = serverUrl s
  /\ proxy (step s c) = proxy s.
Proof.
  destruct c as [a t v r| img t r| u t r| x| v| i]; cbn; try destruct r; repeat split.
Qed.

Lemma step_keeps_inferred s c :
  match c with
  | SetInferredEnvironment i => _inferred (step s c) = i
  | _ => _inferred (step s c) = _inferred s
  end.
Proof. destruct c as [a t v r| img t r| u t r| x| v| i]; cbn; try destruct r; reflexivity. Qed.

(** X8: the connection settings of a session are fixed by the constructor:
    the API key is [configs.apiKey], the server URL and the proxy are taken
    from the configuration only when they are truthy, and no method call
    changes any of them. The inferred environment starts as the empty
    string, getInferredEnvironment resolves to the value last given to
    setInferredEnvironment, and no other method changes it. *)
Theorem connection_and_environment :
  forall (configs : gmap string jsval) (calls : list call),
    let s := after calls (constructor configs) in
    apiKey s = prop configs "apiKey"
    /\ serverUrl s = (if truthy (prop configs "serverUrl")
                      then Some (prop configs "serverUrl") else None)
    /\ proxy s = (if truthy (prop configs "proxy") then Some (prop configs "proxy") else None)
    /\ getInferredEnvironment (constructor configs) = Resolved (JStr EmptyString)
    /\ (forall inferred later,
          forallb (fun c => match c with SetInferredEnvironment _ => false | _ => true end)
            later = true ->
          getInferredEnvironment (after later (setInferredEnvironment inferred s))
          = Resolved inferred).
Proof.
  intros configs calls. cbv zeta.
  assert (Hconn : forall l s0, apiKey (after l s0) = apiKey s0
                               /\ serverUrl (after l s0) = serverUrl s0
                               /\ proxy (after l s0) = proxy s0).
  { induction l as [|c l IH]; intros s0; [repeat split|].
    change (after (c :: l) s0) with (after l (step s0 c)).
    destruct (IH (step s0 c)) as (Ha & Hu & Hp).
    destruct (step_keeps_connection s0 c) as (Ha' & Hu' & Hp').
    rewrite Ha, Hu, Hp. repeat split; assumption. }
  destruct (Hconn calls (constructor configs)) as (Ha & Hu & Hp).
  rewrite Ha, Hu, Hp. repeat split.
  intros inferred later. generalize (after calls (constructor configs)) as s0.
  intros s0.
  change (setInferredEnvironment inferred s0) with (step s0 (SetInferredEnvironment inferred)).
  generalize (step_keeps_inferred s0 (SetInferredEnvironment inferred)).
  generalize (step s0 (SetInferredEnvironment inferred)) as s1. clear.
  induction later as [|c later IH]; intros s1 Hs1 Hnone.
  - unfold getInferredEnvironment. cbn. rewrite Hs1. reflexivity.
  - cbn in Hnone. apply andb_true_iff in Hnone as [Hc Hrest].
    change (after (c :: later) s1) with (after later (step s1 c)).
    apply IH; [|exact Hrest].
    pose proof (step_keeps_inferred s1 c) as Hstep.
    destruct c; try discriminate Hc; cbn in Hstep |- *; congruence.
Qed.

End SessionCalls.

(** * Further properties of the configuration validation *)

Section ValidationAccepts.

Implicit Types (w : world) (v : jsval) (conf : gmap string jsval).

Lemma check_storybookApp_001_spec w :
  Part001.check_storybookApp w
  = (if truthy (prop (configs w) "storybookApp")
        && negb (includes_str Part001.SUPPORTED_STORYBOOK3_APPS (prop (configs w) "storybookApp"))
     then Throw (Error ("storybookApp should be one of ["
                        ++ String.concat "," Part001.SUPPORTED_STORYBOOK3_APPS ++ "]."))
     else Normal tt, w).
Proof.
  unfold Part001.check_storybookApp. script_unfold.
  match goal with |- context [if ?b then _ else _] => destruct b end; reflexivity.
Qed.

Lemma check_storybookApp_000_spec w :
  Part000.check_storybookApp w
  = (if truthy (prop (configs w) "storybookApp")
        && negb (includes_str ["react"; "vue"] (prop (configs w) "storybookApp"))
     then Throw (Error ("storybookApp should be " ++ DQ ++ "react" ++ DQ ++ " or "
                        ++ DQ ++ "vue" ++ DQ ++ "."))
     else Normal tt, w).
Proof.
  unfold Part000.check_storybookApp. script_unfold.
  match goal with |- context [if ?b then _ else _] => destruct b end; reflexivity.
Qed.

Lemma check_storybookVersion_spec w :
  check_storybookVersion w
  = (if truthy (prop (configs w) "storybookVersion")
        && negb (includes_num [2; 3] (prop (configs w) "storybookVersion"))
     then Throw (Error "storybookVersion should be 2 or 3.")
     else Normal tt, w).
Proof.
  unfold check_storybookVersion. script_unfold.
  match goal with |- context [if ?b then _ else _] => destruct b end; reflexivity.
Qed.

(** The address block, computed: it completes unless the address is truthy
    and no string; it writes [configs.storybookAddress] only. *)
Lemma normalise_storybookAddress_spec w :
  normalise_storybookAddress w
  = match prop (configs w) "storybookAddress" with
    | JStr s =>
        (Normal tt,
         if negb (String.eqb s EmptyString) && negb (endsWith s "/")
         then mkWorld (<["storybookAddress" := JStr (s ++ "/")]> (configs w)) (output w)
         else w)
    | a =>
        (if truthy a
         then Throw (TypeError "configs.storybookAddress.endsWith is not a function")
         else Normal tt, w)
    end.
Proof.
  unfold normalise_storybookAddress. script_unfold.
  destruct (prop (configs w) "storybookAddress") as [| |b|n| |s|l|o]; cbn;
    try reflexivity.
  - destruct b; reflexivity.
  - destruct (Z.eqb n 0); reflexivity.
  - destruct (String.eqb s EmptyString); cbn; [reflexivity|].
    destruct (endsWith s "/"); reflexivity.
Qed.

Lemma check_viewportSize_accepts v w :
  fst (check_viewportSize v w) = Normal tt <-> entry_ok v = true.
Proof.
  unfold check_viewportSize, entry_ok. script_unfold.
  destruct v as [| |b|n| |s|l|o]; cbn; try (split; discriminate).
  destruct (truthy (prop o "width")) eqn:Hw; cbn.
  - destruct (truthy (prop o "height")); cbn; split; (reflexivity || discriminate).
  - rewrite Hw. cbn. split; discriminate.
Qed.

Lemma forEach_check_viewportSize_accepts (l : list jsval) w :
  fst (forEach check_viewportSize l w) = Normal tt <-> forallb entry_ok l = true.
Proof.
  induction l as [|x l IH]; cbn [forEach forallb].
  - split; reflexivity.
  - unfold mbind, script_bind, bind.
    pose proof (check_viewportSize_world x w) as Hw.
    pose proof (check_viewportSize_accepts x w) as Hacc.
    destruct (check_viewportSize x w) as [[[]|e] w1]; cbn in Hw, Hacc; subst w1.
    + rewrite (proj1 Hacc eq_refl). exact IH.
    + destruct (entry_ok x); [destruct Hacc as [_ H]; discriminate (H eq_refl)|].
      cbn. split; discriminate.
Qed.

Lemma validate_viewportSize_accepts w :
  fst (validate_viewportSize w) = Normal tt
  <-> negb (truthy (prop (configs w) "viewportSize"))
      || forallb entry_ok (entries_of (prop (configs w) "viewportSize")) = true.
Proof.
  rewrite validate_viewportSize_spec. cbv zeta.
  destruct (truthy (prop (configs w) "viewportSize")) eqn:Htruthy; cbn [negb orb].
  - destruct (prop (configs w) "viewportSize"); apply forEach_check_viewportSize_accepts.
  - split; reflexivity.
Qed.

(** What is left of the validation after the check of the concurrency
    limit accepts a configuration exactly when its last four conditions
    hold. *)
Lemma after_limit_accepts (app_check : script unit) (apps : list string) w
      (thrown : error) :
  (forall w0, app_check w0
              = (if truthy (prop (configs w0) "storybookApp")
                    && negb (includes_str apps (prop (configs w0) "storybookApp"))
                 then Throw thrown else Normal tt, w0)) ->
  fst ((app_check;; check_storybookVersion;; normalise_storybookAddress;;
        validate_viewportSize) w) = Normal tt
  <-> (negb (truthy (prop (configs w) "storybookApp"))
       || includes_str apps (prop (configs w) "storybookApp"))
      && (negb (truthy (prop (configs w) "storybookVersion"))
          || includes_num [2; 3] (prop (configs w) "storybookVersion"))
      && (negb (truthy (prop (configs w) "storybookAddress"))
          || is_string (prop (configs w) "storybookAddress"))
      && (negb (truthy (prop (configs w) "viewportSize"))
          || forallb entry_ok (entries_of (prop (configs w) "viewportSize"))) = true.
Proof.
  intros Happ.
  unfold mbind at 1, script_bind at 1, bind at 1. rewrite Happ.
  destruct (truthy (prop (configs w) "storybookApp"));
    destruct (includes_str apps (prop (configs w) "storybookApp"));
    cbn [andb negb orb]; try (split; discriminate).
  all: unfold mbind at 1, script_bind at 1, bind at 1; rewrite check_storybookVersion_spec;
    destruct (truthy (prop (configs w) "storybookVersion"));
    destruct (includes_num [2; 3] (prop (configs w) "storybookVersion"));
    cbn [andb negb orb]; try (split; discriminate).
  all: unfold mbind at 1, script_bind at 1, bind at 1;
    rewrite normalise_storybookAddress_spec;
    destruct (prop (configs w) "storybookAddress") as [| |b|n| |s|l|o] eqn:Haddr;
    cbn [truthy is_string andb negb orb];
    try (split; discriminate);
    try (rewrite validate_viewportSize_accepts; reflexivity);
    try (destruct b; cbn [negb orb]; [split; discriminate|];
         rewrite validate_viewportSize_accepts; reflexivity);
    try (destruct (Z.eqb n 0); cbn [negb orb]; [|split; discriminate];
         rewrite validate_viewportSize_accepts; reflexivity).
  all: rewrite orb_true_r;
    destruct (negb (String.eqb s EmptyString) && negb (endsWith s "/"));
    rewrite validate_viewportSize_accepts; cbn [configs]; unfold prop;
    rewrite ?lookup_insert_ne by discriminate; reflexivity.
Qed.

End ValidationAccepts.

Section ValidationCharacterised.

Implicit Types (w : world) (v : jsval) (conf : gmap string jsval).

Lemma validating_001_accepts_from yargs w :
  fst (Part001.validating_configuration yargs w) = Normal tt
  <-> accepts "maxConcurrency" Part001.SUPPORTED_STORYBOOK3_APPS (configs w) = true.
Proof.
  unfold Part001.validating_configuration, accepts.
  destruct (apply_flags_spec yargs w) as (w1 & Hflags & Hsame & _).
  erewrite bind_normal by exact Hflags.
  rewrite <- !(Hsame _) by discriminate.
  unfold mbind at 1, script_bind at 1, bind at 1. rewrite require_apiKey_spec.
  destruct (truthy (prop (configs w1) "apiKey")); cbn [andb]; [|split; discriminate].
  unfold mbind at 1, script_bind at 1, bind at 1. rewrite require_defined_spec.
  destruct (truthy (prop (configs w1) "maxConcurrency"));
    destruct (strict_eq_num (prop (configs w1) "maxConcurrency") 0);
    cbn [andb negb orb]; try (split; discriminate);
    rewrite (after_limit_accepts _ _ w1 _ check_storybookApp_001_spec);
    reflexivity.
Qed.

Lemma validating_000_accepts_from w :
  fst (Part000.validating_configuration w) = Normal tt
  <-> accepts "maxRunningBrowsers" ["react"; "vue"] (configs w) = true.
Proof.
  unfold Part000.validating_configuration, accepts.
  unfold mbind at 1, script_bind at 1, bind at 1. rewrite require_apiKey_spec.
  destruct (truthy (prop (configs w) "apiKey")); cbn [andb]; [|split; discriminate].
  unfold mbind at 1, script_bind at 1, bind at 1. rewrite require_defined_spec.
  destruct (truthy (prop (configs w) "maxRunningBrowsers"));
    destruct (strict_eq_num (prop (configs w) "maxRunningBrowsers") 0);
    cbn [andb negb orb]; try (split; discriminate);
    rewrite (after_limit_accepts _ _ w _ check_storybookApp_000_spec);
    reflexivity.
Qed.

(** X9: the validation completes without an error exactly for the
    configurations in which the API key is truthy, the concurrency limit is
    truthy or 0, storybookApp is falsy or one of the supported apps,
    storybookVersion is falsy or 2 or 3, storybookAddress is falsy or a
    string, and viewportSize is falsy or has only entries (its elements if
    it is an array, else itself) that are objects with a truthy width and a
    truthy height. The flags of [part_001] play no part in it. The limit is
    [maxConcurrency] with five supported apps in [part_001],
    [maxRunningBrowsers] with 'react' and 'vue' in [part_000]. *)
Theorem validation_accepts_exactly :
  forall (y1 : Part001.Yargs) (conf : gmap string jsval) (out : list entry),
    (fst (Part001.validating_configuration y1 (mkWorld conf out)) = Normal tt
     <-> accepts "maxConcurrency" ["react"; "vue"; "react-native"; "angular"; "polymer"]
           conf = true)
    /\ (fst (Part000.validating_configuration (mkWorld conf out)) = Normal tt
        <-> accepts "maxRunningBrowsers" ["react"; "vue"] conf = true).
Proof.
  intros y1 conf out. split.
  - apply (validating_001_accepts_from y1 (mkWorld conf out)).
  - apply (validating_000_accepts_from (mkWorld conf out)).
Qed.

End ValidationCharacterised.

Section ValidationEffects.

Implicit Types (w : world) (v : jsval) (conf : gmap string jsval).

Lemma length_append (a b : string) :
  String.length (a ++ b) = (String.length a + String.length b)%nat.
Proof.
  induction a as [|x a IH]; [reflexivity|].
  change (S (String.length (a ++ b)) = S (String.length a + String.length b)).
  rewrite IH. reflexivity.
Qed.

Lemma substring_append_end (a b : string) :
  substring (String.length a) (String.length b) (a ++ b) = b.
Proof.
  induction a as [|x a IH].
  - change (substring 0 (String.length b) b = b).
    induction b as [|y b IHb]; [reflexivity|]. cbn. rewrite IHb. reflexivity.
  - change (substring (String.length a) (String.length b) (a ++ b) = b). exact IH.
Qed.

Lemma endsWith_append (a b : string) : endsWith (a ++ b) b = true.
Proof.
  unfold endsWith. rewrite length_append.
  replace (String.length a + String.length b - String.length b)%nat
    with (String.length a) by lia.
  rewrite substring_append_end, String.eqb_refl, andb_true_r.
  apply Nat.leb_le. lia.
Qed.

Lemma bind_normal_inv {A B : Type} (c : script A) (k : A -> script B) w b w' :
  (c ≫= k) w = (Normal b, w') ->
  exists a w1, c w = (Normal a, w1) /\ k a w1 = (Normal b, w').
Proof.
  unfold mbind, script_bind, bind.
  destruct (c w) as [[a|e] w1]; [eauto | discriminate].
Qed.

(** A check that leaves the world alone, completing. *)
Lemma unchanged_world {A : Type} (c : script A) w (r : completion A) a w' :
  c w = (r, w) -> c w = (Normal a, w') -> w' = w.
Proof. intros H1 H2. rewrite H1 in H2. congruence. Qed.

Lemma forEach_check_viewportSize_world (l : list jsval) w :
  snd (forEach check_viewportSize l w) = w.
Proof.
  induction l as [|x l IH]; [reflexivity|].
  cbn [forEach]. unfold mbind, script_bind, bind.
  pose proof (check_viewportSize_world x w) as Hw.
  destruct (check_viewportSize x w) as [[[]|e] w1]; cbn in Hw; subst w1;
    [exact IH | reflexivity].
Qed.

(** The configuration the flags of [part_001] leave. *)
Lemma apply_flags_configs yargs w w1 :
  Part001.apply_flags yargs w = (Normal tt, w1) ->
  configs w1
  = (if Part001.build yargs then <["skipStorybookBuild" := JBool false]> else id)
      ((if Part001.browser yargs then <["useVisualGrid" := JBool false]> else id)
         (configs w)).
Proof.
  unfold Part001.apply_flags. script_unfold.
  destruct (Part001.browser yargs), (Part001.build yargs); cbn;
    intros H; injection H as <-; reflexivity.
Qed.

(** Where a completed validation leaves the address and the viewport
    sizes, from the world [w1] its first checks ran in. *)
Lemma blocks_configs w1 w' :
  (normalise_storybookAddress;; validate_viewportSize) w1 = (Normal tt, w') ->
  output w' = output w1
  /\ (forall k, k <> "storybookAddress" -> k <> "viewportSize" ->
                configs w' !! k = configs w1 !! k)
  /\ match prop (configs w1) "storybookAddress" with
     | JStr s =>
         prop (configs w') "storybookAddress"
         = JStr (if negb (String.eqb s EmptyString) && negb (endsWith s "/")
                 then s ++ "/" else s)
         /\ (negb (String.eqb s EmptyString) && negb (endsWith s "/") = false ->
             configs w' !! "storybookAddress" = configs w1 !! "storybookAddress")
     | a => truthy a = false
            /\ configs w' !! "storybookAddress" = configs w1 !! "storybookAddress"
     end
  /\ (if truthy (prop (configs w1) "viewportSize")
      then prop (configs w') "viewportSize" = JArr (entries_of (prop (configs w1) "viewportSize"))
           /\ forallb entry_ok (entries_of (prop (configs w1) "viewportSize")) = true
      else True)
  /\ (match prop (configs w1) "viewportSize" with
      | JArr _ => True
      | a => truthy a = false
      end -> configs w' !! "viewportSize" = configs w1 !! "viewportSize").
Proof.
  intros H. apply bind_normal_inv in H as ([] & w2 & Haddr & Hview).
  pose proof (proj1 (validate_viewportSize_accepts w2)) as Hok.
  rewrite Hview in Hok. specialize (Hok eq_refl).
  rewrite validate_viewportSize_spec in Hview. cbv zeta in Hview.
  rewrite normalise_storybookAddress_spec in Haddr.
  assert (Hw2 : w2 = match prop (configs w1) "storybookAddress" with
                     | JStr s =>
                         if negb (String.eqb s EmptyString) && negb (endsWith s "/")
                         then mkWorld (<["storybookAddress" := JStr (s ++ "/")]> (configs w1))
                                (output w1)
                         else w1
                     | _ => w1
                     end).
  { destruct (prop (configs w1) "storybookAddress");
      apply (f_equal snd) in Haddr; cbn [snd] in Haddr; symmetry; exact Haddr. }
  assert (Hfalsy : match prop (configs w1) "storybookAddress" with
                   | JStr _ => True
                   | a => truthy a = false
                   end).
  { destruct (prop (configs w1) "storybookAddress") as [| |b|n| |s|l|o];
      apply (f_equal fst) in Haddr; cbn [fst truthy] in Haddr |- *;
      try reflexivity; try exact I; try discriminate Haddr.
    - destruct b; [discriminate Haddr | reflexivity].
    - destruct (negb (Z.eqb n 0)); [discriminate Haddr | reflexivity]. }
  clear Haddr.
  assert (Hout2 : output w2 = output w1).
  { rewrite Hw2. destruct (prop (configs w1) "storybookAddress"); try reflexivity.
    destruct (negb (String.eqb s EmptyString) && negb (endsWith s "/")); reflexivity. }
  assert (Hother2 : forall k, k <> "storybookAddress" -> configs w2 !! k = configs w1 !! k).
  { intros k Hk. rewrite Hw2.
    destruct (prop (configs w1) "storybookAddress"); try reflexivity.
    destruct (negb (String.eqb s EmptyString) && negb (endsWith s "/")); [|reflexivity].
    cbn. rewrite lookup_insert_ne by congruence. reflexivity. }
  assert (Hvp2 : configs w2 !! "viewportSize" = configs w1 !! "viewportSize")
    by (apply Hother2; discriminate).
  assert (Hvp : prop (configs w2) "viewportSize" = prop (configs w1) "viewportSize")
    by (unfold prop; rewrite Hvp2; reflexivity).
  rewrite Hvp in Hview, Hok.
  assert (Hw' : w' = if truthy (prop (configs w1) "viewportSize")
                     then match prop (configs w1) "viewportSize" with
                          | JArr _ => w2
                          | a => mkWorld (<["viewportSize" := JArr [a]]> (configs w2)) (output w2)
                          end
                     else w2).
  { destruct (truthy (prop (configs w1) "viewportSize")); [|congruence].
    destruct (prop (configs w1) "viewportSize");
      match type of Hview with
      | forEach check_viewportSize ?l ?w0 = _ =>
          pose proof (forEach_check_viewportSize_world l w0) as Hsame;
          rewrite Hview in Hsame; exact Hsame
      end. }
  clear Hview.
  assert (Hother' : forall k, k <> "viewportSize" -> configs w' !! k = configs w2 !! k).
  { intros k Hk. rewrite Hw'.
    destruct (truthy (prop (configs w1) "viewportSize")); [|reflexivity].
    destruct (prop (configs w1) "viewportSize"); try reflexivity;
      cbn; rewrite lookup_insert_ne by congruence; reflexivity. }
  assert (Haddr' : configs w' !! "storybookAddress" = configs w2 !! "storybookAddress")
    by (apply Hother'; discriminate).
  split; [|split; [|split; [|split]]].
  - rewrite Hw', <- Hout2.
    destruct (truthy (prop (configs w1) "viewportSize")); [|reflexivity].
    destruct (prop (configs w1) "viewportSize"); reflexivity.
  - intros k Hk1 Hk2. rewrite Hother', Hother2 by assumption. reflexivity.
  - destruct (prop (configs w1) "storybookAddress") as [| |b|n| |s|l|o] eqn:Ha;
      try (subst w2; split; [exact Hfalsy | exact Haddr']).
    unfold prop at 1. rewrite Haddr'.
    destruct (negb (String.eqb s EmptyString) && negb (endsWith s "/")); subst w2.
    + cbn. rewrite lookup_insert_eq. split; [reflexivity | discriminate].
    + fold (prop (configs w1) "storybookAddress"). rewrite Ha. split; reflexivity.
  - destruct (truthy (prop (configs w1) "viewportSize")) eqn:Htruthy; [|exact I].
    cbn [negb orb] in Hok. split; [|exact Hok].
    rewrite Hw'. unfold entries_of.
    destruct (prop (configs w1) "viewportSize") eqn:Hv; try discriminate Htruthy;
      try (unfold prop; cbn; rewrite lookup_insert_eq; reflexivity).
    rewrite Hvp. reflexivity.
  - intros Hnormal. rewrite Hw'.
    destruct (prop (configs w1) "viewportSize") eqn:Hv; try rewrite Hnormal;
      exact Hvp2.
Qed.

End ValidationEffects.

Section ValidatedConfiguration.

Implicit Types (w : world) (v : jsval) (conf : gmap string jsval).

Lemma validating_001_inv yargs w w' :
  Part001.validating_configuration yargs w = (Normal tt, w') ->
  exists w1, Part001.apply_flags yargs w = (Normal tt, w1)
             /\ (normalise_storybookAddress;; validate_viewportSize) w1 = (Normal tt, w').
Proof.
  unfold Part001.validating_configuration. intros H.
  apply bind_normal_inv in H as ([] & w1 & Hflags & H). exists w1. split; [exact Hflags|].
  apply bind_normal_inv in H as ([] & wa & Ha & H).
  apply (unchanged_world _ _ _ _ _ (require_apiKey_spec w1)) in Ha. subst wa.
  apply bind_normal_inv in H as ([] & wa & Ha & H).
  apply (unchanged_world _ _ _ _ _ (require_defined_spec _ w1)) in Ha. subst wa.
  apply bind_normal_inv in H as ([] & wa & Ha & H).
  apply (unchanged_world _ _ _ _ _ (check_storybookApp_001_spec w1)) in Ha. subst wa.
  apply bind_normal_inv in H as ([] & wa & Ha & H).
  apply (unchanged_world _ _ _ _ _ (check_storybookVersion_spec w1)) in Ha. subst wa.
  exact H.
Qed.

Lemma validating_000_inv w w' :
  Part000.validating_configuration w = (Normal tt, w') ->
  (normalise_storybookAddress;; validate_viewportSize) w = (Normal tt, w').
Proof.
  unfold Part000.validating_configuration. intros H.
  apply bind_normal_inv in H as ([] & wa & Ha & H).
  apply (unchanged_world _ _ _ _ _ (require_apiKey_spec w)) in Ha. subst wa.
  apply bind_normal_inv in H as ([] & wa & Ha & H).
  apply (unchanged_world _ _ _ _ _ (require_defined_spec _ w)) in Ha. subst wa.
  apply bind_normal_inv in H as ([] & wa & Ha & H).
  apply (unchanged_world _ _ _ _ _ (check_storybookApp_000_spec w)) in Ha. subst wa.
  apply bind_normal_inv in H as ([] & wa & Ha & H).
  apply (unchanged_world _ _ _ _ _ (check_storybookVersion_spec w)) in Ha. subst wa.
  exact H.
Qed.

Lemma apply_flags_lookup yargs w w1 :
  Part001.apply_flags yargs w = (Normal tt, w1) ->
  (forall k, k <> "useVisualGrid" -> k <> "skipStorybookBuild" ->
             configs w1 !! k = configs w !! k)
  /\ configs w1 !! "useVisualGrid"
     = (if Part001.browser yargs then Some (JBool false) else configs w !! "useVisualGrid")
  /\ configs w1 !! "skipStorybookBuild"
     = (if Part001.build yargs then Some (JBool false) else configs w !! "skipStorybookBuild")
  /\ output w1
     = (output w
        ++ (if Part001.browser yargs
            then [logger_log "Forced Browser mode, due to --browser argument."] else [])
        ++ (if Part001.build yargs
            then [logger_log "Build Storybook enabled, due to --build argument."] else []))%list.
Proof.
  intros H. pose proof (apply_flags_configs yargs w w1 H) as Hc.
  unfold Part001.apply_flags in H. script_unfold.
  destruct (Part001.browser yargs), (Part001.build yargs); cbn in *;
    injection H as <-; cbn in *;
    (split; [intros k Hk1 Hk2; rewrite ?lookup_insert_ne by congruence; reflexivity|]);
    repeat (rewrite lookup_insert_eq || rewrite lookup_insert_ne by discriminate);
    rewrite <- ?app_assoc, ?app_nil_r; repeat split.
Qed.

(** X10: when the validation completes, a storybookAddress that was a
    non-empty string ends with '/' in the configuration it leaves (it is the
    given string, with one '/' appended if it had none at its end); and a
    viewportSize that was truthy is an array of the entries it was given
    (a single size is wrapped), each an object with a truthy width and
    height. Both revisions. *)
Theorem validated_address_and_viewports :
  forall (y1 : Part001.Yargs) (conf : gmap string jsval) (out : list entry) (w : world),
    Part001.validating_configuration y1 (mkWorld conf out) = (Normal tt, w)
    \/ Part000.validating_configuration (mkWorld conf out) = (Normal tt, w) ->
    (forall s, prop conf "storybookAddress" = JStr s -> s <> EmptyString ->
               exists s', prop (configs w) "storybookAddress" = JStr s'
                          /\ endsWith s' "/" = true
                          /\ (s' = s \/ (endsWith s "/" = false /\ s' = s ++ "/")))
    /\ (truthy (prop conf "viewportSize") = true ->
        prop (configs w) "viewportSize" = JArr (entries_of (prop conf "viewportSize"))
        /\ forallb entry_ok (entries_of (prop conf "viewportSize")) = true).
Proof.
  intros y1 conf out w Hrun.
  assert (Hblocks : exists w1,
             (normalise_storybookAddress;; validate_viewportSize) w1 = (Normal tt, w)
             /\ prop (configs w1) "storybookAddress" = prop conf "storybookAddress"
             /\ prop (configs w1) "viewportSize" = prop conf "viewportSize").
  { destruct Hrun as [H|H].
    - apply validating_001_inv in H as (w1 & Hflags & H). exists w1.
      destruct (apply_flags_lookup _ _ _ Hflags) as (Hsame & _).
      unfold prop. rewrite !Hsame by discriminate. repeat split. exact H.
    - apply validating_000_inv in H. exists (mkWorld conf out). repeat split. exact H. }
  destruct Hblocks as (w1 & H & Ha & Hv).
  destruct (blocks_configs w1 w H) as (_ & _ & Haddr & Hview & _).
  rewrite Ha in Haddr. rewrite Hv in Hview. split.
  - intros s Hs Hne. rewrite Hs in Haddr. destruct Haddr as [Haddr _].
    apply String.eqb_neq in Hne. rewrite Hne in Haddr. cbn [negb andb] in Haddr.
    eexists. split; [exact Haddr|].
    destruct (endsWith s "/") eqn:Hends; cbn [negb].
    + split; [exact Hends | left; reflexivity].
    + split; [apply endsWith_append | right; split; reflexivity].
  - intros Htruthy. rewrite Htruthy in Hview. exact Hview.
Qed.

End ValidatedConfiguration.

Section ValidationFrame.

Implicit Types (w : world) (v : jsval) (conf : gmap string jsval).

Lemma set_cfg_keeps_output (P : list entry -> Prop) k v :
  keeps (fun w => P (output w)) (set_cfg k v).
Proof. intros w HP. exact HP. Qed.

Ltac frame_step :=
  first
    [ apply keeps_bind; [|intros ?]
    | apply keeps_when
    | apply keeps_if
    | apply keeps_cfg
    | apply keeps_throw
    | apply keeps_ret
    | apply keeps_lift
    | apply emit_holds
    | apply set_cfg_keeps_output
    | apply set_cfg_holds; congruence ].

Ltac frame_match :=
  match goal with |- keeps _ (match ?x with _ => _ end) => destruct x end.

(** The two blocks that write the configuration write their own property
    only, and print nothing. *)
Lemma normalise_storybookAddress_frame k v :
  k <> "storybookAddress" -> keeps (holds k v) normalise_storybookAddress.
Proof.
  intros Hk. unfold normalise_storybookAddress. repeat frame_step.
  frame_match; repeat frame_step.
Qed.

Lemma validate_viewportSize_frame k v :
  k <> "viewportSize" -> keeps (holds k v) validate_viewportSize.
Proof.
  intros Hk. unfold validate_viewportSize. repeat frame_step.
  unfold js_forEach. frame_match; try apply keeps_throw.
  apply keeps_forEach. intros x. unfold check_viewportSize. repeat frame_step.
Qed.

Lemma normalise_storybookAddress_silent (P : list entry -> Prop) :
  keeps (fun w => P (output w)) normalise_storybookAddress.
Proof.
  unfold normalise_storybookAddress. repeat frame_step.
  frame_match; repeat frame_step.
Qed.

Lemma validate_viewportSize_silent (P : list entry -> Prop) :
  keeps (fun w => P (output w)) validate_viewportSize.
Proof.
  unfold validate_viewportSize. repeat frame_step.
  unfold js_forEach. frame_match; try apply keeps_throw.
  apply keeps_forEach. intros x. unfold check_viewportSize. repeat frame_step.
Qed.

(** The checks after the flags, in both revisions. *)
Lemma checks_keep (Q : world -> Prop) (app_check : script unit) (limit : string) :
  keeps Q app_check ->
  keeps Q normalise_storybookAddress ->
  keeps Q validate_viewportSize ->
  keeps Q (require_apiKey;; require_defined limit;; app_check;; check_storybookVersion;;
           normalise_storybookAddress;; validate_viewportSize).
Proof.
  intros Happ Haddr Hview.
  apply keeps_bind; [apply require_apiKey_keeps | intros _].
  apply keeps_bind; [apply require_defined_keeps | intros _].
  apply keeps_bind; [exact Happ | intros _].
  apply keeps_bind; [apply check_storybookVersion_keeps | intros _].
  apply keeps_bind; [exact Haddr | intros _].
  exact Hview.
Qed.

(** X11: whether the validation completes or throws, it changes no
    property of the configuration other than storybookAddress and
    viewportSize and, in [part_001], the two properties its flags force:
    useVisualGrid is false after --browser and skipStorybookBuild is false
    after --build, and otherwise as configured. It prints nothing but the
    notices of these two flags, through the logger. *)
Theorem validation_frame :
  forall (y1 : Part001.Yargs) (conf : gmap string jsval) (out : list entry) (k : string),
    k <> "storybookAddress" -> k <> "viewportSize" ->
    let w1 := snd (Part001.validating_configuration y1 (mkWorld conf out)) in
    let w0 := snd (Part000.validating_configuration (mkWorld conf out)) in
    prop (configs w0) k = prop conf k
    /\ output w0 = out
    /\ prop (configs w1) k
       = (if (String.eqb k "useVisualGrid" && Part001.browser y1)
             || (String.eqb k "skipStorybookBuild" && Part001.build y1)
          then JBool false else prop conf k)
    /\ output w1
       = (out
          ++ (if Part001.browser y1
              then [logger_log "Forced Browser mode, due to --browser argument."] else [])
          ++ (if Part001.build y1
              then [logger_log "Build Storybook enabled, due to --build argument."] else []))%list.
Proof.
  intros y1 conf out k Hk1 Hk2. cbv zeta.
  assert (Hrest : forall (app_check : script unit) limit v,
             keeps (holds k v) app_check ->
             keeps (holds k v)
               (require_apiKey;; require_defined limit;; app_check;; check_storybookVersion;;
                normalise_storybookAddress;; validate_viewportSize)).
  { intros app_check limit v Happ. apply checks_keep; [exact Happ | |].
    - apply normalise_storybookAddress_frame, Hk1.
    - apply validate_viewportSize_frame, Hk2. }
  assert (Hsilent : forall (app_check : script unit) limit (P : list entry -> Prop),
             keeps (fun w => P (output w)) app_check ->
             keeps (fun w => P (output w))
               (require_apiKey;; require_defined limit;; app_check;; check_storybookVersion;;
                normalise_storybookAddress;; validate_viewportSize)).
  { intros app_check limit P Happ. apply checks_keep; [exact Happ | |].
    - apply normalise_storybookAddress_silent.
    - apply validate_viewportSize_silent. }
  split; [|split; [|split]].
  - apply (Hrest Part000.check_storybookApp "maxRunningBrowsers" (prop conf k)
             (check_storybookApp_000_keeps _) (mkWorld conf out)).
    reflexivity.
  - apply (Hsilent Part000.check_storybookApp "maxRunningBrowsers" (fun o => o = out)
             (check_storybookApp_000_keeps _) (mkWorld conf out)).
    reflexivity.
  - unfold Part001.validating_configuration.
    destruct (apply_flags_spec y1 (mkWorld conf out)) as (wf & Hflags & _).
    erewrite bind_normal by exact Hflags.
    destruct (apply_flags_lookup _ _ _ Hflags) as (Hother & Hgrid & Hbuild & _).
    apply (Hrest Part001.check_storybookApp "maxConcurrency" _
             (check_storybookApp_001_keeps _) wf).
    unfold holds, prop. cbn [configs] in *.
    destruct (String.eqb_spec k "useVisualGrid") as [->|Hg].
    + rewrite Hgrid. destruct (Part001.browser y1); reflexivity.
    + destruct (String.eqb_spec k "skipStorybookBuild") as [->|Hb].
      * rewrite Hbuild. destruct (Part001.build y1); reflexivity.
      * rewrite Hother by assumption. reflexivity.
  - unfold Part001.validating_configuration.
    destruct (apply_flags_spec y1 (mkWorld conf out)) as (wf & Hflags & _).
    erewrite bind_normal by exact Hflags.
    destruct (apply_flags_lookup _ _ _ Hflags) as (_ & _ & _ & Hout).
    cbn [output] in Hout. rewrite <- Hout.
    apply (Hsilent Part001.check_storybookApp "maxConcurrency" (fun o => o = output wf)
             (check_storybookApp_001_keeps _) wf).
    reflexivity.
Qed.

Lemma validation_frame_witness :
  prop (configs (snd (Part001.validating_configuration (Part001.mkYargs true false false)
                        (mkWorld (<["useVisualGrid" := JBool true]>
                                    (configs_with_concurrency (JNum 1))) []))))
    "useVisualGrid" = JBool false.
Proof.
  exact (proj1 (proj2 (proj2 (validation_frame (Part001.mkYargs true false false)
                                (<["useVisualGrid" := JBool true]>
                                   (configs_with_concurrency (JNum 1))) []
                                "useVisualGrid" ltac:(discriminate) ltac:(discriminate))))).
Defined.

End ValidationFrame.

Section ValidationIdempotent.

Implicit Types (w : world) (v : jsval) (conf : gmap string jsval).

Lemma prop_of_lookup (c c' : gmap string jsval) k :
  c !! k = c' !! k -> prop c k = prop c' k.
Proof. unfold prop. intros ->. reflexivity. Qed.

(** The two blocks write nothing when run on what they have left. *)
Lemma blocks_settled w1 w wx w2 :
  (normalise_storybookAddress;; validate_viewportSize) w1 = (Normal tt, w) ->
  configs wx !! "storybookAddress" = configs w !! "storybookAddress" ->
  configs wx !! "viewportSize" = configs w !! "viewportSize" ->
  (normalise_storybookAddress;; validate_viewportSize) wx = (Normal tt, w2) ->
  forall k, configs w2 !! k = configs wx !! k.
Proof.
  intros H1 Ha Hv H2.
  destruct (blocks_configs w1 w H1) as (_ & _ & Haddr1 & Hview1 & Hkeep1).
  destruct (blocks_configs wx w2 H2) as (_ & Hother2 & Haddr2 & _ & Hkeep2).
  rewrite (prop_of_lookup _ _ _ Ha) in Haddr2.
  rewrite (prop_of_lookup _ _ _ Hv) in Hkeep2.
  intros k.
  destruct (String.eqb_spec k "storybookAddress") as [->|Hk1].
  - destruct (prop (configs w1) "storybookAddress") as [| |b|n| |s|l|o] eqn:Hs;
      try (destruct Haddr1 as [Hfalsy Hsame];
           rewrite (prop_of_lookup _ _ _ Hsame), Hs in Haddr2;
           exact (proj2 Haddr2)).
    destruct Haddr1 as [Hnew _]. rewrite Hnew in Haddr2.
    destruct Haddr2 as [_ Hsame]. apply Hsame.
    destruct (String.eqb s EmptyString) eqn:Hempty; cbn [negb andb].
    + rewrite Hempty. reflexivity.
    + destruct (endsWith s "/") eqn:Hends; cbn [negb].
      * rewrite Hempty, Hends. reflexivity.
      * rewrite endsWith_append, andb_false_r. reflexivity.
  - destruct (String.eqb_spec k "viewportSize") as [->|Hk2].
    + apply Hkeep2.
      destruct (truthy (prop (configs w1) "viewportSize")) eqn:Htruthy.
      * rewrite (proj1 Hview1). exact I.
      * rewrite (prop_of_lookup _ _ _ (Hkeep1 ltac:(
          destruct (prop (configs w1) "viewportSize");
            try exact Htruthy; discriminate Htruthy))).
        destruct (prop (configs w1) "viewportSize"); try exact Htruthy.
        discriminate Htruthy.
    + apply Hother2; assumption.
Qed.

(** X12: validating a configuration that the validation has left accepts
    it and changes nothing in it: the '/' is not appended a second time and
    the array of viewport sizes is not wrapped again. Both revisions. *)
Theorem validation_is_idempotent :
  forall (y1 : Part001.Yargs) (conf : gmap string jsval) (out out' : list entry) (w : world),
    (Part001.validating_configuration y1 (mkWorld conf out) = (Normal tt, w) ->
     exists w2, Part001.validating_configuration y1 (mkWorld (configs w) out') = (Normal tt, w2)
                /\ configs w2 = configs w)
    /\ (Part000.validating_configuration (mkWorld conf out) = (Normal tt, w) ->
        exists w2, Part000.validating_configuration (mkWorld (configs w) out') = (Normal tt, w2)
                   /\ configs w2 = configs w).
Proof.
  intros y1 conf out out' w. split; intros H.
  - assert (Hacc : accepts "maxConcurrency" Part001.SUPPORTED_STORYBOOK3_APPS conf = true).
    { apply (validating_001_accepts_from y1 (mkWorld conf out)). rewrite H. reflexivity. }
    destruct (validating_001_inv _ _ _ H) as (w1 & Hflags & Hblocks).
    destruct (apply_flags_lookup _ _ _ Hflags) as (Hother1 & Hgrid1 & Hbuild1 & _).
    destruct (blocks_configs w1 w Hblocks) as (_ & Hotherb & Haddr & Hview & Hkeep).
    cbn [configs] in *.
    assert (Hsame : forall k, k <> "useVisualGrid" -> k <> "skipStorybookBuild" ->
                              k <> "storybookAddress" -> k <> "viewportSize" ->
                              prop (configs w) k = prop conf k).
    { intros k ? ? ? ?. apply prop_of_lookup. rewrite Hotherb, Hother1 by assumption.
      reflexivity. }
    assert (Ha1 : prop (configs w1) "storybookAddress" = prop conf "storybookAddress")
      by (apply prop_of_lookup, Hother1; discriminate).
    assert (Hv1 : prop (configs w1) "viewportSize" = prop conf "viewportSize")
      by (apply prop_of_lookup, Hother1; discriminate).
    assert (Hacc' : accepts "maxConcurrency" Part001.SUPPORTED_STORYBOOK3_APPS (configs w)
                    = true).
    { unfold accepts in *. rewrite !Hsame by discriminate.
      apply andb_true_iff in Hacc as [Hacc Hc6]. apply andb_true_iff in Hacc as [Hacc Hc5].
      rewrite Hacc. cbn [andb]. apply andb_true_iff. split.
      - rewrite Ha1 in Haddr.
        destruct (prop conf "storybookAddress") eqn:Hs;
          try (destruct Haddr as [Hfalsy Hl];
               rewrite (prop_of_lookup _ _ _ Hl), Ha1, ?Hs, Hfalsy; reflexivity).
        rewrite (proj1 Haddr). apply orb_true_r.
      - rewrite Hv1 in Hview, Hkeep.
        destruct (truthy (prop conf "viewportSize")) eqn:Htruthy.
        + rewrite (proj1 Hview). exact (proj2 Hview).
        + rewrite (prop_of_lookup _ _ _ (Hkeep ltac:(
            destruct (prop conf "viewportSize"); try exact Htruthy; discriminate Htruthy))).
          rewrite Hv1, Htruthy. reflexivity. }
    apply (validating_001_accepts_from y1 (mkWorld (configs w) out')) in Hacc'.
    destruct (Part001.validating_configuration y1 (mkWorld (configs w) out'))
      as [[[]|e] w2] eqn:H2; [|discriminate Hacc'].
    exists w2. split; [reflexivity|].
    destruct (validating_001_inv _ _ _ H2) as (wx & Hflags2 & Hblocks2).
    destruct (apply_flags_lookup _ _ _ Hflags2) as (Hother2 & Hgrid2 & Hbuild2 & _).
    cbn [configs] in *.
    assert (Hx : forall k, configs wx !! k = configs w !! k).
    { intros k.
      destruct (String.eqb_spec k "useVisualGrid") as [->|Hg].
      - rewrite Hgrid2, Hotherb, Hgrid1 by discriminate.
        destruct (Part001.browser y1); reflexivity.
      - destruct (String.eqb_spec k "skipStorybookBuild") as [->|Hb].
        + rewrite Hbuild2, Hotherb, Hbuild1 by discriminate.
          destruct (Part001.build y1); reflexivity.
        + apply Hother2; assumption. }
    apply map_eq. intros k.
    rewrite (blocks_settled w1 w wx w2 Hblocks (Hx _) (Hx _) Hblocks2 k). apply Hx.
  - assert (Hacc : accepts "maxRunningBrowsers" ["react"; "vue"] conf = true).
    { apply (validating_000_accepts_from (mkWorld conf out)). rewrite H. reflexivity. }
    pose proof (validating_000_inv _ _ H) as Hblocks.
    destruct (blocks_configs _ w Hblocks) as (_ & Hotherb & Haddr & Hview & Hkeep).
    cbn [configs] in *.
    assert (Hsame : forall k, k <> "storybookAddress" -> k <> "viewportSize" ->
                              prop (configs w) k = prop conf k).
    { intros k ? ?. apply prop_of_lookup. rewrite Hotherb by assumption. reflexivity. }
    assert (Hacc' : accepts "maxRunningBrowsers" ["react"; "vue"] (configs w) = true).
    { unfold accepts in *. rewrite !Hsame by discriminate.
      apply andb_true_iff in Hacc as [Hacc Hc6]. apply andb_true_iff in Hacc as [Hacc Hc5].
      rewrite Hacc. cbn [andb]. apply andb_true_iff. split.
      - destruct (prop conf "storybookAddress") eqn:Hs;
          try (destruct Haddr as [Hfalsy Hl];
               rewrite (prop_of_lookup _ _ _ Hl); cbn [configs]; rewrite ?Hs, Hfalsy;
               reflexivity).
        rewrite (proj1 Haddr). apply orb_true_r.
      - destruct (truthy (prop conf "viewportSize")) eqn:Htruthy.
        + rewrite (proj1 Hview). exact (proj2 Hview).
        + rewrite (prop_of_lookup _ _ _ (Hkeep ltac:(
            destruct (prop conf "viewportSize"); try exact Htruthy; discriminate Htruthy))).
          rewrite Htruthy. reflexivity. }
    apply (validating_000_accepts_from (mkWorld (configs w) out')) in Hacc'.
    destruct (Part000.validating_configuration (mkWorld (configs w) out'))
      as [[[]|e] w2] eqn:H2; [|discriminate Hacc'].
    exists w2. split; [reflexivity|].
    pose proof (validating_000_inv _ _ H2) as Hblocks2.
    apply map_eq. intros k.
    apply (blocks_settled _ w (mkWorld (configs w) out') w2 Hblocks eq_refl eq_refl Hblocks2 k).
Qed.

End ValidationIdempotent.

(** * The script after the loading of the configuration *)

Section Appends.

Context {A B : Type}.

Lemma appends_intro (c : script A) :
  (forall conf pre, exists r conf' out,
      c (mkWorld conf []) = (r, mkWorld conf' out)
      /\ c (mkWorld conf pre) = (r, mkWorld conf' (pre ++ out))) ->
  appends c.
Proof.
  intros H conf pre. destruct (H conf pre) as (r & conf' & out & H0 & Hpre).
  rewrite Hpre, H0. reflexivity.
Qed.

Lemma appends_bind (c : script A) (k : A -> script B) :
  appends c -> (forall a, appends (k a)) -> appends (c ≫= k).
Proof.
  intros Hc Hk conf pre. unfold mbind, script_bind, bind.
  rewrite (Hc conf pre).
  destruct (c (mkWorld conf [])) as [[a|e] [conf1 out1]]; cbn [fst snd configs output].
  - rewrite (Hk a conf1 (pre ++ out1)%list), (Hk a conf1 out1).
    cbn [fst snd configs output]. rewrite app_assoc. reflexivity.
  - reflexivity.
Qed.

Lemma appends_ret (a : A) : appends (mret a : script A).
Proof. intros conf pre. cbn. rewrite app_nil_r. reflexivity. Qed.

Lemma appends_throw e : appends (throw e : script A).
Proof. intros conf pre. cbn. rewrite app_nil_r. reflexivity. Qed.

Lemma appends_lift (c : completion A) : appends (lift c).
Proof. intros conf pre. cbn. rewrite app_nil_r. reflexivity. Qed.

Lemma appends_if (b : bool) (c1 c2 : script A) :
  appends c1 -> appends c2 -> appends (if b then c1 else c2).
Proof. destruct b; auto. Qed.

End Appends.

Section AppendsUnit.

Lemma appends_cfg k : appends (cfg k).
Proof. intros conf pre. cbn. rewrite app_nil_r. reflexivity. Qed.

Lemma appends_the_configs : appends the_configs.
Proof. intros conf pre. cbn. rewrite app_nil_r. reflexivity. Qed.

Lemma appends_set_cfg k v : appends (set_cfg k v).
Proof. intros conf pre. cbn. rewrite app_nil_r. reflexivity. Qed.

Lemma appends_put_configs c : appends (put_configs c).
Proof. intros conf pre. cbn. rewrite app_nil_r. reflexivity. Qed.

Lemma appends_emit e : appends (emit e).
Proof. intros conf pre. reflexivity. Qed.

Lemma appends_when (b : bool) (c : script unit) : appends c -> appends (when b c).
Proof. intros Hc. destruct b; [exact Hc | apply (appends_ret tt)]. Qed.

Lemma appends_forEach {A : Type} (f : A -> script unit) (l : list A) :
  (forall x, appends (f x)) -> appends (forEach f l).
Proof.
  intros Hf. induction l as [|x l IH]; cbn [forEach].
  - apply (appends_ret tt).
  - apply appends_bind; [apply Hf | intros _; exact IH].
Qed.

End AppendsUnit.

Ltac appends_step :=
  first
    [ apply appends_bind; [|intros ?]
    | apply appends_when
    | apply appends_if
    | apply appends_cfg
    | apply appends_the_configs
    | apply appends_set_cfg
    | apply appends_put_configs
    | apply appends_emit
    | apply appends_throw
    | apply appends_ret
    | apply appends_lift
    | apply appends_forEach; intros ? ].

Ltac appends_match :=
  match goal with |- appends (match ?x with _ => _ end) => destruct x end.

Section ScriptAppends.

Lemma check_viewportSize_appends v : appends (check_viewportSize v).
Proof. unfold check_viewportSize. repeat appends_step. Qed.

Lemma validate_viewportSize_appends : appends validate_viewportSize.
Proof.
  unfold validate_viewportSize. repeat appends_step.
  unfold js_forEach. appends_match; repeat appends_step; apply check_viewportSize_appends.
Qed.

Lemma normalise_storybookAddress_appends : appends normalise_storybookAddress.
Proof.
  unfold normalise_storybookAddress. repeat appends_step.
  appends_match; repeat appends_step.
Qed.

Lemma checks_append (app_check : script unit) (limit : string) :
  appends app_check ->
  appends (require_apiKey;; require_defined limit;; app_check;; check_storybookVersion;;
           normalise_storybookAddress;; validate_viewportSize).
Proof.
  intros Happ.
  apply appends_bind; [unfold require_apiKey; repeat appends_step | intros _].
  apply appends_bind; [unfold require_defined; repeat appends_step | intros _].
  apply appends_bind; [exact Happ | intros _].
  apply appends_bind; [unfold check_storybookVersion; repeat appends_step | intros _].
  apply appends_bind; [apply normalise_storybookAddress_appends | intros _].
  apply validate_viewportSize_appends.
Qed.

Lemma validating_001_appends yargs : appends (Part001.validating_configuration yargs).
Proof.
  unfold Part001.validating_configuration.
  apply appends_bind; [unfold Part001.apply_flags; repeat appends_step | intros _].
  apply checks_append. unfold Part001.check_storybookApp. repeat appends_step.
Qed.

Lemma validating_000_appends : appends Part000.validating_configuration.
Proof.
  unfold Part000.validating_configuration.
  apply checks_append. unfold Part000.check_storybookApp. repeat appends_step.
Qed.

Lemma parsing_001_appends ext : appends (Part001.parsing_package_json ext).
Proof. unfold Part001.parsing_package_json. appends_match; repeat appends_step. Qed.

Lemma parsing_000_appends ext : appends (Part000.parsing_package_json ext).
Proof. unfold Part000.parsing_package_json. appends_match; repeat appends_step. Qed.

Lemma then_script_appends {A B : Type} (p : script (promise A))
      (f : A -> script (promise B)) :
  appends p -> (forall a, appends (f a)) -> appends (then_script p f).
Proof.
  intros Hp Hf. unfold then_script. apply appends_bind; [exact Hp | intros r].
  destruct r; [apply Hf | apply appends_ret].
Qed.

Lemma main_flow_001_appends ext : appends (Part001.main_execution_flow ext).
Proof.
  unfold Part001.main_execution_flow. apply appends_bind; [apply appends_cfg | intros v].
  destruct (truthy v);
    repeat (first [apply then_script_appends; [|intros ?] | appends_step]).
Qed.

Lemma main_flow_000_appends ext : appends (Part000.main_execution_flow ext).
Proof.
  unfold Part000.main_execution_flow. apply appends_bind; [apply appends_cfg | intros v].
  destruct (truthy v);
    repeat (first [apply then_script_appends; [|intros ?] | appends_step]).
Qed.

Lemma display_results_appends rs : forall exitCode, appends (Part001.display_results rs exitCode).
Proof.
  induction rs as [|r rs IH]; intros exitCode; cbn [Part001.display_results].
  - apply appends_ret.
  - apply appends_bind; [|intros ?; apply IH].
    unfold Part001.display_result. cbv zeta.
    destruct (getIsNew r); [|destruct (isPassed r)]; repeat appends_step.
Qed.

Lemma script_body_001_appends ext yargs : appends (Part001.script_body ext yargs).
Proof.
  unfold Part001.script_body, Part001.settle.
  apply appends_bind.
  - apply appends_bind; [apply validating_001_appends | intros _].
    apply appends_bind; [apply parsing_001_appends | intros _].
    apply main_flow_001_appends.
  - intros [rs|err].
    + unfold Part001.on_results. destruct rs as [|r rs].
      * repeat appends_step.
      * apply appends_bind; [apply appends_emit | intros _].
        apply appends_bind; [apply display_results_appends | intros exitCode].
        repeat appends_step.
    + unfold Part001.on_error. repeat appends_step.
Qed.

Lemma script_body_000_appends ext yargs : appends (Part000.script_body ext yargs).
Proof.
  unfold Part000.script_body, Part000.settle.
  apply appends_bind.
  - apply appends_bind; [apply validating_000_appends | intros _].
    apply appends_bind; [apply parsing_000_appends | intros _].
    apply main_flow_000_appends.
  - intros [rs|err].
    + unfold Part000.on_results. destruct rs as [|r rs].
      * repeat appends_step.
      * apply appends_bind; [apply appends_emit | intros _].
        apply appends_bind; [apply appends_emit | intros _].
        apply appends_bind; [|intros _; repeat appends_step].
        apply appends_forEach. intros x. unfold Part000.display_result. cbv zeta.
        destruct (getIsNew x); [|destruct (isPassed x)]; apply appends_emit.
    + unfold Part000.on_error. repeat appends_step.
Qed.

End ScriptAppends.

Section Loading.

Implicit Types (w : world) (ext : Collaborators) (env : Environment).

Lemma run_after (load : script unit) (body : script (option Z)) w :
  appends body ->
  load (mkWorld ∅ []) = (Normal tt, w) ->
  run_script (load;; body) ∅ = with_prefix (output w) (run_script body (configs w)).
Proof.
  intros Happ Hload. unfold run_script, with_prefix.
  erewrite bind_normal by exact Hload.
  destruct w as [conf pre]. rewrite (Happ conf pre). cbn [configs output].
  destruct (body (mkWorld conf [])) as [[code|e] [conf' out]]; reflexivity.
Qed.


End Loading.

Section LoadedConfiguration.

Implicit Types (w : world) (ext : Collaborators) (env : Environment).

(** X14: when there is no file at the resolved path of the configuration
    and the path was given explicitly (it is not 'applitools.config.js'),
    the script throws before anything else: the process ends with the error
    that names the path, exit code 1, an empty configuration, and on the
    console only the version line of [part_001]. With the default path the
    script goes on with the default configuration, to which only the
    properties forced by the verbose and debug flags are added. *)
Theorem missing_configuration_file :
  forall (ext : Collaborators) (env : Environment)
         (a1 : Load001.Argv) (a0 : Load000.Argv),
    (configFile env (resolve env (Load001.conf a1)) = None ->
     (Load001.conf a1 <> DEFAULT_CONFIG_PATH ->
      Load001.main ext env a1
      = mkProcess
          (uncaught_exception
             (Error ("Configuration file cannot be found in " ++ DQ
                     ++ resolve env (Load001.conf a1) ++ DQ ++ ".")))
          [console_log [Text ("Used eyes.storybook of version " ++ VERSION env ++ ".")]]
          ∅)
     /\ (Load001.conf a1 = DEFAULT_CONFIG_PATH ->
         Load001.main ext env a1
         = with_prefix
             [console_log [Text ("Used eyes.storybook of version " ++ VERSION env ++ ".")];
              console_log [Text "No configuration file found. Use default."]]
             (Part001.cli ext (Load001.yargs a1)
                ((if Part001.debug (Load001.yargs a1)
                  then <["showEyesSdkLogs" := JStr "verbose"]> else id)
                   ((if Load001.verbose a1 || Part001.debug (Load001.yargs a1)
                     then fun c => <["showStorybookOutput" := JBool true]>
                                     (<["showLogs" := JStr "verbose"]> c)
                     else id)
                      (defaultConfig env))))))
    /\ (configFile env (resolve env (Load000.conf a0)) = None ->
        (Load000.conf a0 <> DEFAULT_CONFIG_PATH ->
         Load000.main ext env a0
         = mkProcess
             (uncaught_exception
                (Error ("Config file cannot be found in " ++ DQ
                        ++ resolve env (Load000.conf a0) ++ DQ ++ ".")))
             [] ∅)
        /\ (Load000.conf a0 = DEFAULT_CONFIG_PATH ->
            Load000.main ext env a0
            = Part000.cli ext (Load000.yargs a0)
                ((if Part000.debug (Load000.yargs a0)
                  then fun c => <["showStorybookOutput" := JBool true]>
                                  (<["showEyesSdkLogs" := JStr "verbose"]>
                                     (<["showLogs" := JStr "verbose"]> c))
                  else id)
                   (defaultConfig env)))).
Proof.
  intros ext env a1 a0. split; intros Hnone; split; intros Hconf.
  - unfold Load001.main, run_script.
    rewrite (bind_throw _ _ _
               (Error ("Configuration file cannot be found in " ++ DQ
                       ++ resolve env (Load001.conf a1) ++ DQ ++ "."))
               (mkWorld ∅ [console_log [Text ("Used eyes.storybook of version "
                                               ++ VERSION env ++ ".")]]));
      [reflexivity|].
    unfold Load001.loading_configuration. script_unfold. cbn.
    rewrite Hnone. apply String.eqb_neq in Hconf. rewrite Hconf. reflexivity.
  - unfold Load001.main.
    match goal with
    | |- _ = with_prefix ?pre (Part001.cli _ _ ?c) =>
        rewrite (run_after _ _ (mkWorld c pre));
          [reflexivity | apply script_body_001_appends |]
    end.
    unfold Load001.loading_configuration. script_unfold. cbn.
    rewrite Hnone, Hconf, String.eqb_refl. cbn.
    destruct (Load001.verbose a1), (Part001.debug (Load001.yargs a1)); reflexivity.
  - unfold Load000.main, run_script.
    rewrite (bind_throw _ _ _
               (Error ("Config file cannot be found in " ++ DQ
                       ++ resolve env (Load000.conf a0) ++ DQ ++ "."))
               (mkWorld ∅ [])); [reflexivity|].
    unfold Load000.loading_configuration. script_unfold. cbn.
    rewrite Hnone. apply String.eqb_neq in Hconf. rewrite Hconf. reflexivity.
  - unfold Load000.main.
    match goal with
    | |- _ = Part000.cli _ _ ?c =>
        rewrite (run_after _ _ (mkWorld c []));
          [| apply script_body_000_appends |]
    end.
    + unfold with_prefix, Part000.cli. cbn [output configs app].
      destruct (run_script _ _); reflexivity.
    + unfold Load000.loading_configuration. script_unfold. cbn.
      rewrite Hnone, Hconf, String.eqb_refl. cbn.
      destruct (Part000.debug (Load000.yargs a0)); reflexivity.
Qed.

End LoadedConfiguration.

Section ConfigurationFile.

Implicit Types (w : world) (env : Environment).

Lemma prop_Object_assign (target source : gmap string jsval) k :
  prop (Object_assign target source) k
  = match source !! k with
    | Some v => v
    | None => prop target k
    end.
Proof.
  unfold prop, Object_assign. rewrite lookup_union.
  destruct (source !! k), (target !! k); reflexivity.
Qed.

Ltac forced_or_merged k :=
  repeat match goal with
         | |- context [String.eqb k ?name] =>
             destruct (String.eqb_spec k name) as [->|?]
         end;
  cbn [andb orb]; unfold prop; cbn [configs];
  repeat (rewrite lookup_insert_eq || rewrite lookup_insert_ne by congruence);
  try reflexivity;
  rewrite ?andb_false_r; exact (prop_Object_assign _ _ _).

(** X15: with a configuration file at the resolved path the loading
    completes, and every property of the configuration it leaves is the one
    of the file where the file defines it, else the default; except that
    the verbose or debug flag of [part_001] forces showLogs to 'verbose' and
    showStorybookOutput to true, and its debug flag also showEyesSdkLogs to
    'verbose', whatever the file says; in [part_000] the debug flag forces
    all three. *)
Theorem configuration_file_overrides_defaults :
  forall (env : Environment) (a1 : Load001.Argv) (a0 : Load000.Argv)
         (user : gmap string jsval),
    (configFile env (resolve env (Load001.conf a1)) = Some user ->
     exists w,
       Load001.loading_configuration env a1 (mkWorld ∅ []) = (Normal tt, w)
       /\ output w
          = [console_log [Text ("Used eyes.storybook of version " ++ VERSION env ++ ".")];
             console_log [Text ("Configuration was loaded from " ++ DQ
                                ++ resolve env (Load001.conf a1) ++ DQ ++ ".")]]
       /\ forall k,
            prop (configs w) k
            = if String.eqb k "showLogs"
                 && (Load001.verbose a1 || Part001.debug (Load001.yargs a1))
              then JStr "verbose"
              else if String.eqb k "showStorybookOutput"
                      && (Load001.verbose a1 || Part001.debug (Load001.yargs a1))
              then JBool true
              else if String.eqb k "showEyesSdkLogs" && Part001.debug (Load001.yargs a1)
              then JStr "verbose"
              else match user !! k with
                   | Some v => v
                   | None => prop (defaultConfig env) k
                   end)
    /\ (configFile env (resolve env (Load000.conf a0)) = Some user ->
        exists w,
          Load000.loading_configuration env a0 (mkWorld ∅ []) = (Normal tt, w)
          /\ output w
             = [console_log [Text ("Loading configuration from " ++ DQ
                                   ++ resolve env (Load000.conf a0) ++ DQ ++ "...")]]
          /\ forall k,
               prop (configs w) k
               = if (String.eqb k "showLogs" || String.eqb k "showEyesSdkLogs")
                    && Part000.debug (Load000.yargs a0)
                 then JStr "verbose"
                 else if String.eqb k "showStorybookOutput"
                         && Part000.debug (Load000.yargs a0)
                 then JBool true
                 else match user !! k with
                      | Some v => v
                      | None => prop (defaultConfig env) k
                      end).
Proof.
  intros env a1 a0 user. split; intros Hsome.
  - unfold Load001.loading_configuration. script_unfold. cbn. rewrite Hsome. cbn.
    destruct (Load001.verbose a1), (Part001.debug (Load001.yargs a1)); cbn;
      eexists; (split; [reflexivity|]); (split; [reflexivity|]);
      intros k; forced_or_merged k.
  - unfold Load000.loading_configuration. script_unfold. cbn. rewrite Hsome. cbn.
    destruct (Part000.debug (Load000.yargs a0)); cbn;
      eexists; (split; [reflexivity|]); (split; [reflexivity|]);
      intros k; forced_or_merged k.
Qed.

End ConfigurationFile.

(** * Further properties of the package.json section and the main flow *)

Section PackageJson.

Implicit Types (w : world) (ext : Collaborators) (conf : gmap string jsval).

Lemma fst_normal {A : Type} (c : completion A * world) a :
  fst c = Normal a -> exists w, c = (Normal a, w).
Proof. destruct c as [x w]. cbn. intros ->. eauto. Qed.

(** X16: with a configuration the validation accepts and no package.json
    at its path, the run ends with the error that names the path: exit
    code 1, and no runner is called. Both revisions. *)
Theorem missing_package_json :
  forall (ext : Collaborators) (y1 : Part001.Yargs) (y0 : Part000.Yargs)
         (conf : gmap string jsval),
    packageJson ext = None ->
    (accepts "maxConcurrency" Part001.SUPPORTED_STORYBOOK3_APPS conf = true ->
     ended (Part001.cli ext y1 conf)
     = uncaught_exception (Error ("package.json not found on path: " ++ packageJsonPath ext))
     /\ exit_code (ended (Part001.cli ext y1 conf)) = 1
     /\ dispatched (console (Part001.cli ext y1 conf)) = false)
    /\ (accepts "maxRunningBrowsers" ["react"; "vue"] conf = true ->
        ended (Part000.cli ext y0 conf)
        = uncaught_exception (Error ("package.json not found on path: " ++ packageJsonPath ext))
        /\ exit_code (ended (Part000.cli ext y0 conf)) = 1
        /\ dispatched (console (Part000.cli ext y0 conf)) = false).
Proof.
  intros ext y1 y0 conf Hnone. split; intros Hacc.
  - apply (validating_001_accepts_from y1 (mkWorld conf [])) in Hacc.
    destruct (fst_normal _ _ Hacc) as [w Hw].
    pose proof (validating_001_only_logged y1 (mkWorld conf []) eq_refl) as Hlog.
    rewrite Hw in Hlog. cbn [snd] in Hlog.
    assert (Hcli : Part001.cli ext y1 conf
                   = mkProcess (uncaught_exception
                                  (Error ("package.json not found on path: "
                                          ++ packageJsonPath ext)))
                       (output w) (configs w)).
    { unfold Part001.cli, run_script, Part001.script_body, Part001.settle.
      erewrite bind_throw; [reflexivity|].
      erewrite bind_normal by exact Hw.
      erewrite bind_throw; [reflexivity|].
      unfold Part001.parsing_package_json. rewrite Hnone. reflexivity. }
    rewrite Hcli. cbn. repeat split. apply only_logged_not_dispatched, Hlog.
  - apply (validating_000_accepts_from (mkWorld conf [])) in Hacc.
    destruct (fst_normal _ _ Hacc) as [w Hw].
    pose proof (validating_000_only_logged (mkWorld conf []) eq_refl) as Hlog.
    rewrite Hw in Hlog. cbn [snd] in Hlog.
    assert (Hcli : Part000.cli ext y0 conf
                   = mkProcess (uncaught_exception
                                  (Error ("package.json not found on path: "
                                          ++ packageJsonPath ext)))
                       (output w) (configs w)).
    { unfold Part000.cli, run_script, Part000.script_body, Part000.settle.
      erewrite bind_throw; [reflexivity|].
      erewrite bind_normal by exact Hw.
      erewrite bind_throw; [reflexivity|].
      unfold Part000.parsing_package_json. rewrite Hnone. reflexivity. }
    rewrite Hcli. cbn. repeat split. apply only_logged_not_dispatched, Hlog.
Qed.

Lemma missing_package_json_witness :
  exit_code (ended (Part001.cli collaborators_without_package_json no_flags_001
                      (configs_with_concurrency (JNum 1)))) = 1.
Proof.
  exact (proj1 (proj2 (proj1 (missing_package_json collaborators_without_package_json
                                no_flags_001 no_flags_000
                                (configs_with_concurrency (JNum 1)) eq_refl) eq_refl))).
Defined.

(** X17: the section "Parsing package.json" fills appName, storybookApp
    and storybookVersion from the package name and the retrieved app and
    version only where the configuration has a falsy value; a truthy
    configured value is kept, every other property is left alone and
    nothing is printed. When the retrieval throws, the section throws that
    error with the configuration untouched, also when storybookApp and
    storybookVersion are both configured. Both revisions. *)
Theorem package_json_fills_gaps :
  forall (ext : Collaborators) (pj : gmap string jsval) (w : world),
    packageJson ext = Some pj ->
    (forall app version,
        retrieveStorybookVersion ext pj (Some Part001.SUPPORTED_STORYBOOK3_APPS)
        = Normal (app, version) ->
        exists w',
          Part001.parsing_package_json ext w = (Normal tt, w')
          /\ output w' = output w
          /\ forall k,
               prop (configs w') k
               = if truthy (prop (configs w) k) then prop (configs w) k
                 else if String.eqb k "appName" then prop pj "name"
                 else if String.eqb k "storybookApp" then app
                 else if String.eqb k "storybookVersion" then version
                 else prop (configs w) k)
    /\ (forall e,
        retrieveStorybookVersion ext pj (Some Part001.SUPPORTED_STORYBOOK3_APPS) = Throw e ->
        Part001.parsing_package_json ext w = (Throw e, w))
    /\ (forall app version,
        retrieveStorybookVersion ext pj None = Normal (app, version) ->
        exists w',
          Part000.parsing_package_json ext w = (Normal tt, w')
          /\ output w' = output w
          /\ forall k,
               prop (configs w') k
               = if truthy (prop (configs w) k) then prop (configs w) k
                 else if String.eqb k "appName" then prop pj "name"
                 else if String.eqb k "storybookApp" then app
                 else if String.eqb k "storybookVersion" then version
                 else prop (configs w) k)
    /\ (forall e,
        retrieveStorybookVersion ext pj None = Throw e ->
        Part000.parsing_package_json ext w = (Throw e, w)).
Proof.
  intros ext pj w Hpj.
  assert (Hfill : forall app version,
             exists w',
               (appName ← cfg "appName";
                when (negb (truthy appName)) (set_cfg "appName" (prop pj "name"));;
                storybookApp ← cfg "storybookApp";
                when (negb (truthy storybookApp)) (set_cfg "storybookApp" app);;
                storybookVersion ← cfg "storybookVersion";
                when (negb (truthy storybookVersion))
                  (set_cfg "storybookVersion" version)) w = (Normal tt, w')
               /\ output w' = output w
               /\ forall k,
                    prop (configs w') k
                    = if truthy (prop (configs w) k) then prop (configs w) k
                      else if String.eqb k "appName" then prop pj "name"
                      else if String.eqb k "storybookApp" then app
                      else if String.eqb k "storybookVersion" then version
                      else prop (configs w) k).
  { intros app version. script_unfold. cbn.
    unfold prop. cbn.
    destruct (truthy (default JUndefined (configs w !! "appName"))) eqn:Hn; cbn;
      rewrite ?lookup_insert_ne by discriminate;
      destruct (truthy (default JUndefined (configs w !! "storybookApp"))) eqn:Ha; cbn;
      rewrite ?lookup_insert_ne by discriminate;
      destruct (truthy (default JUndefined (configs w !! "storybookVersion"))) eqn:Hv; cbn;
      eexists; (split; [reflexivity|]); (split; [reflexivity|]);
      intros k; cbn;
      (destruct (String.eqb_spec k "appName") as [->|?];
       [|destruct (String.eqb_spec k "storybookApp") as [->|?];
         [|destruct (String.eqb_spec k "storybookVersion") as [->|?]]]);
      repeat (rewrite lookup_insert_eq || rewrite lookup_insert_ne by congruence);
      cbn; rewrite ?Hn, ?Ha, ?Hv; try reflexivity;
      match goal with |- context [if ?b then _ else _] => destruct b end; reflexivity. }
  split; [|split; [|split]].
  - intros app version Hret. unfold Part001.parsing_package_json. rewrite Hpj.
    erewrite bind_normal by (unfold lift; rewrite Hret; reflexivity).
    apply Hfill.
  - intros e Hret. unfold Part001.parsing_package_json. rewrite Hpj.
    erewrite bind_throw; [reflexivity|]. unfold lift. rewrite Hret. reflexivity.
  - intros app version Hret. unfold Part000.parsing_package_json. rewrite Hpj.
    erewrite bind_normal by (unfold lift; rewrite Hret; reflexivity).
    apply Hfill.
  - intros e Hret. unfold Part000.parsing_package_json. rewrite Hpj.
    erewrite bind_throw; [reflexivity|]. unfold lift. rewrite Hret. reflexivity.
Qed.

End PackageJson.

Section Backends.

Implicit Types (w : world) (ext : Collaborators) (conf : gmap string jsval).

Lemma bind_assoc {A B C : Type} (c : script A) (k : A -> script B) (h : B -> script C) w :
  ((c ≫= k) ≫= h) w = (c ≫= (fun a => k a ≫= h)) w.
Proof.
  unfold mbind, script_bind, bind. destruct (c w) as [[a|e] w1]; reflexivity.
Qed.

Lemma bind_agree {A B : Type} (Q : world -> Prop) (c : script A) (k k' : A -> script B) w :
  Q w -> keeps Q c -> (forall a w1, Q w1 -> k a w1 = k' a w1) ->
  (c ≫= k) w = (c ≫= k') w.
Proof.
  intros HQ Hkeeps Hk. specialize (Hkeeps w HQ).
  unfold mbind, script_bind, bind.
  destruct (c w) as [[a|e] w1]; [apply Hk, Hkeeps | reflexivity].
Qed.

Lemma parsing_001_holds ext k v :
  k <> "appName" -> k <> "storybookApp" -> k <> "storybookVersion" ->
  keeps (holds k v) (Part001.parsing_package_json ext).
Proof.
  intros H1 H2 H3. unfold Part001.parsing_package_json.
  destruct (packageJson ext); [|apply keeps_throw].
  repeat first [ apply keeps_bind; [|intros ?] | apply keeps_when | apply keeps_cfg
               | apply keeps_lift | apply set_cfg_holds; congruence ].
Qed.

Lemma parsing_000_holds ext k v :
  k <> "appName" -> k <> "storybookApp" -> k <> "storybookVersion" ->
  keeps (holds k v) (Part000.parsing_package_json ext).
Proof.
  intros H1 H2 H3. unfold Part000.parsing_package_json.
  destruct (packageJson ext); [|apply keeps_throw].
  repeat first [ apply keeps_bind; [|intros ?] | apply keeps_when | apply keeps_cfg
               | apply keeps_lift | apply set_cfg_holds; congruence ].
Qed.

Lemma checks_hold (app_check : script unit) (limit k : string) v :
  keeps (holds k v) app_check ->
  k <> "storybookAddress" -> k <> "viewportSize" ->
  keeps (holds k v)
    (require_apiKey;; require_defined limit;; app_check;; check_storybookVersion;;
     normalise_storybookAddress;; validate_viewportSize).
Proof.
  intros Happ Hk1 Hk2.
  apply keeps_bind; [apply require_apiKey_keeps | intros _].
  apply keeps_bind; [apply require_defined_keeps | intros _].
  apply keeps_bind; [exact Happ | intros _].
  apply keeps_bind; [apply check_storybookVersion_keeps | intros _].
  apply keeps_bind; [|intros _].
  - unfold normalise_storybookAddress.
    repeat first [ apply keeps_bind; [|intros ?] | apply keeps_when | apply keeps_cfg ].
    match goal with |- keeps _ (match ?x with _ => _ end) => destruct x end;
      repeat first [ apply keeps_when | apply keeps_throw | apply set_cfg_holds; congruence ].
  - unfold validate_viewportSize.
    repeat first [ apply keeps_bind; [|intros ?] | apply keeps_when | apply keeps_cfg
                 | apply set_cfg_holds; congruence ].
    unfold js_forEach.
    match goal with |- keeps _ (match ?x with _ => _ end) => destruct x end;
      try apply keeps_throw.
    apply keeps_forEach. intros x. unfold check_viewportSize.
    repeat first [ apply keeps_bind; [|intros ?] | apply keeps_when | apply keeps_if
                 | apply keeps_lift | apply keeps_ret | apply keeps_throw ].
Qed.

(** The flow of [part_001] with a falsy and with a truthy
    [configs.useVisualGrid]. *)
Lemma flow_001_local ext w build stories runner :
  truthy (prop (configs w) "useVisualGrid") = false ->
  Part001.main_execution_flow (with_rendering ext build stories runner) w
  = Part001.main_execution_flow ext w.
Proof.
  intros H. unfold Part001.main_execution_flow.
  script_unfold. rewrite H. reflexivity.
Qed.

Lemma flow_001_remote ext w server stories runner :
  truthy (prop (configs w) "useVisualGrid") = true ->
  Part001.main_execution_flow (with_webdriver ext server stories runner) w
  = Part001.main_execution_flow ext w.
Proof.
  intros H. unfold Part001.main_execution_flow.
  script_unfold. rewrite H. reflexivity.
Qed.

Lemma flow_000_local ext w build stories runner :
  truthy (prop (configs w) "useRenderer") = false ->
  Part000.main_execution_flow (with_rendering ext build stories runner) w
  = Part000.main_execution_flow ext w.
Proof.
  intros H. unfold Part000.main_execution_flow.
  script_unfold. rewrite H. reflexivity.
Qed.

Lemma flow_000_remote ext w server stories runner :
  truthy (prop (configs w) "useRenderer") = true ->
  Part000.main_execution_flow (with_webdriver ext server stories runner) w
  = Part000.main_execution_flow ext w.
Proof.
  intros H. unfold Part000.main_execution_flow.
  script_unfold. rewrite H. reflexivity.
Qed.

End Backends.

Section SelectedBackend.

Implicit Types (w : world) (ext : Collaborators) (conf : gmap string jsval).

(** Two sets of collaborators with the same package.json whose flows do
    the same wherever [configs.k] holds [v] settle alike. *)
Lemma settle_001_agree ext ext' yargs conf v :
  Part001.parsing_package_json ext' = Part001.parsing_package_json ext ->
  (if Part001.browser yargs then JBool false else prop conf "useVisualGrid") = v ->
  (forall w, holds "useVisualGrid" v w ->
             Part001.main_execution_flow ext' w = Part001.main_execution_flow ext w) ->
  Part001.settle ext' yargs (mkWorld conf []) = Part001.settle ext yargs (mkWorld conf []).
Proof.
  intros Hparse Hv Hflow. unfold Part001.settle, Part001.validating_configuration.
  rewrite !bind_assoc.
  destruct (apply_flags_spec yargs (mkWorld conf [])) as (w1 & Hflags & _).
  destruct (apply_flags_lookup _ _ _ Hflags) as (_ & Hgrid & _).
  erewrite bind_normal by exact Hflags.
  erewrite (bind_normal (Part001.apply_flags yargs) _ (mkWorld conf [])) by exact Hflags.
  apply (bind_agree (holds "useVisualGrid" v)).
  - unfold holds, prop. rewrite Hgrid. cbn [configs]. rewrite <- Hv.
    destruct (Part001.browser yargs); reflexivity.
  - apply checks_hold; [apply check_storybookApp_001_keeps | discriminate | discriminate].
  - intros _ w2 Hw2. rewrite Hparse.
    apply (bind_agree (holds "useVisualGrid" v)); [exact Hw2 | |].
    + apply parsing_001_holds; discriminate.
    + intros _ w3 Hw3. apply Hflow, Hw3.
Qed.

Lemma settle_000_agree ext ext' conf :
  Part000.parsing_package_json ext' = Part000.parsing_package_json ext ->
  (forall w, holds "useRenderer" (prop conf "useRenderer") w ->
             Part000.main_execution_flow ext' w = Part000.main_execution_flow ext w) ->
  Part000.settle ext' (mkWorld conf []) = Part000.settle ext (mkWorld conf []).
Proof.
  intros Hparse Hflow. unfold Part000.settle, Part000.validating_configuration.
  apply (bind_agree (holds "useRenderer" (prop conf "useRenderer"))).
  - reflexivity.
  - apply checks_hold; [apply check_storybookApp_000_keeps | discriminate | discriminate].
  - intros _ w2 Hw2. rewrite Hparse.
    apply (bind_agree (holds "useRenderer" (prop conf "useRenderer"))); [exact Hw2 | |].
    + apply parsing_000_holds; discriminate.
    + intros _ w3 Hw3. apply Hflow, Hw3.
Qed.

Lemma cli_001_of_settle ext ext' yargs conf :
  Part001.settle ext' yargs (mkWorld conf []) = Part001.settle ext yargs (mkWorld conf []) ->
  Part001.cli ext' yargs conf = Part001.cli ext yargs conf.
Proof.
  intros H. unfold Part001.cli, run_script, Part001.script_body.
  unfold mbind, script_bind, bind. rewrite H. reflexivity.
Qed.

Lemma cli_000_of_settle ext ext' yargs conf :
  Part000.settle ext' (mkWorld conf []) = Part000.settle ext (mkWorld conf []) ->
  Part000.cli ext' yargs conf = Part000.cli ext yargs conf.
Proof.
  intros H. unfold Part000.cli, run_script, Part000.script_body.
  unfold mbind, script_bind, bind. rewrite H. reflexivity.
Qed.

(** X18: a run uses one backend only. With the --browser flag, or with a
    falsy [configs.useVisualGrid], a run of [part_001] is the same whatever
    buildStorybook, getStoriesFromStatic and the rendering runner are; with
    a truthy [configs.useVisualGrid] and no --browser flag it is the same
    whatever startServer, getStoriesFromWeb and the WebDriver runner are.
    [part_000] chooses by [configs.useRenderer] alone. *)
Theorem only_the_selected_backend_is_used :
  forall (ext : Collaborators) (y1 : Part001.Yargs) (y0 : Part000.Yargs)
         (conf : gmap string jsval)
         (build : gmap string jsval -> promise unit)
         (server : gmap string jsval -> promise jsval)
         (stories : gmap string jsval -> promise (list jsval))
         (runner : gmap string jsval -> list jsval -> promise (list TestResults)),
    (Part001.browser y1 = true \/ truthy (prop conf "useVisualGrid") = false ->
     Part001.cli (with_rendering ext build stories runner) y1 conf = Part001.cli ext y1 conf)
    /\ (Part001.browser y1 = false /\ truthy (prop conf "useVisualGrid") = true ->
        Part001.cli (with_webdriver ext server stories runner) y1 conf
        = Part001.cli ext y1 conf)
    /\ (truthy (prop conf "useRenderer") = false ->
        Part000.cli (with_rendering ext build stories runner) y0 conf
        = Part000.cli ext y0 conf)
    /\ (truthy (prop conf "useRenderer") = true ->
        Part000.cli (with_webdriver ext server stories runner) y0 conf
        = Part000.cli ext y0 conf).
Proof.
  intros ext y1 y0 conf build server stories runner. repeat split.
  - intros Hlocal. apply cli_001_of_settle.
    apply (settle_001_agree ext (with_rendering ext build stories runner) y1 conf _
             eq_refl eq_refl).
    intros w Hw. apply flow_001_local. rewrite Hw.
    destruct Hlocal as [-> | Hfalsy]; [reflexivity|].
    destruct (Part001.browser y1); [reflexivity | exact Hfalsy].
  - intros [Hflag Htruthy]. apply cli_001_of_settle.
    apply (settle_001_agree ext (with_webdriver ext server stories runner) y1 conf _
             eq_refl eq_refl).
    intros w Hw. apply flow_001_remote. rewrite Hw, Hflag. exact Htruthy.
  - intros Hfalsy. apply cli_000_of_settle.
    apply (settle_000_agree ext (with_rendering ext build stories runner) conf eq_refl).
    intros w Hw. apply flow_000_local. rewrite Hw. exact Hfalsy.
  - intros Htruthy. apply cli_000_of_settle.
    apply (settle_000_agree ext (with_webdriver ext server stories runner) conf eq_refl).
    intros w Hw. apply flow_000_remote. rewrite Hw. exact Htruthy.
Qed.

Lemma only_the_selected_backend_is_used_witness :
  Part001.cli (with_rendering (collaborators_with (Resolved [result_passed]))
                 (fun _ => Rejected (Error "no build"))
                 (fun _ => Rejected (Error "no stories"))
                 (fun _ _ => Rejected (Error "no grid")))
    (Part001.mkYargs true false false)
    (<["useVisualGrid" := JBool true]> (configs_with_concurrency (JNum 1)))
  = Part001.cli (collaborators_with (Resolved [result_passed]))
      (Part001.mkYargs true false false)
      (<["useVisualGrid" := JBool true]> (configs_with_concurrency (JNum 1))).
Proof.
  exact (proj1 (only_the_selected_backend_is_used
                  (collaborators_with (Resolved [result_passed]))
                  (Part001.mkYargs true false false) no_flags_000
                  (<["useVisualGrid" := JBool true]> (configs_with_concurrency (JNum 1)))
                  (fun _ => Rejected (Error "no build"))
                  (fun _ => Resolved JUndefined)
                  (fun _ => Rejected (Error "no stories"))
                  (fun _ _ => Rejected (Error "no grid")))
               (or_introl eq_refl)).
Defined.

End SelectedBackend.

Section Dispatch.

Implicit Types (w : world) (ext : Collaborators) (conf : gmap string jsval).

Lemma dispatches_app (out out' : list entry) :
  dispatches (out ++ out') = (dispatches out + dispatches out')%nat.
Proof. unfold dispatches. rewrite List.filter_app, length_app. reflexivity. Qed.

Lemma dispatched_dispatches (out : list entry) :
  dispatched out = false <-> dispatches out = 0%nat.
Proof.
  unfold dispatched, dispatches. induction out as [|e out IH]; cbn; [tauto|].
  destruct (is_testStories e); cbn; [split; discriminate | exact IH].
Qed.

Lemma emit_keeps_dispatches (n : nat) (e : entry) :
  is_testStories e = false -> keeps (fun w => dispatches (output w) = n) (emit e).
Proof.
  intros He w Hn. change (dispatches (output w ++ [e]) = n).
  rewrite dispatches_app, Hn. unfold dispatches. cbn.
  rewrite He. cbn. lia.
Qed.

Ltac quiet_step :=
  first
    [ apply keeps_bind; [|intros ?]
    | apply keeps_when
    | apply keeps_if
    | apply keeps_ret
    | apply emit_keeps_dispatches; reflexivity ].

Lemma on_results_001_dispatches rs (n : nat) :
  keeps (fun w => dispatches (output w) = n) (Part001.on_results rs).
Proof.
  assert (Hloop : forall l exitCode,
             keeps (fun w => dispatches (output w) = n) (Part001.display_results l exitCode)).
  { induction l as [|r l IH]; intros exitCode; cbn [Part001.display_results].
    - apply keeps_ret.
    - apply keeps_bind; [|intros ?; apply IH].
      unfold Part001.display_result. cbv zeta.
      destruct (getIsNew r); [|destruct (isPassed r)]; repeat quiet_step. }
  unfold Part001.on_results. destruct rs as [|r rs].
  - repeat quiet_step.
  - apply keeps_bind; [apply emit_keeps_dispatches; reflexivity | intros _].
    apply keeps_bind; [apply Hloop | intros exitCode]. repeat quiet_step.
Qed.

Lemma on_results_000_dispatches rs (n : nat) :
  keeps (fun w => dispatches (output w) = n) (Part000.on_results rs).
Proof.
  unfold Part000.on_results. destruct rs as [|r rs].
  - repeat quiet_step.
  - apply keeps_bind; [apply emit_keeps_dispatches; reflexivity | intros _].
    apply keeps_bind; [apply emit_keeps_dispatches; reflexivity | intros _].
    apply keeps_bind; [|intros _; repeat quiet_step].
    apply keeps_forEach. intros x. unfold Part000.display_result. cbv zeta.
    destruct (getIsNew x); [|destruct (isPassed x)];
      apply emit_keeps_dispatches; reflexivity.
Qed.

Lemma on_error_001_dispatches yargs err (n : nat) :
  keeps (fun w => dispatches (output w) = n) (Part001.on_error yargs err).
Proof. unfold Part001.on_error. repeat quiet_step. Qed.

Lemma on_error_000_dispatches yargs err (n : nat) :
  keeps (fun w => dispatches (output w) = n) (Part000.on_error yargs err).
Proof. unfold Part000.on_error. repeat quiet_step. Qed.

(** The flow never throws; it hands the stories over at most once, and a
    flow that has not done so ends in a rejection. *)
Lemma flow_001_outcome ext w :
  exists r w',
    Part001.main_execution_flow ext w = (Normal r, w')
    /\ ((output w' = output w /\ exists e, r = Rejected e)
        \/ exists stories, output w' = (output w ++ [testStories stories])%list).
Proof.
  unfold Part001.main_execution_flow. script_unfold. script_unfold. cbn.
  destruct (truthy (prop (configs w) "useVisualGrid")); cbn.
  - destruct (buildStorybook ext (configs w)); cbn; [|eauto 8].
    destruct (getStoriesFromStatic ext (configs w)); cbn; eauto 8.
  - destruct (startServer ext (configs w)); cbn; [|eauto 8].
    destruct (getStoriesFromWeb ext _); cbn; eauto 8.
Qed.

Lemma flow_000_outcome ext w :
  exists r w',
    Part000.main_execution_flow ext w = (Normal r, w')
    /\ ((output w' = output w /\ exists e, r = Rejected e)
        \/ exists stories, output w' = (output w ++ [testStories stories])%list).
Proof.
  unfold Part000.main_execution_flow. script_unfold. script_unfold. cbn.
  destruct (truthy (prop (configs w) "useRenderer")); cbn.
  - destruct (buildStorybook ext (configs w)); cbn; [|eauto 8].
    destruct (getStoriesFromStatic ext (configs w)); cbn; eauto 8.
  - destruct (startServer ext (configs w)); cbn; [|eauto 8].
    destruct (getStoriesFromWeb ext _); cbn; eauto 8.
Qed.

Lemma parsing_001_only_logged ext : keeps only_logged (Part001.parsing_package_json ext).
Proof.
  unfold Part001.parsing_package_json. destruct (packageJson ext); [|apply keeps_throw].
  repeat keeps_step.
Qed.

Lemma parsing_000_only_logged ext : keeps only_logged (Part000.parsing_package_json ext).
Proof.
  unfold Part000.parsing_package_json. destruct (packageJson ext); [|apply keeps_throw].
  repeat keeps_step.
Qed.

Lemma only_logged_dispatches w : only_logged w -> dispatches (output w) = 0%nat.
Proof. intros H. apply dispatched_dispatches, only_logged_not_dispatched, H. Qed.

(** How often the stories have been handed over when the script settles. *)
Lemma settled_dispatches (validating parsing : script unit)
      (flow : script (promise (list TestResults))) conf :
  keeps only_logged validating -> keeps only_logged parsing ->
  (forall w, exists r w',
      flow w = (Normal r, w')
      /\ ((output w' = output w /\ exists e, r = Rejected e)
          \/ exists stories, output w' = (output w ++ [testStories stories])%list)) ->
  match (validating;; parsing;; flow) (mkWorld conf []) with
  | (Throw _, w) => dispatches (output w) = 0%nat
  | (Normal (Rejected _), w) => (dispatches (output w) <= 1)%nat
  | (Normal (Resolved _), w) => dispatches (output w) = 1%nat
  end.
Proof.
  intros Hv Hp Hf. unfold mbind, script_bind, bind.
  pose proof (Hv (mkWorld conf []) eq_refl) as Hva.
  destruct (validating (mkWorld conf [])) as [[[]|e] wa]; cbn [snd] in Hva;
    [|apply only_logged_dispatches, Hva].
  pose proof (Hp wa Hva) as Hpb.
  destruct (parsing wa) as [[[]|e] wb]; cbn [snd] in Hpb;
    [|apply only_logged_dispatches, Hpb].
  apply only_logged_dispatches in Hpb.
  destruct (Hf wb) as (r & w' & Hflow & Hout). rewrite Hflow.
  destruct Hout as [[Hout [e ->]] | [stories Hout]]; rewrite Hout.
  - rewrite Hpb. lia.
  - rewrite dispatches_app, Hpb. destruct r; cbn; lia.
Qed.

(** X19: in every run the stories are handed to a runner at most once,
    and a run that never reaches a runner ends with exit code 1: the exit
    code is other than 1 only in runs in which the stories were handed
    over. Both revisions. *)
Theorem stories_are_dispatched_at_most_once :
  forall (ext : Collaborators) (y1 : Part001.Yargs) (y0 : Part000.Yargs)
         (conf : gmap string jsval),
    ((dispatches (console (Part001.cli ext y1 conf)) <= 1)%nat
     /\ (dispatched (console (Part001.cli ext y1 conf)) = false ->
         exit_code (ended (Part001.cli ext y1 conf)) = 1))
    /\ ((dispatches (console (Part000.cli ext y0 conf)) <= 1)%nat
        /\ (dispatched (console (Part000.cli ext y0 conf)) = false ->
            exit_code (ended (Part000.cli ext y0 conf)) = 1)).
Proof.
  intros ext y1 y0 conf. split.
  - pose proof (settled_dispatches (Part001.validating_configuration y1)
                  (Part001.parsing_package_json ext) (Part001.main_execution_flow ext) conf
                  (validating_001_only_logged y1) (parsing_001_only_logged ext)
                  (flow_001_outcome ext)) as Hsettled.
    fold (Part001.settle ext y1) in Hsettled.
    rewrite dispatched_dispatches, ended_001.
    unfold Part001.cli, run_script, Part001.script_body.
    unfold mbind, script_bind, bind.
    destruct (Part001.settle ext y1 (mkWorld conf [])) as [[[rs|err]|e] w].
    + pose proof (on_results_001_dispatches rs _ w eq_refl) as Hkeep.
      destruct (Part001.on_results rs w) as [[code|e] w']; cbn [console snd] in Hkeep |- *;
        rewrite Hkeep, Hsettled; (split; [lia | intros Hz; discriminate Hz]).
    + pose proof (on_error_001_dispatches y1 err _ w eq_refl) as Hkeep.
      destruct (Part001.on_error y1 err w) as [[code|e] w']; cbn [console snd] in Hkeep |- *;
        rewrite Hkeep; (split; [lia | intros _; reflexivity]).
    + cbn [console]. rewrite Hsettled. split; [lia | intros _; reflexivity].
  - pose proof (settled_dispatches Part000.validating_configuration
                  (Part000.parsing_package_json ext) (Part000.main_execution_flow ext) conf
                  validating_000_only_logged (parsing_000_only_logged ext)
                  (flow_000_outcome ext)) as Hsettled.
    fold (Part000.settle ext) in Hsettled.
    rewrite dispatched_dispatches, ended_000.
    unfold Part000.cli, run_script, Part000.script_body.
    unfold mbind, script_bind, bind.
    destruct (Part000.settle ext (mkWorld conf [])) as [[[rs|err]|e] w].
    + pose proof (on_results_000_dispatches rs _ w eq_refl) as Hkeep.
      destruct (Part000.on_results rs w) as [[code|e] w']; cbn [console snd] in Hkeep |- *;
        rewrite Hkeep, Hsettled; (split; [lia | intros Hz; discriminate Hz]).
    + pose proof (on_error_000_dispatches y0 err _ w eq_refl) as Hkeep.
      destruct (Part000.on_error y0 err w) as [[code|e] w']; cbn [console snd] in Hkeep |- *;
        rewrite Hkeep; (split; [lia | intros _; reflexivity]).
    + cbn [console]. rewrite Hsettled. split; [lia | intros _; reflexivity].
Qed.

End Dispatch.

(** * Runs of the further properties on sample inputs *)

Section FurtherWitnesses.

Lemma validated_address_and_viewports_witness :
  let w := snd (Part001.validating_configuration no_flags_001 (mkWorld sample_configs [])) in
  prop (configs w) "viewportSize"
  = JArr [JObj (<["width" := JNum 800]> (<["height" := JNum 600]> ∅))]
  /\ exists s', prop (configs w) "storybookAddress" = JStr s' /\ endsWith s' "/" = true.
Proof.
  cbv zeta.
  destruct (validated_address_and_viewports no_flags_001 sample_configs []
              (snd (Part001.validating_configuration no_flags_001 (mkWorld sample_configs []))))
    as [Haddr Hview].
  - left. vm_compute. reflexivity.
  - split.
    + exact (proj1 (Hview eq_refl)).
    + destruct (Haddr "http://localhost:9001" eq_refl ltac:(discriminate))
        as (s' & Hs' & Hends & _).
      exists s'. split; assumption.
Defined.

Lemma validation_is_idempotent_witness :
  let w := snd (Part001.validating_configuration no_flags_001 (mkWorld sample_configs [])) in
  exists w2,
    Part001.validating_configuration no_flags_001 (mkWorld (configs w) []) = (Normal tt, w2)
    /\ configs w2 = configs w.
Proof.
  cbv zeta.
  refine (proj1 (validation_is_idempotent no_flags_001 sample_configs [] []
                   (snd (Part001.validating_configuration no_flags_001
                           (mkWorld sample_configs [])))) _).
  vm_compute. reflexivity.
Defined.

Lemma package_json_fills_gaps_witness :
  exists w',
    Part001.parsing_package_json (collaborators_with (Resolved []))
      (mkWorld (<["appName" := JStr "configured"]> ∅) []) = (Normal tt, w')
    /\ prop (configs w') "appName" = JStr "configured"
    /\ prop (configs w') "storybookApp" = JStr "react"
    /\ prop (configs w') "storybookVersion" = JNum 3.
Proof.
  destruct (proj1 (package_json_fills_gaps (collaborators_with (Resolved []))
                     (<["name" := JStr "app"]> ∅)
                     (mkWorld (<["appName" := JStr "configured"]> ∅) []) eq_refl)
              (JStr "react") (JNum 3) eq_refl) as (w' & Hrun & _ & Hprops).
  exists w'. split; [exact Hrun|].
  rewrite !Hprops. repeat split.
Defined.


Lemma missing_configuration_file_witness :
  exit_code (ended (Load001.main (collaborators_with (Resolved [result_passed]))
                      (environment_with None)
                      (Load001.mkArgv "custom.config.js" false no_flags_001))) = 1
  /\ ended (Load000.main (collaborators_with (Resolved [result_passed]))
              (environment_with None)
              (Load000.mkArgv "applitools.config.js" no_flags_000))
     = process_exit None.
Proof.
  destruct (missing_configuration_file (collaborators_with (Resolved [result_passed]))
              (environment_with None)
              (Load001.mkArgv "custom.config.js" false no_flags_001)
              (Load000.mkArgv "applitools.config.js" no_flags_000)) as [H1 H0].
  split.
  - rewrite (proj1 (H1 eq_refl) ltac:(discriminate)). reflexivity.
  - rewrite (proj2 (H0 eq_refl) eq_refl). vm_compute. reflexivity.
Defined.

Lemma configuration_file_overrides_defaults_witness :
  exists w,
    Load001.loading_configuration (environment_with (Some sample_file))
      (Load001.mkArgv "applitools.config.js" false (Part001.mkYargs false false true))
      (mkWorld ∅ []) = (Normal tt, w)
    /\ prop (configs w) "apiKey" = JStr "file-key"
    /\ prop (configs w) "maxConcurrency" = JNum 10
    /\ prop (configs w) "showLogs" = JStr "verbose".
Proof.
  destruct (proj1 (configuration_file_overrides_defaults
                     (environment_with (Some sample_file))
                     (Load001.mkArgv "applitools.config.js" false
                        (Part001.mkYargs false false true))
                     (Load000.mkArgv "applitools.config.js" no_flags_000)
                     sample_file) eq_refl) as (w & Hrun & _ & Hprops).
  exists w. split; [exact Hrun|]. rewrite !Hprops. repeat split.
Defined.

(** The whole of [part_001] on the sample file, with the debug flag. *)
Example main_001_sample :
  let p := Load001.main (collaborators_with (Resolved [result_passed]))
             (environment_with (Some sample_file))
             (Load001.mkArgv "applitools.config.js" false (Part001.mkYargs false false true)) in
  ended p = process_exit (Some 0)
  /\ console p
     = [console_log [Text "Used eyes.storybook of version 1.5.0."];
        console_log [Text ("Configuration was loaded from " ++ DQ
                           ++ "/project/applitools.config.js" ++ DQ ++ ".")];
        testStories [JStr "Button"];
        console_log [Text (LF ++ "[EYES: TEST RESULTS]:")];
        console_log [Text "Button [800x600] - "; Coloured green "Passed"];
        console_log [Text "See details at"; Text "https://eyes/batches/1"]]
  /\ prop (final_configs p) "showEyesSdkLogs" = JStr "verbose"
  /\ prop (final_configs p) "apiKey" = JStr "file-key".
Proof. vm_compute. repeat split. Qed.

End FurtherWitnesses.
